(** * aibox: slot store, image fingerprints and volume policy

    A shallow embedding of the container orchestration core of aibox
    ([aibox/containers/slot.py], [aibox/containers/orchestrator.py],
    [aibox/containers/volumes.py], [aibox/profiles/generator.py]) and the
    properties of its specification that were checked against it.

    Conventions.  A Python [str] is represented by its UTF-8 bytes (a Rocq
    [string]); comparing two such strings byte by byte is comparing the
    Python strings code point by code point.  A Python [int] is a [Z].
    Exceptions are values of [exn]; a call that may raise returns a
    [result]. *)

From Stdlib Require Import ZArith NArith List Ascii String Lia Permutation Sorted.
From Stdlib Require Import OrderedTypeEx.
From stdpp Require Import gmap strings list pretty sorting.

Local Open Scope string_scope.
Local Open Scope list_scope.

(** ** Python strings *)

Module Str.

(** [sep.join(parts)] *)
Fixpoint join (sep : string) (parts : list string) : string :=
  match parts with
  | [] => ""
  | [p] => p
  | p :: rest => p +:+ sep +:+ join sep rest
  end.

(** [s[:n]] for [0 <= n] *)
Fixpoint take (n : nat) (s : string) : string :=
  match n, s with
  | S n', String c s' => String c (take n' s')
  | _, _ => ""
  end.

(** [s <= t] on [str]: lexicographic on code points. *)
Definition leb (s t : string) : bool := String.leb s t.

(** Insertion of [x] into a list sorted by [key], before the first element
    whose key is not smaller: elements with equal keys keep their order,
    as with Python's stable [sorted]. *)
Fixpoint insert_by {A K} (le : K -> K -> bool) (key : A -> K) (x : A) (l : list A)
  : list A :=
  match l with
  | [] => [x]
  | y :: ys => if le (key x) (key y) then x :: y :: ys
               else y :: insert_by le key x ys
  end.

(** [sorted(l, key=key)] *)
Definition sorted_by {A K} (le : K -> K -> bool) (key : A -> K) (l : list A) : list A :=
  foldr (insert_by le key) [] l.

(** [sorted(l)] for a list of [str] *)
Definition sorted (l : list string) : list string := sorted_by leb id l.

End Str.

(** ** SHA-256 ([hashlib.sha256]) *)

Module Sha256.
Local Open Scope N_scope.

Definition w32 (x : N) : N := x mod 0x100000000.
Definition add32 (x y : N) : N := w32 (x + y).
Definition rotr (n x : N) : N :=
  N.lor (N.shiftr x n) (w32 (N.shiftl x (32 - n))).
Definition not32 (x : N) : N := N.lxor x 0xffffffff.

Definition ch (x y z : N) : N := N.lxor (N.land x y) (N.land (not32 x) z).
Definition maj (x y z : N) : N :=
  N.lxor (N.lxor (N.land x y) (N.land x z)) (N.land y z).
Definition big_sigma0 (x : N) : N := N.lxor (N.lxor (rotr 2 x) (rotr 13 x)) (rotr 22 x).
Definition big_sigma1 (x : N) : N := N.lxor (N.lxor (rotr 6 x) (rotr 11 x)) (rotr 25 x).
Definition small_sigma0 (x : N) : N :=
  N.lxor (N.lxor (rotr 7 x) (rotr 18 x)) (N.shiftr x 3).
Definition small_sigma1 (x : N) : N :=
  N.lxor (N.lxor (rotr 17 x) (rotr 19 x)) (N.shiftr x 10).

(** The round constants [K_0 .. K_63], written in decimal. *)
Definition K : list N :=
  [ 1116352408; 1899447441; 3049323471; 3921009573;  961987163;
    1508970993; 2453635748; 2870763221; 3624381080;  310598401;
     607225278; 1426881987; 1925078388; 2162078206; 2614888103;
    3248222580; 3835390401; 4022224774;  264347078;  604807628;
     770255983; 1249150122; 1555081692; 1996064986; 2554220882;
    2821834349; 2952996808; 3210313671; 3336571891; 3584528711;
     113926993;  338241895;  666307205;  773529912; 1294757372;
    1396182291; 1695183700; 1986661051; 2177026350; 2456956037;
    2730485921; 2820302411; 3259730800; 3345764771; 3516065817;
    3600352804; 4094571909;  275423344;  430227734;  506948616;
     659060556;  883997877;  958139571; 1322822218; 1537002063;
    1747873779; 1955562222; 2024104815; 2227730452; 2361852424;
    2428436474; 2756734187; 3204031479; 3329325298 ].

(** The initial hash value [H_0 .. H_7], written in decimal. *)
Definition H0 : list N :=
  [ 1779033703; 3144134277; 1013904242; 2773480762;
    1359893119; 2600822924;  528734635; 1541459225 ].

(** Big-endian bytes of [x], [n] of them. *)
Fixpoint be_bytes (n : nat) (x : N) : list N :=
  match n with
  | O => []
  | S n' => (N.shiftr x (8 * N.of_nat n')) mod 256 :: be_bytes n' x
  end.

Definition be_word (bs : list N) : N :=
  fold_left (fun acc b => acc * 256 + b) bs 0.

(** The message followed by 0x80, zero bytes up to 56 modulo 64, and the
    bit length on 64 bits. *)
Definition pad (msg : list N) : list N :=
  let len := N.of_nat (length msg) in
  let zeros := (55 + 64 - len mod 64) mod 64 in
  msg ++ [0x80] ++ repeat 0 (N.to_nat zeros) ++ be_bytes 8 (8 * len).

(** Consecutive groups of [n] elements ([fuel] bounds their number). *)
Fixpoint chunks {A} (fuel n : nat) (l : list A) : list (list A) :=
  match fuel, l with
  | O, _ | _, [] => []
  | S fuel', _ => firstn n l :: chunks fuel' n (skipn n l)
  end.

Definition nth_w (l : list N) (i : nat) : N := nth i l 0.

(** Message schedule: 16 words of the block extended to 64. *)
Fixpoint extend (rounds : nat) (w : list N) : list N :=
  match rounds with
  | O => w
  | S r =>
      let i := length w in
      let x := add32 (add32 (small_sigma1 (nth_w w (i - 2))) (nth_w w (i - 7)))
                     (add32 (small_sigma0 (nth_w w (i - 15))) (nth_w w (i - 16))) in
      extend r (w ++ [x])
  end.

Record regs := Regs { ra : N; rb : N; rc : N; rd : N; re : N; rf : N; rg : N; rh : N }.

Definition round (s : regs) (kw : N * N) : regs :=
  let t1 := add32 (add32 (add32 (rh s) (big_sigma1 (re s)))
                         (add32 (ch (re s) (rf s) (rg s)) (fst kw))) (snd kw) in
  let t2 := add32 (big_sigma0 (ra s)) (maj (ra s) (rb s) (rc s)) in
  Regs (add32 t1 t2) (ra s) (rb s) (rc s) (add32 (rd s) t1) (re s) (rf s) (rg s).

Definition regs_of (h : list N) : regs :=
  Regs (nth_w h 0) (nth_w h 1) (nth_w h 2) (nth_w h 3)
       (nth_w h 4) (nth_w h 5) (nth_w h 6) (nth_w h 7).

Definition compress (h : list N) (block : list N) : list N :=
  let w := extend 48 (map be_word (chunks 16 4 block)) in
  let s0 := regs_of h in
  let s := fold_left round (combine K w) s0 in
  [ add32 (ra s0) (ra s); add32 (rb s0) (rb s); add32 (rc s0) (rc s);
    add32 (rd s0) (rd s); add32 (re s0) (re s); add32 (rf s0) (rf s);
    add32 (rg s0) (rg s); add32 (rh s0) (rh s) ].

Definition digest_words (msg : list N) : list N :=
  let p := pad msg in
  fold_left compress (chunks (length p) 64 p) H0.

Definition hex_digit (d : N) : ascii :=
  match d with
  | 0 => "0" | 1 => "1" | 2 => "2" | 3 => "3" | 4 => "4" | 5 => "5" | 6 => "6"
  | 7 => "7" | 8 => "8" | 9 => "9" | 10 => "a" | 11 => "b" | 12 => "c"
  | 13 => "d" | 14 => "e" | _ => "f"
  end%char.

(** Eight lower-case hexadecimal digits of a 32-bit word. *)
Definition hex_word (x : N) : string :=
  string_of_list_ascii
    (map (fun i => hex_digit ((N.shiftr x (4 * i)) mod 16)) [7; 6; 5; 4; 3; 2; 1; 0]).

Definition bytes_of_string (s : string) : list N :=
  map N_of_ascii (list_ascii_of_string s).

(** [hashlib.sha256(s.encode("utf-8")).hexdigest()] *)
Definition hexdigest (s : string) : string :=
  let h := digest_words (bytes_of_string s) in
  String.concat "" (map (fun i => hex_word (nth_w h i)) (seq 0 8)).

End Sha256.

(** ** Exceptions and results *)

Inductive exn : Type :=
  | NoAvailableSlotsError
  | SlotNotFoundError
  | AiboxError
  | ConfigNotFoundError
  | ProviderNotFoundError
  | ProviderConfigError
  | ProfileNotFoundError
  | InvalidProfileError
  | ImageBuildError
  | ContainerStartError
  | DockerError
  | DockerNotFoundError
  | TypeError
  | AttributeError
  | OSError
  | ValueError
  | KeyError.

Inductive result (A : Type) : Type :=
  | Ok (a : A)
  | Raise (e : exn).
Arguments Ok {A} a.
Arguments Raise {A} e.

Definition bind {A B} (r : result A) (k : A -> result B) : result B :=
  match r with
  | Ok a => k a
  | Raise e => Raise e
  end.

Notation "x <- r ;; k" := (bind r (fun x => k))
  (at level 100, r at next level, right associativity).

(** [[f(x) for x in l]] where [f] may raise. *)
Fixpoint mapM {A B} (f : A -> result B) (l : list A) : result (list B) :=
  match l with
  | [] => Ok []
  | x :: xs => y <- f x ;; ys <- mapM f xs ;; Ok (y :: ys)
  end.

(** ** More of [str] *)

Module PyStr.

Definition nl : string := String "010"%char "".
Definition dq : string := String "034"%char "".
Definition bs : string := String "092"%char "".

Definition upper_char (c : ascii) : ascii :=
  let n := nat_of_ascii c in
  if (97 <=? n)%nat && (n <=? 122)%nat then ascii_of_nat (n - 32) else c.

(** [s.upper()], on ASCII letters (profile names are validated against
    [^[a-z0-9-]+$]). *)
Fixpoint upper (s : string) : string :=
  match s with
  | "" => ""
  | String c s' => String (upper_char c) (upper s')
  end.

Definition lower_char (c : ascii) : ascii :=
  let n := nat_of_ascii c in
  if (65 <=? n)%nat && (n <=? 90)%nat then ascii_of_nat (n + 32) else c.

(** [s.lower()], on ASCII letters. *)
Fixpoint lower (s : string) : string :=
  match s with
  | "" => ""
  | String c s' => String (lower_char c) (lower s')
  end.

Fixpoint replace_go (old new : string) (skip : nat) (s : string) : string :=
  match s with
  | "" => ""
  | String c s' =>
      match skip with
      | S k => replace_go old new k s'
      | O => if String.prefix old s
             then new +:+ replace_go old new (String.length old - 1) s'
             else String c (replace_go old new 0 s')
      end
  end.

Fixpoint intersperse_go (new : string) (s : string) : string :=
  match s with
  | "" => ""
  | String c s' => String c (new +:+ intersperse_go new s')
  end.

(** [s.replace(old, new)]: occurrences are found left to right and do not
    overlap; an empty [old] matches before every character and at the end. *)
Definition replace (old new s : string) : string :=
  match old with
  | "" => new +:+ intersperse_go new s
  | _ => replace_go old new 0 s
  end.

(** ASCII white space, as removed by [strip()].  On a [str] Python also
    removes the other white space of Unicode (NO-BREAK SPACE and the
    like), which these functions keep: they are [strip()] on ASCII text. *)
Definition is_space (c : ascii) : bool :=
  let n := nat_of_ascii c in
  ((9 <=? n)%nat && (n <=? 13)%nat) || ((28 <=? n)%nat && (n <=? 32)%nat).

Fixpoint lstrip (s : string) : string :=
  match s with
  | String c s' => if is_space c then lstrip s' else s
  | "" => ""
  end.

Fixpoint rstrip (s : string) : string :=
  match s with
  | "" => ""
  | String c s' =>
      match rstrip s' with
      | "" => if is_space c then "" else String c ""
      | r => String c r
      end
  end.

(** [s.strip()] *)
Definition strip (s : string) : string := rstrip (lstrip s).

(** [s.split(sep)] for a one-character separator. *)
Fixpoint split (sep : ascii) (s : string) : list string :=
  match s with
  | "" => [""]
  | String c s' =>
      if Ascii.eqb c sep then "" :: split sep s'
      else match split sep s' with
           | w :: ws => String c w :: ws
           | [] => [String c ""]
           end
  end.

(** [s.split(sep, 1)]: the text before the first separator and, when there
    is one, the text after it. *)
Fixpoint split1 (sep : ascii) (s : string) : string * option string :=
  match s with
  | "" => ("", None)
  | String c s' =>
      if Ascii.eqb c sep then ("", Some s')
      else let '(a, b) := split1 sep s' in (String c a, b)
  end.

End PyStr.

(** ** YAML values and Python dictionaries *)

(** The values a slot record can hold: [None], an [int] or a [str]. *)
Inductive scalar : Type :=
  | SNone
  | SInt (z : Z)
  | SStr (s : string).

(** A [dict] with [str] keys, in insertion order. *)
Definition dict : Type := list (string * scalar).

(** What [yaml.safe_load] returns: a scalar (the empty document loads as
    [None]), a sequence or a mapping. *)
Inductive yaml : Type :=
  | YScalar (v : scalar)
  | YSeq (l : list scalar)
  | YMap (d : dict).

Module Py.

(** Truth value of a Python object. *)
Definition truthy_scalar (v : scalar) : bool :=
  match v with
  | SNone => false
  | SInt z => negb (z =? 0)%Z
  | SStr s => negb (String.eqb s "")
  end.

Definition truthy (y : yaml) : bool :=
  match y with
  | YScalar v => truthy_scalar v
  | YSeq l => match l with [] => false | _ => true end
  | YMap d => match d with [] => false | _ => true end
  end.

(** [d[k]], when the key is there. *)
Fixpoint lookup {A} (k : string) (d : list (string * A)) : option A :=
  match d with
  | [] => None
  | (k', v) :: d' => if String.eqb k k' then Some v else lookup k d'
  end.

(** [d.get(k)] *)
Definition get (k : string) (d : dict) : scalar :=
  match lookup k d with
  | Some v => v
  | None => SNone
  end.

(** [d[k] = v]: an existing key keeps its place, a new one goes last. *)
Fixpoint set {A} (k : string) (v : A) (d : list (string * A)) : list (string * A) :=
  match d with
  | [] => [(k, v)]
  | (k', v') :: d' => if String.eqb k k' then (k, v) :: d' else (k', v') :: set k v d'
  end.

(** [{**d, **e}] *)
Definition update {A} (d e : list (string * A)) : list (string * A) :=
  fold_left (fun acc kv => set (fst kv) (snd kv) acc) e d.

Definition digit (c : ascii) : option Z :=
  let n := nat_of_ascii c in
  if (48 <=? n)%nat && (n <=? 57)%nat then Some (Z.of_nat (n - 48)) else None.

(** Decimal digits, single underscores allowed between two digits. *)
Fixpoint digits_go (acc : Z) (after_digit : bool) (s : string) : option Z :=
  match s with
  | "" => if after_digit then Some acc else None
  | String c s' =>
      match digit c with
      | Some d => digits_go (10 * acc + d) true s'
      | None => if Ascii.eqb c "_" && after_digit then digits_go acc false s' else None
      end
  end.

(** [int(s)] for a [str]: [None] stands for [ValueError].  White space
    around the number, a sign and underscores between digits are
    accepted; digits and white space are the ASCII ones.  Python also
    reads the decimal digits of other scripts and strips the other white
    space of Unicode: this is [int] on ASCII text. *)
Definition int (s : string) : option Z :=
  match PyStr.strip s with
  | "" => None
  | String c r =>
      if Ascii.eqb c "+" then digits_go 0 false r
      else if Ascii.eqb c "-" then option_map Z.opp (digits_go 0 false r)
      else digits_go 0 false (String c r)
  end.

(** [str(v)], as used by an f-string. *)
Definition str (v : scalar) : string :=
  match v with
  | SNone => "None"
  | SInt z => pretty z
  | SStr s => s
  end.

End Py.

(** ** Profiles ([aibox/profiles/models.py], [loader.py], [generator.py]) *)

Record ProfileDefinition : Type := {
  name : string;
  description : string;
  versions : list string;
  default_version : string;
  system_dependencies : list string;
  env_vars : list (string * string);
  docker_layers : list string;
  post_install : list string;
}.

Module Profile.
Import PyStr.

Definition version_var (p : ProfileDefinition) : string :=
  "${" +:+ upper (name p) +:+ "_VERSION}".

Definition substitute (p : ProfileDefinition) (version s : string) : string :=
  replace (version_var p) version (replace "${VERSION}" version s).

Definition get_version (p : ProfileDefinition) (requested_version : option string)
  : result string :=
  match requested_version with
  | None => Ok (default_version p)
  | Some v => if bool_decide (v ∈ versions p) then Ok v else Raise InvalidProfileError
  end.

Definition get_env_vars_with_version (p : ProfileDefinition) (version : string)
  : list (string * string) :=
  map (fun kv => (fst kv, substitute p version (snd kv))) (env_vars p).

Definition get_docker_layers_with_version (p : ProfileDefinition) (version : string)
  : list string :=
  map (substitute p version) (docker_layers p).

Definition get_post_install_with_version (p : ProfileDefinition) (version : string)
  : list string :=
  map (substitute p version) (post_install p).

End Profile.

Module ProfileLoader.
Import PyStr.

(** The profile definitions directory: the definition stored under a
    profile name, if there is one. *)
Definition catalog : Type := string -> option ProfileDefinition.

Definition _parse_spec (spec : string) : result (string * option string) :=
  let '(head, rest) := split1 ":"%char spec in
  let name := strip head in
  if String.eqb name "" then Raise InvalidProfileError
  else Ok (name, option_map strip rest).

Definition _load_profile_definition (c : catalog) (name : string)
  : result ProfileDefinition :=
  match c name with
  | Some p => Ok p
  | None => Raise ProfileNotFoundError
  end.

Definition load_profile (c : catalog) (profile_spec : string)
  : result (ProfileDefinition * string) :=
  nv <- _parse_spec profile_spec ;;
  profile <- _load_profile_definition c (fst nv) ;;
  version <- Profile.get_version profile (snd nv) ;;
  Ok (profile, version).

End ProfileLoader.

Module DockerfileGenerator.
Import PyStr.

Definition version_arg (p : ProfileDefinition) : string :=
  upper (name p) +:+ "_VERSION".

(** [sorted(s)] for a [set] built from the elements of [l]. *)
Definition sorted_set (l : list string) : list string :=
  Str.sorted (remove_dups l).

Definition _collect_system_dependencies
    (profiles_with_versions : list (ProfileDefinition * string)) : list string :=
  concat (map (fun pv => system_dependencies (fst pv)) profiles_with_versions).

Definition _collect_post_install_commands
    (profiles_with_versions : list (ProfileDefinition * string)) : list string :=
  concat (map (fun pv => Profile.get_post_install_with_version (fst pv) (snd pv))
              profiles_with_versions).

(** The package lines of the [apt-get install] command: every line but
    the last ends the shell line, the last one chains the next command. *)
Fixpoint package_lines (pkgs : list string) : list string :=
  match pkgs with
  | [] => []
  | [p] => ["    " +:+ p +:+ " && " +:+ bs]
  | p :: rest => ("    " +:+ p +:+ " " +:+ bs) :: package_lines rest
  end.

Definition _generate_profile_section (profile : ProfileDefinition) (version : string)
  : list string :=
  ["# Install " +:+ name profile +:+ " " +:+ version]
  ++ map (fun kv => "ENV " +:+ fst kv +:+ "=" +:+ snd kv)
         (Profile.get_env_vars_with_version profile version)
  ++ Profile.get_docker_layers_with_version profile version
  ++ [""].

Definition _generate_ai_cli_section (ai_provider : string) : list string :=
  [ "# Prepare npm-global directory for AI CLI installation";
    "RUN mkdir -p /home/aibox/npm-global && " +:+ bs;
    "    chown -R aibox:aibox /home/aibox/npm-global";
    "" ]
  ++
  (if String.eqb ai_provider "claude" then
     [ "# Install Claude Code CLI at build time (as aibox user)";
       "USER aibox";
       "RUN npm install -g @anthropic-ai/claude-code";
       "USER root";
       "" ]
   else if String.eqb ai_provider "gemini" then
     [ "# Install Gemini CLI at build time (as aibox user)";
       "USER aibox";
       "RUN npm install -g @google/gemini-cli";
       "USER root";
       "" ]
   else if String.eqb ai_provider "openai" then
     [ "# Install OpenAI Codex CLI at build time (as aibox user)";
       "USER aibox";
       "RUN npm install -g @openai/codex";
       "USER root";
       "";
       "# Create OAuth port forwarder script for Codex CLI";
       "# Codex binds OAuth server to 127.0.0.1:1455 inside container";
       "# This script forwards container_ip:1455 -> 127.0.0.1:1455";
       "# Allows host browser to reach OAuth callback via Docker port mapping";
       "RUN printf '#!/bin/bash" +:+ bs +:+ "nset -e" +:+ bs +:+ "n" +:+ bs +:+ "n# Ensure npm global bin is on PATH for codex/claude/gemini" +:+ bs +:+ "nexport PATH=" +:+ bs +:+ dq +:+ "/home/aibox/npm-global/bin:$PATH" +:+ bs +:+ dq +:+ bs +:+ "n" +:+ bs +:+ "n# Get container IP (not 127.0.0.1)" +:+ bs +:+ "nCONTAINER_IP=$(hostname -i | awk '" +:+ bs +:+ "''{print $1}'" +:+ bs +:+ "'')" +:+ bs +:+ "n" +:+ bs +:+ "n# Start socat in background to forward from container IP to localhost" +:+ bs +:+ "n# socat will listen for connections and forward them to 127.0.0.1:1455" +:+ bs +:+ "n# where codex will bind its OAuth server" +:+ bs +:+ "nsocat TCP-LISTEN:1455,fork,reuseaddr,bind=" +:+ bs +:+ dq +:+ "$CONTAINER_IP" +:+ bs +:+ dq +:+ " TCP:127.0.0.1:1455 &" +:+ bs +:+ "nSOCAT_PID=$!" +:+ bs +:+ "n" +:+ bs +:+ "n# Function to cleanup on exit" +:+ bs +:+ "ncleanup() {" +:+ bs +:+ "n    kill $SOCAT_PID 2>/dev/null || true" +:+ bs +:+ "n}" +:+ bs +:+ "ntrap cleanup EXIT INT TERM" +:+ bs +:+ "n" +:+ bs +:+ "n# Run codex in foreground so it has access to stdin/stdout/stderr" +:+ bs +:+ "n# This is critical for interactive use - backgrounding breaks terminal I/O" +:+ bs +:+ "ncodex " +:+ bs +:+ dq +:+ "$@" +:+ bs +:+ dq +:+ bs +:+ "n' > /usr/local/bin/codex-wrapper && chmod +x /usr/local/bin/codex-wrapper";
       "" ]
   else []).

(** [DockerfileGenerator(base_image).generate(profiles_with_versions, ai_provider)] *)
Definition generate (base_image : string)
    (profiles_with_versions : list (ProfileDefinition * string))
    (ai_provider : option string) : string :=
  let install_packages :=
    Str.sorted ("nodejs" ::
                sorted_set (_collect_system_dependencies profiles_with_versions ++ ["bash"])) in
  let post_install_commands := _collect_post_install_commands profiles_with_versions in
  Str.join nl (
    [ "FROM " +:+ base_image;
      "";
      "# Base setup";
      "" ]
    ++ map (fun pv => "ARG " +:+ version_arg (fst pv) +:+ "=" +:+ snd pv)
           profiles_with_versions
    ++ [ "";
         "# Create aibox user with UID 1000 for volume mount compatibility";
         "RUN adduser --disabled-password --gecos " +:+ dq +:+ dq +:+ " --uid 1000 aibox";
         "" ]
    ++ [ "# Install Node.js 20 (required for AI CLIs) and system packages";
         "RUN apt-get update && " +:+ bs;
         "    apt-get install -y --no-install-recommends curl ca-certificates gnupg && " +:+ bs;
         "    mkdir -p /etc/apt/keyrings && " +:+ bs;
         "    curl -fsSL https://deb.nodesource.com/gpgkey/nodesource-repo.gpg.key | " +:+ bs;
         "    gpg --dearmor -o /etc/apt/keyrings/nodesource.gpg && " +:+ bs;
         "    echo " +:+ dq +:+ "deb [signed-by=/etc/apt/keyrings/nodesource.gpg] https://deb.nodesource.com/node_20.x nodistro main" +:+ dq +:+ " > /etc/apt/sources.list.d/nodesource.list && " +:+ bs;
         "    apt-get update && " +:+ bs;
         "    apt-get install -y --no-install-recommends " +:+ bs ]
    ++ package_lines install_packages
    ++ [ "    rm -rf /var/lib/apt/lists/*";
         "" ]
    ++ [ "# Configure npm global package installation directory";
         "ENV NPM_CONFIG_PREFIX=" +:+ dq +:+ "/home/aibox/npm-global" +:+ dq;
         "ENV PATH=" +:+ dq +:+ "/home/aibox/npm-global/bin:$PATH" +:+ dq;
         "" ]
    ++ concat (map (fun pv => _generate_profile_section (fst pv) (snd pv))
                   profiles_with_versions)
    ++ match ai_provider with
       | Some p => if String.eqb p "" then [] else _generate_ai_cli_section p
       | None => []
       end
    ++ [ "# Set up working environment";
         "RUN chown -R aibox:aibox /home/aibox";
         "USER aibox";
         "" ]
    ++ match post_install_commands with
       | [] => []
       | _ => ["# Run profile post-install commands"]
              ++ map (fun cmd => "RUN " +:+ cmd) post_install_commands
              ++ [""]
       end
    ++ [ "WORKDIR /workspace";
         "" ]
    ++ [ "# Default command";
         "CMD [" +:+ dq +:+ "/bin/bash" +:+ dq +:+ "]" ]).

(** [DockerfileGenerator.generate_build_args] *)
Definition generate_build_args
    (profiles_with_versions : list (ProfileDefinition * string)) : list (string * string) :=
  fold_left (fun acc pv => Py.set (version_arg (fst pv)) (snd pv) acc)
            profiles_with_versions [].

(** [DockerfileGenerator._get_provider_packages] *)
Definition _get_provider_packages (ai_provider : string) : list string :=
  if String.eqb ai_provider "openai" then ["socat"] else [].

(** [DockerfileGenerator.generate_provider_layer] *)
Definition generate_provider_layer (base_tag ai_provider : string) : string :=
  let provider_packages := _get_provider_packages ai_provider in
  Str.join nl (
    [ "FROM " +:+ base_tag; ""; "USER root"; "" ]
    ++ match provider_packages with
       | [] => []
       | _ => [ "# Provider-specific system packages";
                "RUN apt-get update && " +:+ bs;
                "    apt-get install -y --no-install-recommends " +:+ bs ]
              ++ package_lines provider_packages
              ++ [ "    rm -rf /var/lib/apt/lists/*";
                   "" ]
       end
    ++ _generate_ai_cli_section ai_provider
    ++ [ "USER aibox";
         "" ]).

End DockerfileGenerator.

(** ** Image fingerprints ([aibox/containers/orchestrator.py]) *)

Module Fingerprint.
Import PyStr.

(** [ContainerOrchestrator._generate_base_image_hash] *)
Definition _generate_base_image_hash
    (dockerfile_content base_image : string) (profiles : list string) : string :=
  let content_parts :=
    [dockerfile_content; base_image; Str.join "," (Str.sorted profiles)] in
  let content_str := Str.join nl content_parts in
  Str.take 12 (Sha256.hexdigest content_str).

(** [ContainerOrchestrator._generate_provider_image_hash] *)
Definition _generate_provider_image_hash
    (dockerfile_content provider_name base_hash : string) : string :=
  let content_parts := [dockerfile_content; provider_name; base_hash] in
  let content_str := Str.join nl content_parts in
  Str.take 12 (Sha256.hexdigest content_str).

(** The base fingerprint as [start_container] computes it (steps 4 and 5):
    the profiles of the project are loaded in the order of the
    configuration, the base Dockerfile is generated from them, and the
    hash is taken of that Dockerfile, the base image and the profile
    specifications. *)
Definition base_fingerprint (c : ProfileLoader.catalog)
    (base_image : string) (profiles : list string) : result string :=
  profiles_with_versions <- mapM (ProfileLoader.load_profile c) profiles ;;
  let base_dockerfile :=
    DockerfileGenerator.generate base_image profiles_with_versions None in
  Ok (_generate_base_image_hash base_dockerfile base_image profiles).

End Fingerprint.

(** ** The file system below the project storage directory

    The root of the tree is [~/.aibox/projects/<project_storage_dir>]; a
    path is the list of names leading from it.  The directories above the
    root are taken to exist.  A file holds text, what [read_text()] gives:
    a file whose bytes are not UTF-8, on which [read_text()] raises
    [UnicodeDecodeError], is not among these trees. *)

#[warnings="-register-all"]
Inductive node (text : Type) : Type :=
  | File (content : text)
  | Dir (entries : gmap string (node text)).
Arguments File {text} content.
Arguments Dir {text} entries.

Definition path : Type := list string.

Module Fs.
Section Ops.
Context {text : Type}.
Abbreviation node := (node text).

Fixpoint lookup_path (p : path) (n : node) : option node :=
match p with
| [] => Some n
| c :: p' =>
    match n with
    | Dir es => es !! c ≫= lookup_path p'
    | File _ => None
    end
end.

(** [p.exists()] *)
Definition exists_ (p : path) (fs : node) : bool :=
match lookup_path p fs with Some _ => true | None => false end.

(** [p.is_dir()] *)
Definition is_dir (p : path) (fs : node) : bool :=
match lookup_path p fs with Some (Dir _) => true | _ => false end.

(** [p.is_file()] *)
Definition is_file (p : path) (fs : node) : bool :=
match lookup_path p fs with Some (File _) => true | _ => false end.

(** [p.mkdir(parents=True, exist_ok=True)]: fails when [p] or one of its
  ancestors is a file. *)
Fixpoint mkdir_p (p : path) (n : node) : result node :=
match n with
| File _ => Raise OSError
| Dir es =>
    match p with
    | [] => Ok n
    | c :: p' =>
        child <- mkdir_p p' (default (Dir ∅) (es !! c)) ;;
        Ok (Dir (<[c := child]> es))
    end
end.

(** [p.write_text(t)]: the parent has to be a directory and [p] must not
  be one. *)
Fixpoint write_text (p : path) (t : text) (n : node) : result node :=
match n, p with
| Dir es, [c] =>
    match es !! c with
    | Some (Dir _) => Raise OSError
    | _ => Ok (Dir (<[c := File t]> es))
    end
| Dir es, c :: p' =>
    match es !! c with
    | Some child => child' <- write_text p' t child ;; Ok (Dir (<[c := child']> es))
    | None => Raise OSError
    end
| _, _ => Raise OSError
end.

(** [p.read_text()] *)
Definition read_text (p : path) (fs : node) : result text :=
match lookup_path p fs with
| Some (File t) => Ok t
| _ => Raise OSError
end.

(** The tree without the entry at [p] ([None] when there is none). *)
Fixpoint detach (p : path) (n : node) : option node :=
match n, p with
| Dir es, [c] =>
    match es !! c with
    | Some _ => Some (Dir (delete c es))
    | None => None
    end
| Dir es, c :: p' =>
    child ← es !! c; child' ← detach p' child; Some (Dir (<[c := child']> es))
| _, _ => None
end.

(** The tree with [x] as the entry at [p], replacing what is there; the
  parent has to be a directory. *)
Fixpoint attach (p : path) (x : node) (n : node) : result node :=
match n, p with
| Dir es, [c] => Ok (Dir (<[c := x]> es))
| Dir es, c :: p' =>
    match es !! c with
    | Some child => child' <- attach p' x child ;; Ok (Dir (<[c := child']> es))
    | None => Raise OSError
    end
| _, _ => Raise OSError
end.

(** [os.rename(src, dst)] once [shutil.move] has chosen the destination. *)
Definition rename (src dst : path) (fs : node) : result node :=
match lookup_path src fs, detach src fs with
| Some x, Some fs' => attach dst x fs'
| _, _ => Raise OSError
end.

Definition is_prefix (p q : path) : bool := bool_decide (p `prefix_of` q).

(** [shutil.move(src, dst)].  An existing directory [dst] receives the
  source as a new entry named like it, and the move fails when that
  entry is already there; a file is replaced by a moved file; nothing
  is moved into itself. *)
Definition move (src dst : path) (fs : node) : result node :=
match lookup_path src fs with
| None => Raise OSError
| Some x =>
    match lookup_path dst fs with
    | Some (Dir _) =>
        if bool_decide (src = dst) then Ok fs
        else
          let real_dst := dst ++ [List.last src ""] in
          if exists_ real_dst fs then Raise OSError
          else if is_prefix src real_dst then Raise OSError
          else rename src real_dst fs
    | Some (File _) =>
        match x with
        | File _ => if bool_decide (src = dst) then Ok fs else rename src dst fs
        | Dir _ => Raise OSError
        end
    | None =>
        if is_prefix src dst then Raise OSError else rename src dst fs
    end
end.

(** [shutil.rmtree(p)] for an existing [p] *)
Definition rmtree (p : path) (fs : node) : node :=
default fs (detach p fs).

(** [sorted(d.glob(prefix + "*"))], as entry names: the entries of the
  directory [d] whose name starts with [prefix], in the order of
  [str]. *)
Definition sorted_glob (d : path) (pre : string) (fs : node) : list string :=
match lookup_path d fs with
| Some (Dir es) =>
    Str.sorted (filter (fun nm => String.prefix pre nm = true) (map fst (map_to_list es)))
| _ => []
end.

End Ops.
End Fs.

(** ** Slots ([aibox/containers/slot.py])

    [yaml.dump] and [yaml.safe_load] belong to PyYAML: they are parameters
    of the development, together with the type [text] of what a text file
    holds.  [yaml_safe_load] answers [None] where PyYAML raises
    [YAMLError]. *)

Module Slot.
Section WithYaml.
Context {text : Type}.
Variable yaml_dump : yaml -> text.
Variable yaml_safe_load : text -> option yaml.
Abbreviation node := (node text).

(** *** [SlotConfig] *)

Definition slots_dir : path := ["slots"].
Definition slot_name (slot_num : Z) : string := "slot-" +:+ pretty slot_num.
Definition slot_dir (slot_num : Z) : path := slots_dir ++ [slot_name slot_num].
Definition config_path (slot_num : Z) : path := slot_dir slot_num ++ ["metadata.yml"].

(** [SlotConfig.exists] *)
Definition exists_ (slot_num : Z) (fs : node) : bool :=
Fs.exists_ (config_path slot_num) fs.

(** The dictionary [SlotConfig.save] writes; [created_at] and [last_used]
  are the two readings of [datetime.now(UTC).isoformat()]. *)
Definition record (ai_provider container_name created_at last_used : string) : dict :=
[ ("ai_provider", SStr ai_provider);
  ("container_name", SStr container_name);
  ("created_at", SStr created_at);
  ("last_used", SStr last_used) ].

(** [SlotConfig.save] *)
Definition save (slot_num : Z) (ai_provider container_name created_at last_used : string)
  (fs : node) : result node :=
fs1 <- Fs.mkdir_p (slot_dir slot_num) fs ;;
let data := record ai_provider container_name created_at last_used in
Fs.write_text (config_path slot_num) (yaml_dump (YMap data)) fs1.

(** [SlotConfig.load] *)
Definition load (slot_num : Z) (fs : node) : option yaml :=
if negb (Fs.exists_ (config_path slot_num) fs) then None
else
  match Fs.read_text (config_path slot_num) fs with
  | Raise _ => None
  | Ok t =>
      match yaml_safe_load t with
      | None => None
      | Some data => if Py.truthy data then Some data else None
      end
  end.

(** [config.get(k) if config else None]; a loaded value that is not a
  mapping has no [get]. *)
Definition get_field (k : string) (config : option yaml) : result scalar :=
match config with
| None => Ok SNone
| Some (YMap d) => Ok (Py.get k d)
| Some _ => Raise AttributeError
end.

(** [SlotConfig.get_ai_provider] *)
Definition get_ai_provider (slot_num : Z) (fs : node) : result scalar :=
get_field "ai_provider" (load slot_num fs).

(** [SlotConfig.get_container_name] *)
Definition get_container_name (slot_num : Z) (fs : node) : result scalar :=
get_field "container_name" (load slot_num fs).

(** [SlotConfig.update_last_used] *)
Definition update_last_used (slot_num : Z) (now : string) (fs : node) : result node :=
match load slot_num fs with
| None => Ok fs
| Some (YMap d) =>
    Fs.write_text (config_path slot_num)
                  (yaml_dump (YMap (Py.set "last_used" (SStr now) d))) fs
| Some _ => Raise TypeError
end.

(** [SlotConfig.delete] *)
Definition delete (slot_num : Z) (fs : node) : node :=
if Fs.exists_ (slot_dir slot_num) fs then Fs.rmtree (slot_dir slot_num) fs else fs.

(** *** [SlotManager] *)

Fixpoint find_from (count : nat) (i : Z) (fs : node) : result Z :=
match count with
| O => Raise NoAvailableSlotsError
| S count' => if exists_ i fs then find_from count' (i + 1) fs else Ok i
end.

(** [SlotManager.find_available_slot]: the loop over
  [range(start, max_slots + 1)]. *)
Definition find_available_slot (max_slots start : Z) (fs : node) : result Z :=
find_from (Z.to_nat (max_slots + 1 - start)) start fs.

(** [SlotManager.get_slot]; the [SlotConfig] it returns is identified by
  its number. *)
Definition get_slot (slot_num : Z) : result Z :=
if (slot_num <? 1)%Z then Raise SlotNotFoundError else Ok slot_num.

(** One round of the loop of [list_slots], for the entry named [nm]: the
  dictionary appended to the result, if any.  A record that loads as
  something else than a mapping cannot be unpacked by [**config]. *)
Definition list_entry (nm : string) (fs : node) : result (option dict) :=
if negb (Fs.is_dir (slots_dir ++ [nm]) fs) then Ok None
else
  match nth_error (PyStr.split "-" nm) 1 with
  | None => Ok None
  | Some field =>
      match Py.int field with
      | None => Ok None
      | Some slot_num =>
          match load slot_num fs with
          | None => Ok None
          | Some (YMap config) => Ok (Some (Py.update [("slot", SInt slot_num)] config))
          | Some _ => Raise TypeError
          end
      end
  end.

Fixpoint list_entries (names : list string) (fs : node) : result (list dict) :=
match names with
| [] => Ok []
| nm :: rest =>
    e <- list_entry nm fs ;;
    slots <- list_entries rest fs ;;
    Ok (match e with Some d => d :: slots | None => slots end)
end.

(** [SlotManager.list_slots] *)
Definition list_slots (fs : node) : result (list dict) :=
if negb (Fs.exists_ slots_dir fs) then Ok []
else list_entries (Fs.sorted_glob slots_dir "slot-" fs) fs.

(** [int(slot["slot"])].  The entry always has the key; a record that
  carries a ["slot"] key of its own overrides the number of the directory,
  and [int] reads a [str] there as it reads any text. *)
Definition slot_int (e : dict) : result Z :=
match Py.lookup "slot" e with
| Some (SInt z) => Ok z
| Some (SStr s) =>
    match Py.int s with
    | Some z => Ok z
    | None => Raise ValueError
    end
| Some SNone => Raise TypeError
| None => Raise KeyError
end.

(** [SlotManager.get_next_slot_number]; [max] is taken of a list that is
  not empty. *)
Definition get_next_slot_number (max_slots : Z) (fs : node) : result Z :=
slots <- list_slots fs ;;
match slots with
| [] => Ok 1%Z
| _ =>
    nums <- mapM slot_int slots ;;
    let max_slot := foldr Z.max (hd 0%Z nums) (tl nums) in
    let next_slot := (max_slot + 1)%Z in
    if (max_slots <? next_slot)%Z then Raise NoAvailableSlotsError else Ok next_slot
end.

(** [s["slot"]] as the key [renumber_slots] sorts by and goes on with.
  The key is the [int] that [list_slots] puts there, unless the record
  carries a ["slot"] key of its own.  Only an [int] is followed here: for
  any other value this answers [TypeError], where the code goes on as far
  as [sorted] can compare the keys and then takes the value for the old
  slot number.  What is stated of [renumber_slots] below is stated for
  records without a key ["slot"] of their own. *)
Definition slot_of (e : dict) : result Z :=
match Py.lookup "slot" e with
| Some (SInt z) => Ok z
| _ => Raise TypeError
end.

(** [sorted(slots, key=lambda s: s["slot"])], each entry with its key. *)
Definition sorted_slots (slots : list dict) : result (list (Z * dict)) :=
nums <- mapM slot_of slots ;;
Ok (Str.sorted_by Z.leb fst (combine nums slots)).

(** The body of the loop of [renumber_slots]. *)
Definition renumber_step (new_slot_num old_slot_num : Z) (slot_data : dict) (fs : node)
: result node :=
if (old_slot_num =? new_slot_num)%Z then Ok fs
else if Fs.exists_ (slot_dir old_slot_num) fs then
  fs1 <- Fs.move (slot_dir old_slot_num) (slot_dir new_slot_num) fs ;;
  match load new_slot_num fs1 with
  | None => Ok fs1
  | Some (YMap slot_config_data) =>
      let d1 := Py.set "created_at" (Py.get "created_at" slot_data) slot_config_data in
      let d2 := Py.set "last_used" (Py.get "last_used" slot_data) d1 in
      Fs.write_text (config_path new_slot_num) (yaml_dump (YMap d2)) fs1
  | Some _ => Raise TypeError
  end
else Ok fs.

Fixpoint renumber_loop (new_slot_num : Z) (sorted : list (Z * dict)) (fs : node)
: result node :=
match sorted with
| [] => Ok fs
| (old_slot_num, slot_data) :: rest =>
    fs1 <- renumber_step new_slot_num old_slot_num slot_data fs ;;
    renumber_loop (new_slot_num + 1) rest fs1
end.

(** [SlotManager.renumber_slots] *)
Definition renumber_slots (fs : node) : result node :=
slots <- list_slots fs ;;
match slots with
| [] => Ok fs
| _ => sorted <- sorted_slots slots ;; renumber_loop 1 sorted fs
end.

End WithYaml.
End Slot.

(** ** Volume mounts ([aibox/containers/volumes.py]) *)

(** [MountConfig] of the project configuration. *)
Record MountConfig : Type := {
  source : string;
  target : string;
  mount_mode : string;
}.

(** The value of a volume entry: [{"bind": ..., "mode": ...}]. *)
Record Mount : Type := {
  bind_to : string;
  mode : string;
}.

Module Volumes.

(** The components of a relative path given as a string, as [pathlib]
    splits it: empty components and ["."] are dropped. *)
Definition parts (s : string) : path :=
  filter (fun c => c <> "" /\ c <> ".") (PyStr.split "/" s).

(** Index of the last ["."] of [s], counted from [i]. *)
Fixpoint rfind_dot (i : nat) (s : string) : option nat :=
  match s with
  | "" => None
  | String c s' =>
      match rfind_dot (S i) s' with
      | Some j => Some j
      | None => if Ascii.eqb c "." then Some i else None
      end
  end.

(** [PurePath.suffix] of a file name: the text from the last dot on, when
    that dot is neither the first nor the last character. *)
Definition suffix_of_name (nm : string) : string :=
  match rfind_dot 0 nm with
  | Some i =>
      if (0 <? i)%nat && (i <? String.length nm - 1)%nat
      then String.substring i (String.length nm - i) nm
      else ""
  | None => ""
  end.

(** [p.suffix] *)
Definition suffix (p : path) : string := suffix_of_name (List.last p "").

Section WithHost.
Context {text : Type}.
Abbreviation node := (node text).

(** [str(self.aibox_dir)] and [str(self.project_dir)] *)
Variable aibox_dir : string.
Variable project_dir : string.
(** [os.access(host_path, ...)] with the mode [prepare_volumes] asks for
  ([W_OK] for a directory, [R_OK | W_OK] for a file), and whether
  [host_path.chmod(...)] succeeds. *)
Variable os_access : path -> bool.
Variable chmod_ok : path -> bool.
(** [str(Path(s).expanduser().resolve())] and [Path(s).exists()] for the
  source of a custom mount, which can be anywhere on the host. *)
Variable resolve : string -> string.
Variable host_exists : string -> bool.

(** [str(p)] for a path below the project storage directory. *)
Definition host_str (p : path) : string :=
aibox_dir +:+ String.concat "" (map (fun c => "/" +:+ c) p).

Definition slot_dir (slot_number : Z) : path :=
["slots"; "slot-" +:+ pretty slot_number].

Definition volumes : Type := list (string * Mount).

Definition rw (container_path : string) : Mount :=
{| bind_to := container_path; mode := "rw" |}.

(** The body of the loop over [provider.get_mount_paths()]. *)
Definition mount_provider_path (slot_number : Z) (path_name : string)
  (st : volumes * node) : result (volumes * node) :=
let '(vols, fs) := st in
let host_path := slot_dir slot_number ++ parts path_name in
let container_path := "/home/aibox/" +:+ path_name in
if negb (Fs.exists_ host_path fs) && negb (String.eqb (suffix host_path) "")
then Ok (vols, fs)
else
  fs1 <- (if negb (Fs.exists_ host_path fs) then Fs.mkdir_p host_path fs else Ok fs) ;;
  if negb (Fs.exists_ host_path fs1) then Ok (vols, fs1)
  else if Fs.is_dir host_path fs1 && negb (os_access host_path) && negb (chmod_ok host_path)
  then Ok (vols, fs1)
  else if negb (Fs.is_dir host_path fs1) && Fs.is_file host_path fs1
          && negb (os_access host_path) && negb (chmod_ok host_path)
  then Ok (vols, fs1)
  else Ok (Py.set (host_str host_path) (rw container_path) vols, fs1).

Fixpoint mount_provider_paths (slot_number : Z) (mount_paths : list string)
  (st : volumes * node) : result (volumes * node) :=
match mount_paths with
| [] => Ok st
| path_name :: rest =>
    st1 <- mount_provider_path slot_number path_name st ;;
    mount_provider_paths slot_number rest st1
end.

Definition mount_custom (vols : volumes) (m : MountConfig) : volumes :=
let src := resolve (source m) in
if String.eqb (mount_mode m) "ro" && negb (host_exists src) then vols
else Py.set src {| bind_to := target m; mode := mount_mode m |} vols.

(** [VolumeManager.prepare_volumes] *)
Definition prepare_volumes (slot_number : Z) (provider_name : string)
  (mount_paths : list string) (custom_mounts : list MountConfig) (fs : node)
: result (volumes * node) :=
let vols0 : volumes := [(project_dir, rw "/workspace")] in
fs1 <- Fs.mkdir_p (slot_dir slot_number) fs ;;
st <- mount_provider_paths slot_number mount_paths (vols0, fs1) ;;
let '(vols1, fs2) := st in
let claude_json := slot_dir slot_number ++ [".claude"; ".claude.json"] in
let vols2 :=
  if String.eqb provider_name "claude" && Fs.exists_ claude_json fs2
  then Py.set (host_str claude_json) (rw "/home/aibox/.claude.json") vols1
  else vols1 in
Ok (fold_left mount_custom custom_mounts vols2, fs2).

End WithHost.
End Volumes.

(** ** Orchestration ([aibox/containers/orchestrator.py]) *)

(** What [load_config] yields, as far as the orchestrator reads it. *)
Record Config : Type := {
  project_name : string;
  profiles : list string;
  mounts : list MountConfig;
  base_image : string;
}.

(** [ContainerInfo] *)
Record ContainerInfo : Type := {
  container_id : string;
  container_name : string;
  slot_number : Z;
  ai_provider : string;
  info_project_name : string;
}.

(** The interface [AIProvider]. *)
Record Provider (text : Type) : Type := {
  provider_name : string;
  validate_config : Config -> result unit;
  get_mount_paths : list string;
  get_docker_env_vars : list (string * string);
  get_required_ports : bool -> node text -> Z -> list (string * Z);
}.
Arguments provider_name {text} _.
Arguments validate_config {text} _ _.
Arguments get_mount_paths {text} _.
Arguments get_docker_env_vars {text} _.
Arguments get_required_ports {text} _ _ _ _.

(** The arguments of [ContainerManager.create_container]. *)
Record CreateArgs : Type := {
  ca_image : string;
  ca_name : string;
  ca_volumes : list (string * Mount);
  ca_environment : list (string * string);
  ca_ports : option (list (string * Z));
  ca_auto_remove : bool;
}.

(** [ContainerManager] over a Docker daemon in state [E], with containers
    [C].  A call that raises leaves the daemon as it was. *)
Record ContainerManager (E C : Type) : Type := {
  (** [ContainerManager()]: is the daemon reachable? *)
  docker_available : E -> bool;
  image_exists : string -> E -> bool;
  (** raises [DockerError] *)
  tag_image : string -> string -> E -> result E;
  (** the Dockerfile, the tag, the build arguments and the cache sources;
      raises [ImageBuildError] *)
  build_image : string -> string -> list (string * string) -> list string -> E -> result E;
  (** [client.images.prune(filters={"dangling": True})]: the number of
      deleted images and the reclaimed space; [None] stands for [APIError]
      or [DockerException] *)
  images_prune : E -> option (nat * Z * E);
  get_container : string -> E -> option C;
  is_container_running : string -> E -> bool;
  (** raises [ContainerStartError] *)
  cm_create_container : CreateArgs -> E -> result (C * E);
  cm_start_container : C -> E -> result E;
  (** raises [DockerError] *)
  cm_stop_container : scalar -> E -> result E;
  id_of : C -> string;
}.
Arguments docker_available {E C} _ _.
Arguments image_exists {E C} _ _ _.
Arguments tag_image {E C} _ _ _ _.
Arguments build_image {E C} _ _ _ _ _ _.
Arguments images_prune {E C} _ _.
Arguments get_container {E C} _ _ _.
Arguments is_container_running {E C} _ _ _.
Arguments cm_create_container {E C} _ _ _.
Arguments cm_start_container {E C} _ _ _.
Arguments cm_stop_container {E C} _ _ _.
Arguments id_of {E C} _ _.

(** Calls made to the container manager, in order. *)
Inductive event : Type :=
  | EvBuild (tag : string)
  | EvTag (source_tag target_tag : string)
  | EvPrune
  | EvCreate (args : CreateArgs)
  | EvStart (id : string)
  | EvStop (name : scalar).

(** What the orchestrator acts on: the files below the project storage
    directory, the Docker daemon, the clock (the number of readings made so
    far) and the calls made to the container manager. *)
Record world (text E : Type) : Type := {
  w_fs : node text;
  w_docker : E;
  w_ticks : nat;
  w_calls : list event;
}.
Arguments w_fs {text E} _.
Arguments w_docker {text E} _.
Arguments w_ticks {text E} _.
Arguments w_calls {text E} _.
Arguments Build_world {text E} _ _ _ _.

(** The collaborators of the orchestrator. *)
Record Env (text E C : Type) : Type := {
  yaml_dump : yaml -> text;
  yaml_safe_load : text -> option yaml;
  (** [datetime.now(UTC).isoformat()] at the n-th reading of the clock *)
  isoformat_now : nat -> string;
  (** [load_config(str(project_root))] *)
  load_config : result Config;
  catalog : ProfileLoader.catalog;
  (** [ProviderRegistry._providers], instantiated *)
  providers : string -> option (Provider text);
  manager : ContainerManager E C;
  aibox_dir : string;
  project_dir : string;
  os_access : path -> bool;
  chmod_ok : path -> bool;
  resolve : string -> string;
  host_exists : string -> bool;
}.
Arguments yaml_dump {text E C} _ _.
Arguments yaml_safe_load {text E C} _ _.
Arguments isoformat_now {text E C} _ _.
Arguments load_config {text E C} _.
Arguments catalog {text E C} _ _.
Arguments providers {text E C} _ _.
Arguments manager {text E C} _.
Arguments aibox_dir {text E C} _.
Arguments project_dir {text E C} _.
Arguments os_access {text E C} _ _.
Arguments chmod_ok {text E C} _ _.
Arguments resolve {text E C} _ _.
Arguments host_exists {text E C} _ _.

Module Orchestrator.
Section WithEnv.
Context {text E C : Type}.
Variable env : Env text E C.
Abbreviation world := (world text E).
Abbreviation cm := (manager env).

Definition with_docker (w : world) (d : E) (ev : event) : world :=
Build_world (w_fs w) d (w_ticks w) (w_calls w ++ [ev]).

(** [ContainerManager()] *)
Definition connect (w : world) : result unit :=
if docker_available cm (w_docker w) then Ok tt else Raise DockerNotFoundError.

(** [ContainerManager.prune_dangling_images] *)
Definition prune_dangling_images (w : world) : result (nat * Z * world) :=
match images_prune cm (w_docker w) with
| Some (images_deleted, space_reclaimed, d) =>
    Ok (images_deleted, space_reclaimed, with_docker w d EvPrune)
| None => Raise DockerError
end.

Definition do_tag (source_tag target_tag : string) (w : world) : result world :=
d <- tag_image cm source_tag target_tag (w_docker w) ;;
Ok (with_docker w d (EvTag source_tag target_tag)).

(** [_build_image]: the Dockerfile goes through a temporary directory. *)
Definition _build_image (dockerfile_content image_tag_hash : string)
  (buildargs : list (string * string)) (cache_from : list string) (w : world)
: result world :=
d <- build_image cm dockerfile_content image_tag_hash buildargs cache_from (w_docker w) ;;
Ok (with_docker w d (EvBuild image_tag_hash)).

(** [_ensure_image_exists]: the world afterwards and whether a build
  occurred. *)
Definition _ensure_image_exists (image_tag_hash image_tag_latest dockerfile_content : string)
  (buildargs : list (string * string)) (cache_from : list string) (w : world)
: result (bool * world) :=
if image_exists cm image_tag_hash (w_docker w) then
  match do_tag image_tag_hash image_tag_latest w with
  | Ok w1 => Ok (false, w1)
  | Raise _ =>
      w1 <- _build_image dockerfile_content image_tag_hash buildargs cache_from w ;;
      w2 <- do_tag image_tag_hash image_tag_latest w1 ;;
      Ok (true, w2)
  end
else
  w1 <- _build_image dockerfile_content image_tag_hash buildargs cache_from w ;;
  if negb (image_exists cm image_tag_hash (w_docker w1)) then Raise ImageBuildError
  else
    w2 <- do_tag image_tag_hash image_tag_latest w1 ;;
    Ok (true, w2).

(** [ProviderRegistry.get_provider] *)
Definition get_provider (name : string) : result (Provider text) :=
match providers env (PyStr.lower name) with
| Some p => Ok p
| None => Raise ProviderNotFoundError
end.

(** Step 3 of [start_container]: the provider name. *)
Definition resolve_provider_name (slot_number : Z) (ai_provider : option string)
  (w : world) : result string :=
let preconfigured :=
  slot_config <- Slot.get_slot slot_number ;;
  v <- Slot.get_ai_provider (yaml_safe_load env) slot_config (w_fs w) ;;
  if Py.truthy_scalar v
  then match v with SStr s => Ok s | _ => Raise AttributeError end
  else Raise AiboxError in
match ai_provider with
| Some p => if String.eqb p "" then preconfigured else Ok p
| None => preconfigured
end.

(** What steps 1 to 4 of [start_container] establish. *)
Record plan : Type := {
pl_config : Config;
pl_slot_number : Z;
pl_provider_name : string;
pl_provider : Provider text;
pl_base_dockerfile : string;
pl_base_build_args : list (string * string);
}.

Definition make_plan (slot_number : option Z) (ai_provider : option string) (w : world)
: result plan :=
config <- load_config env ;;
slot_number <- match slot_number with
               | Some n => Ok n
               | None => Slot.find_available_slot 10 1 (w_fs w)
               end ;;
provider_name <- resolve_provider_name slot_number ai_provider w ;;
provider <- get_provider provider_name ;;
_ <- validate_config provider config ;;
profiles_with_versions <-
  mapM (ProfileLoader.load_profile (catalog env)) (profiles config) ;;
Ok {| pl_config := config;
      pl_slot_number := slot_number;
      pl_provider_name := provider_name;
      pl_provider := provider;
      pl_base_dockerfile :=
        DockerfileGenerator.generate (base_image config) profiles_with_versions None;
      pl_base_build_args :=
        DockerfileGenerator.generate_build_args profiles_with_versions |}.

Definition base_hash (pl : plan) : string :=
Fingerprint._generate_base_image_hash
  (pl_base_dockerfile pl) (base_image (pl_config pl)) (profiles (pl_config pl)).
Definition base_tag_hash (pl : plan) : string :=
"aibox-" +:+ project_name (pl_config pl) +:+ "-base:" +:+ base_hash pl.
Definition base_tag_latest (pl : plan) : string :=
"aibox-" +:+ project_name (pl_config pl) +:+ "-base:latest".
Definition provider_dockerfile (pl : plan) : string :=
DockerfileGenerator.generate_provider_layer (base_tag_hash pl) (pl_provider_name pl).
Definition provider_hash (pl : plan) : string :=
Fingerprint._generate_provider_image_hash
  (provider_dockerfile pl) (pl_provider_name pl) (base_hash pl).
Definition provider_tag_hash (pl : plan) : string :=
"aibox-" +:+ project_name (pl_config pl) +:+ "-" +:+ pl_provider_name pl
+:+ ":" +:+ provider_hash pl.
Definition provider_tag_latest (pl : plan) : string :=
"aibox-" +:+ project_name (pl_config pl) +:+ "-" +:+ pl_provider_name pl +:+ ":latest".
Definition container_name_of (pl : plan) : string :=
"aibox-" +:+ project_name (pl_config pl) +:+ "-" +:+ pretty (pl_slot_number pl).

(** Steps 5 and 6: the base image, then the provider image; whether the
  provider image was built. *)
Definition ensure_images (pl : plan) (w : world) : result (bool * world) :=
_ <- connect w ;;
r <- _ensure_image_exists (base_tag_hash pl) (base_tag_latest pl)
       (pl_base_dockerfile pl) (pl_base_build_args pl) [] w ;;
_ensure_image_exists (provider_tag_hash pl) (provider_tag_latest pl)
  (provider_dockerfile pl) []
  [base_tag_hash pl; base_tag_latest pl; provider_tag_latest pl] (snd r).

(** The clean-up after a provider build. *)
Definition cleanup_after_build (provider_build_occurred : bool) (w : world) : result world :=
if provider_build_occurred then
  r <- prune_dangling_images w ;;
  Ok (snd r)
else Ok w.

(** Steps 6 to 8: volumes, environment and ports, then the container. *)
Definition run_container (pl : plan) (reuse_existing auto_remove force_openai_auth_port : bool)
  (w : world) : result (C * world) :=
st <- Volumes.prepare_volumes (aibox_dir env) (project_dir env) (os_access env)
        (chmod_ok env) (resolve env) (host_exists env)
        (pl_slot_number pl) (provider_name (pl_provider pl))
        (get_mount_paths (pl_provider pl)) (mounts (pl_config pl)) (w_fs w) ;;
let '(all_volumes, fs1) := st in
let w1 := Build_world fs1 (w_docker w) (w_ticks w) (w_calls w) in
let env_vars := get_docker_env_vars (pl_provider pl) in
let ports := get_required_ports (pl_provider pl) force_openai_auth_port fs1
               (pl_slot_number pl) in
let container_name := container_name_of pl in
let create :=
  let args := {| ca_image := provider_tag_latest pl;
                 ca_name := container_name;
                 ca_volumes := all_volumes;
                 ca_environment := env_vars;
                 ca_ports := match ports with [] => None | _ => Some ports end;
                 ca_auto_remove := auto_remove |} in
  r <- cm_create_container cm args (w_docker w1) ;;
  let w2 := with_docker w1 (snd r) (EvCreate args) in
  d <- cm_start_container cm (fst r) (w_docker w2) ;;
  Ok (fst r, with_docker w2 d (EvStart (id_of cm (fst r)))) in
match get_container cm container_name (w_docker w1) with
| Some existing_container =>
    if reuse_existing then
      if is_container_running cm container_name (w_docker w1)
      then Ok (existing_container, w1)
      else
        d <- cm_start_container cm existing_container (w_docker w1) ;;
        Ok (existing_container,
            with_docker w1 d (EvStart (id_of cm existing_container)))
    else create
| None => create
end.

(** Step 9: the slot metadata. *)
Definition save_slot (pl : plan) (w : world) : result world :=
runtime_slot <- Slot.get_slot (pl_slot_number pl) ;;
fs1 <- Slot.save (yaml_dump env) runtime_slot (pl_provider_name pl) (container_name_of pl)
         (isoformat_now env (w_ticks w)) (isoformat_now env (S (w_ticks w))) (w_fs w) ;;
Ok (Build_world fs1 (w_docker w) (S (S (w_ticks w))) (w_calls w)).

(** [ContainerOrchestrator.start_container] *)
Definition start_container (slot_number : option Z) (ai_provider : option string)
  (reuse_existing auto_remove force_openai_auth_port : bool) (w : world)
: result (ContainerInfo * world) :=
pl <- make_plan slot_number ai_provider w ;;
r <- ensure_images pl w ;;
let '(provider_build_occurred, w1) := r in
w2 <- cleanup_after_build provider_build_occurred w1 ;;
r <- run_container pl reuse_existing auto_remove force_openai_auth_port w2 ;;
let '(container, w3) := r in
w4 <- save_slot pl w3 ;;
Ok ({| container_id := id_of cm container;
       container_name := container_name_of pl;
       slot_number := pl_slot_number pl;
       ai_provider := pl_provider_name pl;
       info_project_name := project_name (pl_config pl) |}, w4).

(** The container name [stop_container] uses. *)
Definition container_to_stop (config : Config) (slot_number : Z) (slot_data : option yaml)
: result scalar :=
name <- Slot.get_field "container_name" slot_data ;;
if Py.truthy_scalar name then Ok name
else Ok (SStr ("aibox-" +:+ project_name config +:+ "-" +:+ pretty slot_number)).

(** [ContainerOrchestrator.stop_container] *)
Definition stop_container (slot_number : Z) (w : world) : result world :=
config <- load_config env ;;
slot_config <- Slot.get_slot slot_number ;;
let slot_data := Slot.load (yaml_safe_load env) slot_config (w_fs w) in
container_name <- container_to_stop config slot_number slot_data ;;
_ <- connect w ;;
d <- cm_stop_container cm container_name (w_docker w) ;;
Ok (with_docker w d (EvStop container_name)).

End WithEnv.
End Orchestrator.

(** ** A reference instance

    A concrete choice for what the development leaves open, used to run
    the definitions on examples: a text file holds a YAML document or
    something PyYAML rejects, and the Docker daemon is a list of image
    tags and a list of containers. *)

Module Sim.

(** The content of a text file: the document it holds, or [None] for a
    text that is not YAML. *)
Definition text : Type := option yaml.
Definition dump (y : yaml) : text := Some y.
Definition safe_load (t : text) : option yaml := t.

Definition empty_fs : node text := Dir ∅.

(** The tree with the text [t] as the metadata file of slot [n]. *)
Definition with_text (n : Z) (t : text) (fs : node text) : node text :=
  match Fs.mkdir_p (Slot.slot_dir n) fs with
  | Ok fs1 =>
      match Fs.write_text (Slot.config_path n) t fs1 with
      | Ok fs2 => fs2
      | Raise _ => fs1
      end
  | Raise _ => fs
  end.

(** The tree holding the given records, one per slot number. *)
Definition saved (slots : list (Z * dict)) : node text :=
  foldr (fun s fs => with_text (fst s) (dump (YMap (snd s))) fs) empty_fs slots.

Record docker : Type := {
  images : list string;
  containers : list (string * bool);
  prune_ok : bool;
}.

Definition has_container (name : string) (d : docker) : option string :=
  if bool_decide (name ∈ map fst (containers d)) then Some name else None.

Definition set_running (name : string) (d : docker) : docker :=
  {| images := images d;
     containers := map (fun c => if String.eqb (fst c) name then (name, true) else c)
                       (containers d);
     prune_ok := prune_ok d |}.

Definition docker_manager : ContainerManager docker string := {|
  docker_available := fun _ => true;
  image_exists := fun tag d => bool_decide (tag ∈ images d);
  tag_image := fun source_tag target_tag d =>
    if bool_decide (source_tag ∈ images d)
    then Ok {| images := target_tag :: images d;
               containers := containers d; prune_ok := prune_ok d |}
    else Raise DockerError;
  build_image := fun _ tag _ _ d =>
    Ok {| images := tag :: images d; containers := containers d; prune_ok := prune_ok d |};
  images_prune := fun d => if prune_ok d then Some (0%nat, 0%Z, d) else None;
  get_container := has_container;
  is_container_running := fun name d =>
    bool_decide ((name, true) ∈ containers d);
  cm_create_container := fun args d =>
    Ok (ca_name args,
        {| images := images d;
           containers := (ca_name args, false) :: containers d;
           prune_ok := prune_ok d |});
  cm_start_container := fun c d => Ok (set_running c d);
  cm_stop_container := fun name d =>
    match name with
    | SStr s =>
        if bool_decide (s ∈ map fst (containers d))
        then Ok {| images := images d;
                   containers := map (fun c => if String.eqb (fst c) s then (s, false) else c)
                                     (containers d);
                   prune_ok := prune_ok d |}
        else Raise DockerError
    | _ => Raise DockerError
    end;
  id_of := fun c => c;
|}.

Definition python : ProfileDefinition := {|
  name := "python";
  description := "Python";
  versions := ["3.11"; "3.12"];
  default_version := "3.12";
  system_dependencies := ["python3"];
  env_vars := [];
  docker_layers := [];
  post_install := [];
|}.

Definition nodejs : ProfileDefinition := {|
  name := "nodejs";
  description := "Node.js";
  versions := ["18"; "20"];
  default_version := "20";
  system_dependencies := [];
  env_vars := [];
  docker_layers := [];
  post_install := [];
|}.

Definition profile_catalog : ProfileLoader.catalog :=
  fun nm =>
    if String.eqb nm "python" then Some python
    else if String.eqb nm "nodejs" then Some nodejs
    else None.

Definition claude : Provider text := {|
  provider_name := "claude";
  validate_config := fun _ => Ok tt;
  get_mount_paths := [".claude"];
  get_docker_env_vars := [];
  get_required_ports := fun _ _ _ => [];
|}.

Definition config : Config := {|
  project_name := "demo";
  profiles := ["python:3.12"; "nodejs:20"];
  mounts := [];
  base_image := "debian:bookworm-slim";
|}.

Definition env : Env text docker string := {|
  yaml_dump := dump;
  yaml_safe_load := safe_load;
  isoformat_now := fun n => "2025-01-01T00:00:0" +:+ pretty n +:+ "+00:00";
  load_config := Ok config;
  catalog := profile_catalog;
  providers := fun nm => if String.eqb nm "claude" then Some claude else None;
  manager := docker_manager;
  aibox_dir := "/home/u/.aibox/projects/demo-0a1b2c3d";
  project_dir := "/home/u/demo";
  os_access := fun _ => true;
  chmod_ok := fun _ => true;
  resolve := fun s => s;
  host_exists := fun _ => true;
|}.

Definition start_world (fs : node text) (prune_succeeds : bool) : world text docker :=
  {| w_fs := fs;
     w_docker := {| images := []; containers := []; prune_ok := prune_succeeds |};
     w_ticks := 0;
     w_calls := [] |}.

(** A slot configured for [claude] and not started yet. *)
Definition configured_fs : node text :=
  saved [(1%Z, Slot.record "claude" "" "2024-06-01T08:00:00+00:00"
                     "2024-06-01T08:00:00+00:00")].

(** A world in which slot 1 was started. *)
Definition started_world : world text docker :=
  {| w_fs := saved [(1%Z, Slot.record "claude" "aibox-demo-1" "t0" "t1")];
     w_docker := {| images := []; containers := [("aibox-demo-1", true)];
                    prune_ok := true |};
     w_ticks := 2;
     w_calls := [] |}.

(** The directory of a slot with the record [d]. *)
Definition slot_node (d : dict) : node text :=
  Dir {[ "metadata.yml" := File (dump (YMap d)) ]}.

Definition gemini_record : dict :=
  Slot.record "gemini" "aibox-demo-2" "2024-06-02T08:00:00+00:00"
    "2024-06-03T09:30:00+00:00".

Definition openai_record : dict :=
  Slot.record "openai" "aibox-demo-5" "2024-06-05T08:00:00+00:00"
    "2024-06-06T09:30:00+00:00".

(** A store with the slots 2 and 5. *)
Definition gapped_fs : node text :=
  Dir {[ "slots" := Dir (<["slot-2" := slot_node gemini_record]>
                           {[ "slot-5" := slot_node openai_record ]}) ]}.

(** A store with slot 2 and a directory [slot-1] that has no record. *)
Definition orphan_fs : node text :=
  Dir {[ "slots" := Dir (<["slot-1" := Dir ∅]>
                           {[ "slot-2" := slot_node gemini_record ]}) ]}.

End Sim.

(** ** Notions used in the statements *)

(** A list is in the order of [le] on the keys. *)
Definition key_sorted {A K} (le : K -> K -> bool) (key : A -> K) (l : list A) : Prop :=
  StronglySorted (fun a b => le (key a) (key b) = true) l.

Definition is_hex (c : ascii) : bool :=
  bool_decide (c ∈ list_ascii_of_string "0123456789abcdef").

(** [n] characters, all of them hexadecimal digits. *)
Definition hex_string (n : nat) (s : string) : Prop :=
  String.length s = n /\ Forall (fun c => is_hex c = true) (list_ascii_of_string s).

(** What is assumed of PyYAML: loading what was dumped gives the value
    back. *)
Definition yaml_roundtrip {text : Type}
    (yaml_dump : yaml -> text) (yaml_safe_load : text -> option yaml) : Prop :=
  forall y, yaml_safe_load (yaml_dump y) = Some y.

Definition is_digit (c : ascii) : Prop := exists d, Py.digit c = Some d.

(** The dictionary [list_slots] builds for slot [n] with record [d]. *)
Definition entry (n : Z) (d : dict) : dict := Py.update [("slot", SInt n)] d.

(** [x] is the directory of a slot whose record parses: its metadata file
    loads as the mapping [d], which is not empty, has distinct keys as any
    [dict] and no key ["slot"]. *)
Definition holds_record {text : Type} (yaml_safe_load : text -> option yaml)
    (x : node text) (d : dict) : Prop :=
  exists es t,
    x = Dir es /\ es !! "metadata.yml" = Some (File t)
    /\ yaml_safe_load t = Some (YMap d)
    /\ d <> [] /\ NoDup (map fst d) /\ Py.lookup "slot" d = None.

(** Every entry of a [slots] directory is the directory [slot-<n>] of a
    slot [n >= 1] whose record parses. *)
Definition slots_parse {text : Type} (yaml_safe_load : text -> option yaml)
    (slots : gmap string (node text)) : Prop :=
  forall nm x, slots !! nm = Some x ->
    exists n d, (1 <= n)%Z /\ nm = Slot.slot_name n /\ holds_record yaml_safe_load x d.

(** A slot store in which all slot records parse: the [slots] directory,
    if there is one, holds slot directories whose records parse and
    nothing else. *)
Definition all_records_parse {text : Type} (yaml_safe_load : text -> option yaml)
    (fs : node text) : Prop :=
  exists root,
    fs = Dir root
    /\ match root !! "slots" with
       | None => True
       | Some (File _) => False
       | Some (Dir slots) => slots_parse yaml_safe_load slots
       end.

(** The tree with [slots] as its [slots] directory. *)
Definition with_slots {text : Type} (root slots : gmap string (node text)) : node text :=
  Dir (<["slots" := Dir slots]> root).

(** The record after [renumber_slots] has written back the two timestamps
    of the listing entry [slot_data]. *)
Definition restamp (slot_data d : dict) : dict :=
  Py.set "last_used" (Py.get "last_used" slot_data)
    (Py.set "created_at" (Py.get "created_at" slot_data) d).

(** Slot [n] is there with a record that parses as [d]. *)
Definition slot_ok {text : Type} (yaml_safe_load : text -> option yaml)
    (slots : gmap string (node text)) (n : Z) (d : dict) : Prop :=
  exists x, slots !! Slot.slot_name n = Some x /\ holds_record yaml_safe_load x d.

(** [a] is the listing entry of a slot that is there. *)
Definition listed {text : Type} (yaml_safe_load : text -> option yaml)
    (slots : gmap string (node text)) (a : Z * dict) : Prop :=
  exists d, slot_ok yaml_safe_load slots (fst a) d /\ snd a = entry (fst a) d.

(** Every entry of the [slots] directory is named after a slot number. *)
Definition named {text : Type} (slots : gmap string (node text)) : Prop :=
  forall nm, is_Some (slots !! nm) -> exists j, (1 <= j)%Z /\ nm = Slot.slot_name j.

(** The calls [evs] were made between the worlds [w] and [w']. *)
Definition extends {text E : Type} (w w' : world text E) (evs : list event) : Prop :=
  w_calls w' = w_calls w ++ evs.

(** ** Project names and storage directories ([aibox/utils/hash.py])

    The functions of this module start from [Path(project_dir).resolve()],
    which depends on the working directory and on the links of the host:
    they are given its text, [str(Path(project_dir).resolve())]. *)

Module Hash.

(** [generate_project_hash] *)
Definition generate_project_hash (abs_path : string) : string :=
  Str.take 8 (Sha256.hexdigest abs_path).

(** [get_project_name]: [Path.name], the last component of the path, and
    the empty string for the root. *)
Definition get_project_name (abs_path : string) : string :=
  List.last (Volumes.parts abs_path) "".

(** [get_project_storage_dir] *)
Definition get_project_storage_dir (abs_path : string) : string :=
  get_project_name abs_path +:+ "-" +:+ generate_project_hash abs_path.

End Hash.

(** ** More of the Dockerfile generator ([aibox/profiles/generator.py]) *)

Module Dockerfile.
Import PyStr.

(** The list [install_packages] of [DockerfileGenerator.generate]: the
    system dependencies of the profiles and [bash] as a sorted set, then
    [nodejs] added and the list sorted again. *)
Definition install_packages
    (profiles_with_versions : list (ProfileDefinition * string)) : list string :=
  Str.sorted ("nodejs" ::
              DockerfileGenerator.sorted_set
                (DockerfileGenerator._collect_system_dependencies profiles_with_versions
                 ++ ["bash"])).

End Dockerfile.

(** A text of ASCII characters only, where [strip], [upper] and [lower]
    are those of Python. *)
Definition is_ascii (s : string) : Prop :=
  Forall (fun c => (nat_of_ascii c < 128)%nat) (list_ascii_of_string s).

(** A text of white space only. *)
Definition all_space (s : string) : Prop :=
  Forall (fun c => PyStr.is_space c = true) (list_ascii_of_string s).

(** Every slot whose metadata file exists has a number of 1 or more and
    a record that loads as a mapping without a key ["slot"] of its own. *)
Definition records_plain {text : Type} (yaml_safe_load : text -> option yaml)
    (fs : node text) : Prop :=
  forall m, Slot.exists_ m fs = true ->
    (1 <= m)%Z
    /\ exists d, Slot.load yaml_safe_load m fs = Some (YMap d) /\ Py.lookup "slot" d = None.

(** What the validators of [ProfileDefinition] establish, as far as the
    version is concerned: the default version is one of the versions. *)
Definition valid_versions (p : ProfileDefinition) : Prop :=
  default_version p ∈ versions p.

(** ** Cleaning up a slot ([SlotManager.cleanup_slot])

    The methods of [ContainerManager] that the clean-up calls, over a
    Docker daemon in state [E].  A call that raises leaves the daemon as
    it was. *)

(** What [is_container_running] makes of a name that is not a [str]: an
    answer, an exception that the first loop of [cleanup_all_slots]
    catches ([ValueError], [IndexError]), or another exception. *)
Inductive outcome : Type :=
  | Answer (b : bool)
  | Caught
  | Uncaught (e : exn).

Record CleanupManager (E : Type) : Type := {
  (** [ContainerManager()]: is the daemon reachable? *)
  cl_available : E -> bool;
  cl_is_container_running : string -> E -> bool;
  (** [remove_container(name, force=False)]; raises [DockerError] *)
  cl_remove_container : string -> E -> result E;
  (** [list_images(filters={"reference": r})]: the tags of each image; an
      error of the daemon gives the empty list *)
  cl_list_images : string -> E -> list (list string);
  (** [is_image_in_use(tag)]; an error of the daemon gives [True] *)
  cl_is_image_in_use : string -> E -> bool;
  (** [remove_image(tag, force=False)]: whether the image was there;
      raises [DockerError] *)
  cl_remove_image : string -> E -> result (bool * E);
  (** [is_container_running(name)] and [remove_container(name,
      force=False)] for a [name] that is not a [str] *)
  cl_is_running_other : scalar -> E -> outcome;
  cl_remove_other : scalar -> E -> result E;
}.
Arguments cl_available {E} _ _.
Arguments cl_is_container_running {E} _ _ _.
Arguments cl_remove_container {E} _ _ _.
Arguments cl_list_images {E} _ _ _.
Arguments cl_is_image_in_use {E} _ _ _.
Arguments cl_remove_image {E} _ _ _.
Arguments cl_is_running_other {E} _ _ _.
Arguments cl_remove_other {E} _ _ _.

(** A removal asked of the daemon, with the state the daemon was in. *)
Inductive removal (E : Type) : Type :=
  | RemoveContainer (name : string) (before : E)
  | RemoveImage (tag : string) (before : E)
  | RemoveOther (name : scalar) (before : E).
Arguments RemoveContainer {E} name before.
Arguments RemoveImage {E} tag before.
Arguments RemoveOther {E} name before.

Module Cleanup.
Section WithManager.
Context {text E : Type}.
Variable yaml_dump : yaml -> text.
Variable yaml_safe_load : text -> option yaml.
Variable cmgr : CleanupManager E.
(** The order in which the system lists the entries of a directory, and
    the order in which a [set] built by the insertions [l] is iterated. *)
Variable iterdir : gmap string (node text) -> list string.
Variable set_iter : list scalar -> list scalar.

(** The daemon and the removals asked of it so far. *)
Definition docker_state : Type := E * list (removal E).

(** [d.get(k, default)] *)
Definition get_default (k : string) (default : scalar) (d : dict) : scalar :=
  match Py.lookup k d with
  | Some v => v
  | None => default
  end.

(** The project name read off a container name
    [aibox-<project_name>-<slot_number>]: the parts between the first and
    the last, and the empty string for a name of another form. *)
Definition project_of_container (container_name : string) : string :=
  let parts := PyStr.split "-" container_name in
  if (3 <=? length parts)%nat && String.eqb (hd "" parts) "aibox"
  then Str.join "-" (removelast (tl parts))
  else "".

(** [with contextlib.suppress(Exception): if not is_image_in_use(tag):
    remove_image(tag, force=False)]; the answer is whether [remove_image]
    returned. *)
Definition remove_if_unused (tag : string) (st : docker_state) : bool * docker_state :=
  let '(d, log) := st in
  if cl_is_image_in_use cmgr tag d then (false, st)
  else
    match cl_remove_image cmgr tag d with
    | Ok (_, d') => (true, (d', log ++ [RemoveImage tag d]))
    | Raise _ => (false, (d, log ++ [RemoveImage tag d]))
    end.

(** The loop over the tags of one image. *)
Definition remove_tags (image_repo : string) (tags : list string)
    (acc : bool * docker_state) : bool * docker_state :=
  fold_left
    (fun acc tag =>
       if negb (String.prefix (image_repo +:+ ":") tag) then acc
       else
         let '(r, st) := remove_if_unused tag (snd acc) in
         (fst acc || r, st))
    tags acc.

(** [SlotManager._remove_provider_images] *)
Definition _remove_provider_images (image_repo : string) (st : docker_state) : docker_state :=
  let images := cl_list_images cmgr (image_repo +:+ ":*") (fst st) in
  let '(removed, st1) :=
    fold_left (fun acc tags => remove_tags image_repo tags acc) images (false, st) in
  if removed then st1
  else snd (remove_if_unused (image_repo +:+ ":latest") st1).

(** [with contextlib.suppress(Exception): remove_container(name,
    force=False)] *)
Definition remove_container_quietly (name : string) (st : docker_state) : docker_state :=
  let '(d, log) := st in
  match cl_remove_container cmgr name d with
  | Ok d' => (d', log ++ [RemoveContainer name d])
  | Raise _ => (d, log ++ [RemoveContainer name d])
  end.

(** The part of [cleanup_slot] that talks to Docker, for the record
    [slot_data] of the slot: [None] when the container of the slot is
    running and the clean-up returns at once, and else the daemon
    afterwards.  [AttributeError] is raised for a record or a container
    name that has no [get] or [split]. *)
Definition remove_slot_resources (slot_data : option yaml) (d : E)
    : result (option docker_state) :=
  match slot_data with
  | None => Ok (Some (d, []))
  | Some (YMap slot_data) =>
      let container_name := get_default "container_name" (SStr "") slot_data in
      let ai_provider := get_default "ai_provider" (SStr "") slot_data in
      project_name <-
        (if Py.truthy_scalar container_name then
           match container_name with
           | SStr s => Ok (project_of_container s)
           | _ => Raise AttributeError
           end
         else Ok "") ;;
      if negb (String.eqb project_name "") && Py.truthy_scalar ai_provider then
        if negb (cl_available cmgr d) then Ok (Some (d, []))
        else
          let name := Py.str container_name in
          if Py.truthy_scalar container_name && cl_is_container_running cmgr name d
          then Ok None
          else
            let st1 :=
              if Py.truthy_scalar container_name
              then remove_container_quietly name (d, [])
              else (d, []) in
            let image_repo := "aibox-" +:+ project_name +:+ "-" +:+ Py.str ai_provider in
            Ok (Some (_remove_provider_images image_repo st1))
      else Ok (Some (d, []))
  | Some _ => Raise AttributeError
  end.

(** [SlotConfig.delete], with the error of [shutil.rmtree] for a slot
    directory that is a file. *)
Definition delete_slot (slot_num : Z) (fs : node text) : result (node text) :=
  if Fs.is_file (Slot.slot_dir slot_num) fs then Raise OSError
  else Ok (Slot.delete slot_num fs).

(** [SlotManager.cleanup_slot]: the files, the daemon and the removals
    asked of the daemon. *)
Definition cleanup_slot (slot_num : Z) (fs : node text) (d : E)
    : result (node text * docker_state) :=
  slot_config <- Slot.get_slot slot_num ;;
  let slot_data := Slot.load yaml_safe_load slot_config fs in
  r <- remove_slot_resources slot_data d ;;
  match r with
  | None => Ok (fs, (d, []))
  | Some st =>
      fs1 <- delete_slot slot_config fs ;;
      fs2 <- Slot.renumber_slots yaml_dump yaml_safe_load fs1 ;;
      Ok (fs2, st)
  end.

(** *** [cleanup_all_slots] *)

(** [self.slots_dir.glob("slot-*")], as entry names. *)
Definition glob_slots (fs : node text) : list string :=
  match Fs.lookup_path Slot.slots_dir fs with
  | Some (Dir es) => filter (fun nm => String.prefix "slot-" nm = true) (iterdir es)
  | _ => []
  end.

(** [int(slot_dir.name.split("-")[1])], [None] for [ValueError] and
    [IndexError]. *)
Definition slot_number (nm : string) : option Z :=
  match nth_error (PyStr.split "-" nm) 1 with
  | None => None
  | Some field => Py.int field
  end.

(** The variables of the first pass; [providers] is the sequence of the
    insertions into the set. *)
Record scan_state : Type := {
  providers : list scalar;
  project_name : string;
  running_slots : list Z;
  slot_details : list (Z * scalar * scalar);
}.

Definition is_running (container_name : scalar) (d : E) : outcome :=
  match container_name with
  | SStr s => Answer (cl_is_container_running cmgr s d)
  | v => cl_is_running_other cmgr v d
  end.

(** One round of the first loop, for the entry named [nm];
    [container_manager] tells whether there is a manager. *)
Definition scan_entry (container_manager : bool) (d : E) (fs : node text)
    (acc : scan_state) (nm : string) : result scan_state :=
  if negb (Fs.is_dir (Slot.slots_dir ++ [nm]) fs) then Ok acc
  else
    match slot_number nm with
    | None => Ok acc
    | Some slot_num =>
        match Slot.load yaml_safe_load slot_num fs with
        | None => Ok acc
        | Some (YMap slot_data) =>
            let ai_provider := get_default "ai_provider" (SStr "") slot_data in
            let container_name := get_default "container_name" (SStr "") slot_data in
            let providers1 :=
              if Py.truthy_scalar ai_provider then providers acc ++ [ai_provider]
              else providers acc in
            let details1 := slot_details acc ++ [(slot_num, container_name, ai_provider)] in
            project_name1 <-
              (if String.eqb (project_name acc) "" && Py.truthy_scalar container_name then
                 match container_name with
                 | SStr s => Ok (project_of_container s)
                 | _ => Raise AttributeError
                 end
               else Ok (project_name acc)) ;;
            let acc1 := {| providers := providers1; project_name := project_name1;
                           running_slots := running_slots acc;
                           slot_details := details1 |} in
            if container_manager && Py.truthy_scalar container_name then
              match is_running container_name d with
              | Answer true =>
                  Ok {| providers := providers1; project_name := project_name1;
                        running_slots := running_slots acc ++ [slot_num];
                        slot_details := details1 |}
              | Answer false | Caught => Ok acc1
              | Uncaught e => Raise e
              end
            else Ok acc1
        | Some _ => Raise AttributeError
        end
    end.

Fixpoint scan_entries (container_manager : bool) (d : E) (fs : node text)
    (names : list string) (acc : scan_state) : result scan_state :=
  match names with
  | [] => Ok acc
  | nm :: rest =>
      acc1 <- scan_entry container_manager d fs acc nm ;;
      scan_entries container_manager d fs rest acc1
  end.

(** [try: remove_container(name, force=False) except Exception:
    continue] *)
Definition remove_container_any (container_name : scalar) (st : docker_state)
    : docker_state :=
  match container_name with
  | SStr s => remove_container_quietly s st
  | v =>
      let '(d, log) := st in
      match cl_remove_other cmgr v d with
      | Ok d' => (d', log ++ [RemoveOther v d])
      | Raise _ => (d, log ++ [RemoveOther v d])
      end
  end.

(** The loop that removes the containers of the slots that are not
    running. *)
Definition remove_stopped (running : list Z) (details : list (Z * scalar * scalar))
    (st : docker_state) : docker_state :=
  fold_left
    (fun st detail =>
       let '(slot_num, container_name, _) := detail in
       if bool_decide (slot_num ∈ running) then st
       else if Py.truthy_scalar container_name then remove_container_any container_name st
       else st)
    details st.

(** The loop over the providers. *)
Definition remove_images_of (project : string) (provs : list scalar) (st : docker_state)
    : docker_state :=
  fold_left
    (fun st provider =>
       _remove_provider_images ("aibox-" +:+ project +:+ "-" +:+ Py.str provider) st)
    provs st.

(** One round of the last loop, for the entry named [nm]. *)
Definition delete_entry (running : list Z) (fs : node text) (nm : string)
    : result (node text) :=
  if negb (Fs.is_dir (Slot.slots_dir ++ [nm]) fs) then Ok fs
  else
    match slot_number nm with
    | None => Ok fs
    | Some slot_num =>
        if bool_decide (slot_num ∈ running) then Ok fs else delete_slot slot_num fs
    end.

Fixpoint delete_entries (running : list Z) (names : list string) (fs : node text)
    : result (node text) :=
  match names with
  | [] => Ok fs
  | nm :: rest => fs1 <- delete_entry running fs nm ;; delete_entries running rest fs1
  end.

(** [SlotManager.cleanup_all_slots]: the files, the daemon and the
    removals asked of the daemon. *)
Definition cleanup_all_slots (fs : node text) (d : E) : result (node text * docker_state) :=
  if negb (Fs.exists_ Slot.slots_dir fs) then Ok (fs, (d, []))
  else
    let container_manager := cl_available cmgr d in
    s <- scan_entries container_manager d fs (glob_slots fs)
           {| providers := []; project_name := ""; running_slots := [];
              slot_details := [] |} ;;
    let st1 :=
      if container_manager then remove_stopped (running_slots s) (slot_details s) (d, [])
      else (d, []) in
    let st2 :=
      if container_manager && negb (String.eqb (project_name s) "")
         && bool_decide (running_slots s = [])
      then remove_images_of (project_name s) (set_iter (providers s)) st1
      else st1 in
    fs1 <- delete_entries (running_slots s) (glob_slots fs) fs ;;
    Ok (fs1, st2).

End WithManager.
End Cleanup.

(** The container of slot [m] is running: the daemon can be reached, and
    the record of the slot names a container that is running. *)
Definition slot_running {text E : Type} (yaml_safe_load : text -> option yaml)
    (cmgr : CleanupManager E) (fs : node text) (d : E) (m : Z) : bool :=
  cl_available cmgr d
  && match Slot.load yaml_safe_load m fs with
     | Some (YMap sd) =>
         match Cleanup.get_default "container_name" (SStr "") sd with
         | SStr c => negb (String.eqb c "") && cl_is_container_running cmgr c d
         | _ => false
         end
     | _ => false
     end.

(** The listing of a directory names each of its entries once. *)
Definition lists_entries {text : Type} (iterdir : gmap string (node text) -> list string)
    : Prop :=
  forall es, NoDup (iterdir es) /\ forall nm, nm ∈ iterdir es <-> is_Some (es !! nm).

(** Every slot record that loads names its container by a [str]. *)
Definition names_are_str {text : Type} (yaml_safe_load : text -> option yaml)
    (fs : node text) : Prop :=
  forall m sd, Slot.load yaml_safe_load m fs = Some (YMap sd) ->
    exists c, Cleanup.get_default "container_name" (SStr "") sd = SStr c.

(** A request to remove a container that was not running when the daemon
    was in the state [d]. *)
Definition stopped_container_removal {E : Type} (cmgr : CleanupManager E) (d : E)
    (r : removal E) : Prop :=
  match r with
  | RemoveContainer name _ => cl_is_container_running cmgr name d = false
  | _ => False
  end.
(** A request to remove an image of the repository [image_repo] that was
    not in use when the request was made. *)
Definition unused_image_of_repo {E : Type} (cmgr : CleanupManager E) (image_repo : string)
    (r : removal E) : Prop :=
  match r with
  | RemoveImage tag before =>
      cl_is_image_in_use cmgr tag before = false
      /\ String.prefix (image_repo +:+ ":") tag = true
  | RemoveContainer _ _ | RemoveOther _ _ => False
  end.

(** A daemon for the examples: its state is the names of the containers
    that are running; it has no images. *)
Module SimCleanup.

Definition daemon : Type := list string.

Definition manager : CleanupManager daemon := {|
  cl_available := fun _ => true;
  cl_is_container_running := fun name d => bool_decide (name ∈ d);
  cl_remove_container := fun name d =>
    if bool_decide (name ∈ d) then Raise DockerError else Ok d;
  cl_list_images := fun _ _ => [];
  cl_is_image_in_use := fun _ _ => false;
  cl_remove_image := fun _ d => Ok (false, d);
  cl_is_running_other := fun _ _ => Caught;
  cl_remove_other := fun _ _ => Raise DockerError;
|}.

Definition scalar_eqb (a b : scalar) : bool :=
  match a, b with
  | SNone, SNone => true
  | SInt x, SInt y => (x =? y)%Z
  | SStr x, SStr y => String.eqb x y
  | _, _ => false
  end.

(** The elements of a set in the order of their first insertion. *)
Fixpoint set_iter (l : list scalar) : list scalar :=
  match l with
  | [] => []
  | x :: rest => x :: List.filter (fun y => negb (scalar_eqb x y)) (set_iter rest)
  end.

(** The entries of a directory in the order of the map. *)
Definition iterdir (es : gmap string (node Sim.text)) : list string :=
  map fst (map_to_list es).

End SimCleanup.

(** * Properties *)

(** ** Sorting *)

Section InsertionSort.
Context {A K : Type} (le : K -> K -> bool) (key : A -> K).
Hypothesis le_total : forall x y, le x y = true \/ le y x = true.
Hypothesis le_trans : forall x y z, le x y = true -> le y z = true -> le x z = true.

Abbreviation key_sorted := (key_sorted le key).

Lemma insert_by_perm x l : Permutation (x :: l) (Str.insert_by le key x l).
Proof.
  induction l as [|y ys IH]; simpl; [reflexivity|].
  destruct (le (key x) (key y)); [reflexivity|].
  rewrite perm_swap. by constructor.
Qed.

Lemma sorted_by_perm l : Permutation l (Str.sorted_by le key l).
Proof.
  induction l as [|x xs IH]; simpl; [constructor|].
  rewrite <- insert_by_perm. by constructor.
Qed.

Lemma insert_by_sorted x l : key_sorted l -> key_sorted (Str.insert_by le key x l).
Proof.
  induction 1 as [|y ys Hs IH Hall]; simpl.
  - repeat constructor.
  - destruct (le (key x) (key y)) eqn:Hxy.
    + constructor; [by constructor|].
      constructor; [done|].
      eapply Forall_impl; [exact Hall|]. simpl. eauto.
    + constructor; [done|].
      rewrite <- insert_by_perm. constructor; [|done].
      destruct (le_total (key x) (key y)); congruence.
Qed.

Lemma sorted_by_sorted l : key_sorted (Str.sorted_by le key l).
Proof.
  induction l; simpl; [constructor|]. by apply insert_by_sorted.
Qed.

(** A list that is already in order is left as it is. *)
Lemma insert_by_head x l :
  Forall (fun b => le (key x) (key b) = true) l -> Str.insert_by le key x l = x :: l.
Proof. destruct 1 as [|y ys Hy _]; simpl; [done|]. by rewrite Hy. Qed.

Lemma sorted_by_id l : key_sorted l -> Str.sorted_by le key l = l.
Proof.
  unfold Str.sorted_by.
  induction 1 as [|x xs Hs IH Hall]; simpl; [done|].
  rewrite IH. by apply insert_by_head.
Qed.

End InsertionSort.

(** The order of [str] is a total order. *)
Lemma str_leb_total s t : Str.leb s t = true \/ Str.leb t s = true.
Proof. apply String.leb_total. Qed.

Lemma str_leb_antisym s t : Str.leb s t = true -> Str.leb t s = true -> s = t.
Proof. apply String.leb_antisym. Qed.

Lemma str_leb_spec s t :
  Str.leb s t = true <-> s = t \/ OrderedTypeEx.String_as_OT.lt s t.
Proof.
  unfold Str.leb, String.leb. split.
  - destruct (String.compare s t) eqn:Hc; [| |done]; intros _.
    + left. by apply String.compare_eq_iff.
    + right. by apply OrderedTypeEx.String_as_OT.cmp_lt.
  - intros [->|Hlt].
    + assert (String.compare t t = Eq) as ->; [|done].
      by apply OrderedTypeEx.String_as_OT.cmp_eq.
    + apply OrderedTypeEx.String_as_OT.cmp_lt in Hlt.
      unfold OrderedTypeEx.String_as_OT.cmp in Hlt. by rewrite Hlt.
Qed.

Lemma str_leb_trans s t u : Str.leb s t = true -> Str.leb t u = true -> Str.leb s u = true.
Proof.
  rewrite !str_leb_spec. intros [->|H1] [->|H2]; auto.
  right. eapply OrderedTypeEx.String_as_OT.lt_trans; eauto.
Qed.

Lemma str_insert_comm x y l :
  Str.insert_by Str.leb id x (Str.insert_by Str.leb id y l)
  = Str.insert_by Str.leb id y (Str.insert_by Str.leb id x l).
Proof.
  induction l as [|z l IH]; simpl.
  - destruct (Str.leb x y) eqn:Hxy, (Str.leb y x) eqn:Hyx; simpl; try done.
    + by rewrite (str_leb_antisym x y).
    + destruct (str_leb_total x y); congruence.
  - destruct (Str.leb x z) eqn:Hxz, (Str.leb y z) eqn:Hyz; simpl;
      rewrite ?Hxz, ?Hyz; simpl.
    + destruct (Str.leb x y) eqn:Hxy, (Str.leb y x) eqn:Hyx; simpl;
        rewrite ?Hxz, ?Hyz; try done.
      * by rewrite (str_leb_antisym x y).
      * destruct (str_leb_total x y); congruence.
    + destruct (Str.leb y x) eqn:Hyx; [|done].
      rewrite (str_leb_trans y x z) in Hyz; done.
    + destruct (Str.leb x y) eqn:Hxy; [|done].
      rewrite (str_leb_trans x y z) in Hxz; done.
    + by rewrite IH.
Qed.

(** [sorted] does not see the order of its argument. *)
Lemma sorted_permutation l l' : Permutation l l' -> Str.sorted l = Str.sorted l'.
Proof.
  unfold Str.sorted, Str.sorted_by.
  induction 1; simpl; try congruence. apply str_insert_comm.
Qed.

(** ** Image fingerprints *)

Lemma hex_digit_is_hex d : is_hex (Sha256.hex_digit d) = true.
Proof.
  destruct d as [|p]; [done|].
  do 4 (try destruct p as [p|p|]); done.
Qed.

Lemma length_string_of_list_ascii l :
  String.length (string_of_list_ascii l) = length l.
Proof. induction l; simpl; congruence. Qed.

Lemma list_ascii_app s t :
  list_ascii_of_string (s +:+ t) = list_ascii_of_string s ++ list_ascii_of_string t.
Proof. induction s; simpl; [done|]. by f_equal. Qed.

Lemma string_length_app s t :
  String.length (s +:+ t) = (String.length s + String.length t)%nat.
Proof. induction s; simpl; [done|]. by f_equal. Qed.

Lemma hex_word_spec x : hex_string 8 (Sha256.hex_word x).
Proof.
  unfold hex_string, Sha256.hex_word.
  rewrite list_ascii_of_string_of_list_ascii, length_string_of_list_ascii.
  split; [by rewrite List.length_map|].
  apply List.Forall_map, Forall_forall. intros i _. apply hex_digit_is_hex.
Qed.

Lemma concat_hex_words (f : nat -> string) (l : list nat) :
  (forall i, hex_string 8 (f i)) ->
  hex_string (8 * length l) (String.concat "" (map f l)).
Proof.
  intros Hf. induction l as [|i l IH]; [by split; [|constructor]|].
  destruct (Hf i) as [Hlen Hhex]. destruct IH as [IHlen IHhex].
  destruct l as [|j l].
  - split; [simpl; lia|done].
  - change (String.concat "" (map f (i :: j :: l)))
      with (f i +:+ "" +:+ String.concat "" (map f (j :: l))).
    split.
    + rewrite !string_length_app, IHlen, Hlen. simpl. lia.
    + rewrite !list_ascii_app. apply Forall_app. split; [done|]. exact IHhex.
Qed.

Lemma hexdigest_spec s : hex_string 64 (Sha256.hexdigest s).
Proof.
  unfold Sha256.hexdigest.
  apply (concat_hex_words (fun i => Sha256.hex_word (Sha256.nth_w _ i)) (seq 0 8)).
  intros i. apply hex_word_spec.
Qed.

Lemma take_spec n s :
  (n <= String.length s)%nat ->
  String.length (Str.take n s) = n
  /\ list_ascii_of_string (Str.take n s) = firstn n (list_ascii_of_string s).
Proof.
  revert s. induction n as [|n IH]; intros s Hn; [by destruct s|].
  destruct s as [|c s]; simpl in *; [lia|].
  destruct (IH s) as [-> ->]; [lia|done].
Qed.

(** The digests of the empty string and of ["abc"], as [hashlib] gives
    them. *)
Example hexdigest_empty :
  Sha256.hexdigest ""%string
  = "e3b0c44298fc1c149afbf4c8996fb92427ae41e4649b934ca495991b7852b855".
Proof. vm_compute. reflexivity. Qed.

Example hexdigest_abc :
  Sha256.hexdigest "abc"
  = "ba7816bf8f01cfea414140de5dae2223b00361a396177a9cb410ff61f20015ad".
Proof. vm_compute. reflexivity. Qed.

Lemma fingerprint_shape s : hex_string 12 (Str.take 12 (Sha256.hexdigest s)).
Proof.
  destruct (hexdigest_spec s) as [Hlen Hhex].
  destruct (take_spec 12 (Sha256.hexdigest s)) as [H1 H2]; [lia|].
  split; [done|]. rewrite H2. by apply Forall_take.
Qed.

(** C1, as amended: for a fixed Dockerfile body and base image,
    [_generate_base_image_hash] gives the same value for every
    permutation of the list of profile specifications, and that value
    consists of 12 hexadecimal digits. *)
Theorem base_image_hash_permutation
    (dockerfile_content base_image : string) (profiles profiles' : list string) :
  Permutation profiles profiles' ->
  Fingerprint._generate_base_image_hash dockerfile_content base_image profiles
  = Fingerprint._generate_base_image_hash dockerfile_content base_image profiles'
  /\ hex_string 12
       (Fingerprint._generate_base_image_hash dockerfile_content base_image profiles).
Proof.
  intros Hperm. unfold Fingerprint._generate_base_image_hash.
  rewrite (sorted_permutation _ _ Hperm).
  split; [done|]. apply fingerprint_shape.
Qed.

Lemma base_image_hash_permutation_witness :
  Fingerprint._generate_base_image_hash "FROM debian:bookworm-slim" "debian:bookworm-slim"
    ["python:3.12"; "nodejs:20"]
  = Fingerprint._generate_base_image_hash "FROM debian:bookworm-slim" "debian:bookworm-slim"
      ["nodejs:20"; "python:3.12"].
Proof.
  apply (base_image_hash_permutation "FROM debian:bookworm-slim" "debian:bookworm-slim"
           ["python:3.12"; "nodejs:20"] ["nodejs:20"; "python:3.12"]).
  apply perm_swap.
Defined.

Example fingerprint_python_nodejs :
  Fingerprint.base_fingerprint Sim.profile_catalog "debian:bookworm-slim"
    ["python:3.12"; "nodejs:20"] = Ok "0f66a9f563f7".
Proof. vm_compute. reflexivity. Qed.

Example fingerprint_nodejs_python :
  Fingerprint.base_fingerprint Sim.profile_catalog "debian:bookworm-slim"
    ["nodejs:20"; "python:3.12"] = Ok "560bcdf28ba3".
Proof. vm_compute. reflexivity. Qed.

(** C1 as stated fails: for the project whose profiles are [python:3.12]
    and [nodejs:20], exchanging the two profiles changes the generated base
    Dockerfile (the [ARG] lines and the profile sections follow the list)
    and with it the fingerprint [start_container] computes. *)
Lemma base_fingerprint_depends_on_profile_order :
  Permutation ["python:3.12"; "nodejs:20"] ["nodejs:20"; "python:3.12"]
  /\ Fingerprint.base_fingerprint Sim.profile_catalog "debian:bookworm-slim"
       ["python:3.12"; "nodejs:20"]
     <> Fingerprint.base_fingerprint Sim.profile_catalog "debian:bookworm-slim"
          ["nodejs:20"; "python:3.12"].
Proof.
  split; [apply perm_swap|].
  rewrite fingerprint_python_nodejs, fingerprint_nodejs_python. discriminate.
Qed.

(** ** The file system *)

Section FsFacts.
Context {text : Type}.
Implicit Types (fs : node text) (p : path).

Lemma lookup_path_app p q fs :
  Fs.lookup_path (p ++ q) fs = Fs.lookup_path p fs ≫= Fs.lookup_path q.
Proof.
  revert fs. induction p as [|c p IH]; intros fs; simpl; [done|].
  destruct fs as [t|es]; [done|].
  destruct (es !! c) as [child|]; simpl; [apply IH|done].
Qed.

Lemma write_text_lookup p t fs fs' :
  Fs.write_text p t fs = Ok fs' -> Fs.lookup_path p fs' = Some (File t).
Proof.
  revert fs fs'. induction p as [|c p IH]; intros fs fs'; [by destruct fs|].
  destruct fs as [t0|es]; [done|]. simpl.
  destruct p as [|c' p].
  - destruct (es !! c) as [[?|?]|]; intros [= <-]; simpl;
      by rewrite lookup_insert_eq.
  - destruct (es !! c) as [child|]; [|done].
    destruct (Fs.write_text (c' :: p) t child) as [child'|e] eqn:Hw; [|done].
    intros [= <-]. simpl. rewrite lookup_insert_eq. simpl.
    by apply (IH child child').
Qed.

Lemma exists_lookup p fs :
  Fs.exists_ p fs = true <-> Fs.lookup_path p fs <> None.
Proof. unfold Fs.exists_. by destruct (Fs.lookup_path p fs). Qed.

End FsFacts.

(** ** Slot records: existence, save and load *)

Section SlotFacts.
Context {text : Type}.
Variable yaml_dump : yaml -> text.
Variable yaml_safe_load : text -> option yaml.
Implicit Types (fs : node text).

Lemma load_exists slot_num fs y :
  Slot.load yaml_safe_load slot_num fs = Some y -> Slot.exists_ slot_num fs = true.
Proof.
  unfold Slot.load, Slot.exists_.
  by destruct (Fs.exists_ (Slot.config_path slot_num) fs).
Qed.

Lemma load_written slot_num t fs :
  Fs.lookup_path (Slot.config_path slot_num) fs = Some (File t) ->
  Slot.load yaml_safe_load slot_num fs
  = match yaml_safe_load t with
    | Some data => if Py.truthy data then Some data else None
    | None => None
    end.
Proof.
  intros Hl. unfold Slot.load, Fs.exists_, Fs.read_text. by rewrite Hl.
Qed.

Lemma find_from_spec count i fs :
  match Slot.find_from count i fs with
  | Ok j => (i <= j < i + Z.of_nat count)%Z
            /\ Slot.exists_ j fs = false
            /\ forall k, (i <= k < j)%Z -> Slot.exists_ k fs = true
  | Raise e => e = NoAvailableSlotsError
               /\ forall k, (i <= k < i + Z.of_nat count)%Z -> Slot.exists_ k fs = true
  end.
Proof.
  revert i. induction count as [|count IH]; intros i; simpl.
  - split; [done|]. intros k Hk. lia.
  - destruct (Slot.exists_ i fs) eqn:Hi.
    + specialize (IH (i + 1)%Z).
      destruct (Slot.find_from count (i + 1) fs) as [j|e].
      * destruct IH as (Hj & Hfree & Hocc). split; [lia|]. split; [done|].
        intros k Hk. destruct (decide (k = i)) as [->|]; [done|]. apply Hocc. lia.
      * destruct IH as (-> & Hocc). split; [done|].
        intros k Hk. destruct (decide (k = i)) as [->|]; [done|]. apply Hocc. lia.
    + split; [lia|]. split; [done|]. intros k Hk. lia.
Qed.

End SlotFacts.

(** C5: [find_available_slot] goes through the numbers [1..max_slots] in
    increasing order and returns the first one whose record does not
    exist, so never a number present in the store; it raises
    [NoAvailableSlotsError], and nothing else, exactly when every number
    of [1..max_slots] is taken. *)
Theorem find_available_slot_first_free {text : Type} (max_slots : Z) (fs : node text) :
  (forall j, Slot.find_available_slot max_slots 1 fs = Ok j ->
     (1 <= j <= max_slots)%Z
     /\ Slot.exists_ j fs = false
     /\ forall k, (1 <= k < j)%Z -> Slot.exists_ k fs = true)
  /\ (forall e, Slot.find_available_slot max_slots 1 fs = Raise e ->
        e = NoAvailableSlotsError)
  /\ (Slot.find_available_slot max_slots 1 fs = Raise NoAvailableSlotsError
      <-> forall k, (1 <= k <= max_slots)%Z -> Slot.exists_ k fs = true).
Proof.
  unfold Slot.find_available_slot.
  pose proof (find_from_spec (Z.to_nat (max_slots + 1 - 1)) 1 fs) as H.
  destruct (Slot.find_from _ 1 fs) as [j|e].
  - destruct H as (Hj & Hfree & Hocc).
    split; [|split; [done|split; [done|]]].
    + intros ? [= <-]. split; [lia|]. by split.
    + intros Hall. rewrite Hall in Hfree; [done|lia].
  - destruct H as (-> & Hocc).
    split; [done|]. split; [by intros ? [= <-]|].
    split; [|done]. intros _ k Hk. apply Hocc. lia.
Qed.

(** C9, as amended: [exists] is true exactly when the metadata path of the
    slot is present, whatever it holds; a slot whose record loads exists,
    and a slot that does not exist has no record to load. *)
Theorem exists_iff_metadata_present {text : Type} (yaml_safe_load : text -> option yaml)
    (slot_num : Z) (fs : node text) :
  (Slot.exists_ slot_num fs = true
   <-> Fs.lookup_path (Slot.config_path slot_num) fs <> None)
  /\ (forall t fs0, Fs.write_text (Slot.config_path slot_num) t fs0 = Ok fs ->
        Slot.exists_ slot_num fs = true)
  /\ (is_Some (Slot.load yaml_safe_load slot_num fs) -> Slot.exists_ slot_num fs = true)
  /\ (Slot.exists_ slot_num fs = false -> Slot.load yaml_safe_load slot_num fs = None).
Proof.
  split; [apply exists_lookup|]. split; [|split].
  - intros t fs0 Hw. apply exists_lookup. by rewrite (write_text_lookup _ _ _ _ Hw).
  - intros [y Hy]. by eapply load_exists.
  - intros Hex. destruct (Slot.load yaml_safe_load slot_num fs) eqn:Hl; [|done].
    apply load_exists in Hl. congruence.
Qed.

(** C9 as stated fails: a slot whose metadata file holds a text that is not
    YAML exists for [exists], and so for the allocation, while [load]
    finds no record in it. *)
Lemma exists_despite_unparsable_record :
  exists fs : node Sim.text,
    Fs.write_text (Slot.config_path 1) None
      (Dir {[ "slots" := Dir {[ "slot-1" := Dir ∅ ]} ]}) = Ok fs
    /\ Slot.exists_ 1 fs = true
    /\ Slot.load Sim.safe_load 1 fs = None
    /\ Slot.find_available_slot 10 1 fs = Ok 2%Z.
Proof. eexists. split; [vm_compute; reflexivity|]. vm_compute. done. Qed.

(** C10: after a successful [save(p, c)] the slot exists and [load] returns
    a record whose [ai_provider] is [p] and whose [container_name] is [c],
    [yaml.safe_load] being the inverse of [yaml.dump]. *)
Theorem save_load_roundtrip {text : Type}
    (yaml_dump : yaml -> text) (yaml_safe_load : text -> option yaml)
    (slot_num : Z) (p c created_at last_used : string) (fs fs' : node text) :
  yaml_roundtrip yaml_dump yaml_safe_load ->
  Slot.save yaml_dump slot_num p c created_at last_used fs = Ok fs' ->
  Slot.exists_ slot_num fs' = true
  /\ exists d, Slot.load yaml_safe_load slot_num fs' = Some (YMap d)
       /\ Py.get "ai_provider" d = SStr p
       /\ Py.get "container_name" d = SStr c.
Proof.
  intros Hrt Hsave. unfold Slot.save, bind in Hsave.
  destruct (Fs.mkdir_p (Slot.slot_dir slot_num) fs) as [fs1|e]; [|done].
  apply write_text_lookup in Hsave.
  split; [apply exists_lookup; by rewrite Hsave|].
  exists (Slot.record p c created_at last_used).
  rewrite (load_written _ _ _ _ Hsave), Hrt. done.
Qed.

Lemma save_load_roundtrip_witness :
  exists fs',
    Slot.save Sim.dump 3 "claude" "aibox-demo-3" "t0" "t1" Sim.empty_fs = Ok fs'
    /\ Slot.exists_ 3 fs' = true
    /\ exists d, Slot.load Sim.safe_load 3 fs' = Some (YMap d)
         /\ Py.get "ai_provider" d = SStr "claude"
         /\ Py.get "container_name" d = SStr "aibox-demo-3".
Proof.
  destruct (Slot.save Sim.dump 3 "claude" "aibox-demo-3" "t0" "t1" Sim.empty_fs)
    as [fs'|e] eqn:Hsave; [|vm_compute in Hsave; discriminate Hsave].
  exists fs'. split; [done|].
  apply (save_load_roundtrip Sim.dump Sim.safe_load 3 "claude" "aibox-demo-3" "t0" "t1"
           Sim.empty_fs fs'); [|exact Hsave].
  intros y. reflexivity.
Defined.

(** ** Start and stop *)

Lemma bind_ok {A B} (r : result A) (k : A -> result B) (b : B) :
  bind r k = Ok b -> exists a, r = Ok a /\ k a = Ok b.
Proof. destruct r as [a|e]; simpl; [eauto|done]. Qed.

Ltac bind_inv H :=
  let a := fresh "a" in
  let Ha := fresh "H" a in
  let Hk := fresh "Hk" in
  apply bind_ok in H; destruct H as (a & Ha & Hk); rename Hk into H.

(** Every [bind] known to return is split into its two steps. *)
Ltac binds :=
  repeat match goal with
         | H : bind _ _ = Ok _ |- _ =>
             let Hk := fresh "Hk" in
             apply bind_ok in H; destruct H as (? & ? & Hk)
         end.

Section OrchestratorFacts.
Context {text E C : Type}.
Variable env : Env text E C.
Abbreviation world := (world text E).
Implicit Types (w : world) (pl : @Orchestrator.plan text).

Lemma cleanup_after_build_spec built w w' :
  Orchestrator.cleanup_after_build env built w = Ok w' ->
  w_fs w' = w_fs w /\ w_ticks w' = w_ticks w
  /\ extends w w' (if built then [EvPrune] else []).
Proof.
  unfold Orchestrator.cleanup_after_build, Orchestrator.prune_dangling_images, extends.
  destruct built.
  - destruct (images_prune _ _) as [[[n z] d]|]; [|done].
    simpl. by intros [= <-].
  - intros [= <-]. by rewrite app_nil_r.
Qed.

Lemma cleanup_after_build_fails w :
  images_prune (manager env) (w_docker w) = None ->
  Orchestrator.cleanup_after_build env true w = Raise DockerError.
Proof.
  intros Hp. unfold Orchestrator.cleanup_after_build, Orchestrator.prune_dangling_images.
  by rewrite Hp.
Qed.

Lemma run_container_spec pl reuse auto_remove force w c w' :
  Orchestrator.run_container env pl reuse auto_remove force w = Ok (c, w') ->
  w_ticks w' = w_ticks w
  /\ exists evs, extends w w' evs /\ EvPrune ∉ evs.
Proof.
  unfold Orchestrator.run_container, extends. intros H.
  bind_inv H. destruct a as [all_volumes fs1].
  set (create := bind (cm_create_container _ _ _) _) in H.
  assert (forall c w', create = Ok (c, w') ->
            w_ticks w' = w_ticks w
            /\ exists evs, w_calls w' = w_calls w ++ evs /\ EvPrune ∉ evs) as Hcreate.
  { clear H. subst create. intros c0 w0 H.
    bind_inv H. destruct a as [c1 d1]. simpl in H.
    bind_inv H. simplify_eq/=. split; [done|].
    eexists [_; _]. rewrite <- app_assoc. split; [done|].
    set_solver. }
  simpl in H.
  destruct (get_container _ _ _) as [existing|]; [|by eapply Hcreate].
  destruct reuse; [|by eapply Hcreate].
  destruct (is_container_running _ _ _).
  - simplify_eq/=. split; [done|].
    exists []. rewrite app_nil_r. split; [done|]. set_solver.
  - bind_inv H. simplify_eq/=. split; [done|].
    eexists [_]. split; [done|]. set_solver.
Qed.

Lemma save_slot_spec pl w w' :
  yaml_roundtrip (yaml_dump env) (yaml_safe_load env) ->
  Orchestrator.save_slot env pl w = Ok w' ->
  w_calls w' = w_calls w
  /\ Slot.load (yaml_safe_load env) (Orchestrator.pl_slot_number pl) (w_fs w')
     = Some (YMap (Slot.record (Orchestrator.pl_provider_name pl)
                     (Orchestrator.container_name_of pl)
                     (isoformat_now env (w_ticks w))
                     (isoformat_now env (S (w_ticks w))))).
Proof.
  intros Hrt H. unfold Orchestrator.save_slot, Slot.get_slot in H.
  destruct (_ <? _)%Z; [done|]. simpl in H.
  destruct (Slot.save _ _ _ _ _ _ _) as [fs1|e] eqn:Hsave; [|done].
  simplify_eq/=. split; [done|].
  unfold Slot.save, bind in Hsave.
  destruct (Fs.mkdir_p _ _) as [fs0|e]; [|done].
  apply write_text_lookup in Hsave.
  by rewrite (load_written _ _ _ _ Hsave), Hrt.
Qed.

Lemma ensure_image_exists_ticks a b c d e w b' w' :
  Orchestrator._ensure_image_exists env a b c d e w = Ok (b', w') ->
  w_ticks w' = w_ticks w.
Proof.
  unfold Orchestrator._ensure_image_exists, Orchestrator.do_tag, Orchestrator._build_image.
  intros H. destruct (image_exists _ _ _).
  - destruct (tag_image _ _ _ _) as [d1|]; simpl in H; [by simplify_eq/=|].
    destruct (build_image _ _ _ _ _ _) as [d2|]; simpl in H; [|done].
    destruct (tag_image _ _ _ _) as [d3|]; simpl in H; [|done].
    by simplify_eq/=.
  - destruct (build_image _ _ _ _ _ _) as [d2|]; simpl in H; [|done].
    destruct (image_exists _ _ _); simpl in H; [|done].
    destruct (tag_image _ _ _ _) as [d3|]; simpl in H; [|done].
    by simplify_eq/=.
Qed.

Lemma ensure_images_ticks pl w built w1 :
  Orchestrator.ensure_images env pl w = Ok (built, w1) -> w_ticks w1 = w_ticks w.
Proof.
  unfold Orchestrator.ensure_images. intros H.
  destruct (Orchestrator.connect env w); simpl in H; [|done].
  destruct (Orchestrator._ensure_image_exists _ _ _ _ _ _ w) as [[b0 w0]|] eqn:H0;
    simpl in H; [|done].
  apply ensure_image_exists_ticks in H0, H. congruence.
Qed.

Lemma resolve_provider_name_stored slot_number ai_provider w s :
  ai_provider = None \/ ai_provider = Some "" ->
  Orchestrator.resolve_provider_name env slot_number ai_provider w = Ok s ->
  Slot.get_ai_provider (yaml_safe_load env) slot_number (w_fs w) = Ok (SStr s).
Proof.
  unfold Orchestrator.resolve_provider_name, Slot.get_slot.
  intros [->| ->]; simpl; intros H; binds;
    repeat case_match; simplify_eq/=; done.
Qed.

End OrchestratorFacts.

(** C3, as amended: the clean-up of dangling images is called after a
    build of the provider image and not after a cache hit, and a failure
    of that clean-up is not swallowed: [start_container] then fails with
    [DockerError]. *)
Theorem prune_follows_provider_build {text E C : Type} (env : Env text E C)
    (slot_number : option Z) (ai_provider : option string)
    (reuse_existing auto_remove force_openai_auth_port : bool)
    (w w1 : world text E) (pl : @Orchestrator.plan text) (built : bool) :
  Orchestrator.make_plan env slot_number ai_provider w = Ok pl ->
  Orchestrator.ensure_images env pl w = Ok (built, w1) ->
  (forall info w',
     Orchestrator.start_container env slot_number ai_provider
       reuse_existing auto_remove force_openai_auth_port w = Ok (info, w') ->
     exists evs, w_calls w' = w_calls w1 ++ (if built then [EvPrune] else []) ++ evs
                 /\ EvPrune ∉ evs)
  /\ (built = true ->
      images_prune (manager env) (w_docker w1) = None ->
      Orchestrator.start_container env slot_number ai_provider
        reuse_existing auto_remove force_openai_auth_port w = Raise DockerError).
Proof.
  intros Hplan Himg. unfold Orchestrator.start_container.
  rewrite Hplan. simpl. rewrite Himg. simpl. split.
  - intros info w' H.
    destruct (Orchestrator.cleanup_after_build env built w1) as [w2|] eqn:Hc; [|done].
    simpl in H.
    destruct (Orchestrator.run_container _ _ _ _ _ _) as [[c w3]|] eqn:Hr; [|done].
    simpl in H.
    destruct (Orchestrator.save_slot env pl w3) as [w4|] eqn:Hs; [|done].
    simplify_eq/=.
    apply cleanup_after_build_spec in Hc as (_ & _ & Hev).
    apply run_container_spec in Hr as (_ & evs & Hev3 & Hno).
    assert (w_calls w' = w_calls w3) as ->.
    { unfold Orchestrator.save_slot in Hs. binds. by simplify_eq/=. }
    exists evs. unfold extends in *. by rewrite Hev3, Hev, <- app_assoc.
  - intros -> Hp. by rewrite (cleanup_after_build_fails env w1 Hp).
Qed.

Lemma prune_follows_provider_build_witness :
  exists pl built w1,
    Orchestrator.make_plan Sim.env None (Some "claude") (Sim.start_world Sim.empty_fs true)
    = Ok pl
    /\ Orchestrator.ensure_images Sim.env pl (Sim.start_world Sim.empty_fs true)
       = Ok (built, w1)
    /\ (built = true ->
        images_prune Sim.docker_manager (w_docker w1) = None ->
        Orchestrator.start_container Sim.env None (Some "claude") true true false
          (Sim.start_world Sim.empty_fs true) = Raise DockerError).
Proof.
  eassert (Orchestrator.make_plan Sim.env None (Some "claude")
             (Sim.start_world Sim.empty_fs true) = Ok _) as Hplan
    by (vm_compute; reflexivity).
  match type of Hplan with
  | _ = Ok ?pl =>
      eassert (Orchestrator.ensure_images Sim.env pl (Sim.start_world Sim.empty_fs true)
               = Ok (_, _)) as Himg by (vm_compute; reflexivity)
  end.
  do 3 eexists. split; [exact Hplan|]. split; [exact Himg|].
  exact (proj2 (prune_follows_provider_build Sim.env None (Some "claude") true true false
                  _ _ _ _ Hplan Himg)).
Defined.

(** C3 as stated fails: the provider image is built, the clean-up of
    dangling images fails, and [start_container] fails with it; with a
    clean-up that succeeds the same start succeeds. *)
Lemma failing_prune_fails_start :
  (exists pl w1,
     Orchestrator.make_plan Sim.env None (Some "claude") (Sim.start_world Sim.empty_fs false)
     = Ok pl
     /\ Orchestrator.ensure_images Sim.env pl (Sim.start_world Sim.empty_fs false)
        = Ok (true, w1)
     /\ images_prune Sim.docker_manager (w_docker w1) = None)
  /\ Orchestrator.start_container Sim.env None (Some "claude") true true false
       (Sim.start_world Sim.empty_fs false) = Raise DockerError
  /\ exists info w',
       Orchestrator.start_container Sim.env None (Some "claude") true true false
         (Sim.start_world Sim.empty_fs true) = Ok (info, w').
Proof.
  split; [|split].
  - do 2 eexists. split; [vm_compute; reflexivity|].
    split; [vm_compute; reflexivity|]. vm_compute. reflexivity.
  - vm_compute. reflexivity.
  - do 2 eexists. vm_compute. reflexivity.
Qed.

(** C4, as amended: the metadata write at the end of a successful start
    replaces the whole record: the container name is the one of the
    started container, [created_at] and [last_used] are the two readings of
    the clock made by the write, and the provider is the one the start
    resolved, which is the stored one when no provider was passed. *)
Theorem start_rewrites_record {text E C : Type} (env : Env text E C)
    (slot_num : option Z) (provider : option string)
    (reuse_existing auto_remove force_openai_auth_port : bool)
    (w w' : world text E) (info : ContainerInfo) :
  yaml_roundtrip (yaml_dump env) (yaml_safe_load env) ->
  Orchestrator.start_container env slot_num provider
    reuse_existing auto_remove force_openai_auth_port w = Ok (info, w') ->
  Slot.load (yaml_safe_load env) (slot_number info) (w_fs w')
  = Some (YMap (Slot.record (ai_provider info) (container_name info)
                  (isoformat_now env (w_ticks w))
                  (isoformat_now env (S (w_ticks w)))))
  /\ (provider = None \/ provider = Some "" ->
      Slot.get_ai_provider (yaml_safe_load env) (slot_number info) (w_fs w)
      = Ok (SStr (ai_provider info))).
Proof.
  intros Hrt H. unfold Orchestrator.start_container in H.
  destruct (Orchestrator.make_plan env slot_num provider w) as [pl|] eqn:Hplan; [|done].
  simpl in H.
  destruct (Orchestrator.ensure_images env pl w) as [[built w1]|] eqn:Himg; [|done].
  simpl in H.
  destruct (Orchestrator.cleanup_after_build env built w1) as [w2|] eqn:Hc; [|done].
  simpl in H.
  destruct (Orchestrator.run_container _ _ _ _ _ _) as [[c w3]|] eqn:Hr; [|done].
  simpl in H.
  destruct (Orchestrator.save_slot env pl w3) as [w4|] eqn:Hs; [|done].
  simplify_eq/=.
  apply ensure_images_ticks in Himg.
  apply cleanup_after_build_spec in Hc as (_ & Ht2 & _).
  apply run_container_spec in Hr as (Ht3 & _).
  apply (save_slot_spec env pl w3 w' Hrt) in Hs as (_ & Hload).
  split; [by rewrite Hload, Ht3, Ht2, Himg|].
  intros Hp. unfold Orchestrator.make_plan in Hplan.
  destruct (load_config env) as [config|]; [|done]. simpl in Hplan.
  destruct slot_num as [n|]; simpl in Hplan.
  - destruct (Orchestrator.resolve_provider_name env n provider w) as [s|] eqn:Hres;
      [|done].
    apply (resolve_provider_name_stored env n provider w s Hp) in Hres.
    simpl in Hplan. binds. by simplify_eq/=.
  - destruct (Slot.find_available_slot 10 1 (w_fs w)) as [n|]; [|done]. simpl in Hplan.
    destruct (Orchestrator.resolve_provider_name env n provider w) as [s|] eqn:Hres;
      [|done].
    apply (resolve_provider_name_stored env n provider w s Hp) in Hres.
    simpl in Hplan. binds. by simplify_eq/=.
Qed.

Lemma start_rewrites_record_witness :
  exists info w',
    Orchestrator.start_container Sim.env (Some 1%Z) None true true false
      (Sim.start_world Sim.configured_fs true) = Ok (info, w')
    /\ Slot.load Sim.safe_load (slot_number info) (w_fs w')
       = Some (YMap (Slot.record (ai_provider info) (container_name info)
                       (isoformat_now Sim.env 0) (isoformat_now Sim.env 1))).
Proof.
  eassert (Orchestrator.start_container Sim.env (Some 1%Z) None true true false
             (Sim.start_world Sim.configured_fs true) = Ok (_, _)) as Hstart
    by (vm_compute; reflexivity).
  do 2 eexists. split; [exact Hstart|].
  exact (proj1 (start_rewrites_record Sim.env (Some 1%Z) None true true false _ _ _
                  (fun y => eq_refl) Hstart)).
Defined.

(** C4 as stated fails: a slot configured on 2024-06-01 is started; the
    write that binds the container name also replaces [created_at] and
    [last_used] by the time of the start. *)
Lemma bind_resets_timestamps :
  Slot.load Sim.safe_load 1 Sim.configured_fs
  = Some (YMap (Slot.record "claude" "" "2024-06-01T08:00:00+00:00"
                  "2024-06-01T08:00:00+00:00"))
  /\ exists info w',
       Orchestrator.start_container Sim.env (Some 1%Z) None true true false
         (Sim.start_world Sim.configured_fs true) = Ok (info, w')
       /\ Slot.load Sim.safe_load 1 (w_fs w')
          = Some (YMap (Slot.record "claude" "aibox-demo-1" "2025-01-01T00:00:00+00:00"
                          "2025-01-01T00:00:01+00:00"))
       /\ Py.get "created_at" (Slot.record "claude" "aibox-demo-1"
                                 "2025-01-01T00:00:00+00:00" "2025-01-01T00:00:01+00:00")
          <> Py.get "created_at" (Slot.record "claude" "" "2024-06-01T08:00:00+00:00"
                                    "2024-06-01T08:00:00+00:00").
Proof.
  split; [vm_compute; reflexivity|].
  do 2 eexists. split; [vm_compute; reflexivity|].
  split; [vm_compute; reflexivity|]. vm_compute. discriminate.
Qed.

(** C7: [stop_container] leaves the files of the slot store as they are,
    and the container it stops is the one named in the slot record, or
    [aibox-<project>-<slot>] when there is no record or no name in it. *)
Theorem stop_container_keeps_metadata {text E C : Type} (env : Env text E C)
    (slot_num : Z) (w w' : world text E) :
  Orchestrator.stop_container env slot_num w = Ok w' ->
  w_fs w' = w_fs w
  /\ exists config name,
       load_config env = Ok config
       /\ w_calls w' = w_calls w ++ [EvStop name]
       /\ cm_stop_container (manager env) name (w_docker w) = Ok (w_docker w')
       /\ match Slot.load (yaml_safe_load env) slot_num (w_fs w) with
          | Some (YMap d) =>
              if Py.truthy_scalar (Py.get "container_name" d)
              then name = Py.get "container_name" d
              else name = SStr ("aibox-" +:+ project_name config +:+ "-" +:+ pretty slot_num)
          | Some _ => False
          | None => name = SStr ("aibox-" +:+ project_name config +:+ "-" +:+ pretty slot_num)
          end.
Proof.
  unfold Orchestrator.stop_container, Slot.get_slot. intros H.
  destruct (load_config env) as [config|]; [|done]. simpl in H.
  destruct (slot_num <? 1)%Z; [done|]. simpl in H.
  unfold Orchestrator.container_to_stop, Slot.get_field in H.
  destruct (Slot.load (yaml_safe_load env) slot_num (w_fs w)) as [[v|l|d]|];
    simpl in H; try done.
  - destruct (Py.truthy_scalar (Py.get "container_name" d)) eqn:Ht; simpl in H;
      (destruct (Orchestrator.connect env w); simpl in H; [|done]);
      (destruct (cm_stop_container _ _ _) as [d'|] eqn:Hstop; simpl in H; [|done]);
      simplify_eq/=; (split; [done|]); eexists config, _; rewrite ?Ht; done.
  - destruct (Orchestrator.connect env w); simpl in H; [|done].
    destruct (cm_stop_container _ _ _) as [d'|] eqn:Hstop; simpl in H; [|done].
    simplify_eq/=. split; [done|]. by eexists config, _.
Qed.

Lemma stop_container_keeps_metadata_witness :
  exists w',
    Orchestrator.stop_container Sim.env 1 Sim.started_world = Ok w'
    /\ w_fs w' = w_fs Sim.started_world.
Proof.
  eassert (Orchestrator.stop_container Sim.env 1 Sim.started_world = Ok _) as Hstop
    by (vm_compute; reflexivity).
  eexists. split; [exact Hstop|].
  exact (proj1 (stop_container_keeps_metadata Sim.env 1 Sim.started_world _ Hstop)).
Defined.


(** ** Volume mounts *)

Section DictFacts.
Context {A : Type}.
Implicit Types (d : list (string * A)).

Lemma set_keys k v d :
  map fst (Py.set k v d)
  = if bool_decide (k ∈ map fst d) then map fst d else map fst d ++ [k].
Proof.
  induction d as [|[k' v'] d IH]; simpl; [done|].
  destruct (String.eqb_spec k k') as [->|Hne].
  - rewrite bool_decide_eq_true_2; [done|]. set_solver.
  - simpl. rewrite IH.
    destruct (bool_decide (k ∈ map fst d)) eqn:Hin.
    + rewrite bool_decide_eq_true_2; [done|].
      apply bool_decide_eq_true in Hin. set_solver.
    + rewrite bool_decide_eq_false_2; [done|].
      apply bool_decide_eq_false in Hin. set_solver.
Qed.

Lemma set_NoDup k v d : NoDup (map fst d) -> NoDup (map fst (Py.set k v d)).
Proof.
  intros Hnd. rewrite set_keys. case_bool_decide as Hin; [done|].
  apply NoDup_app. split; [done|]. split; [|apply NoDup_singleton].
  intros x Hx ->%list_elem_of_singleton. done.
Qed.

Lemma lookup_set_eq k v d : Py.lookup k (Py.set k v d) = Some v.
Proof.
  induction d as [|[k' v'] d IH]; simpl.
  - by rewrite String.eqb_refl.
  - destruct (String.eqb_spec k k') as [->|Hne]; simpl.
    + by rewrite String.eqb_refl.
    + by destruct (String.eqb_spec k k').
Qed.

Lemma lookup_set_ne k k' v d : k <> k' -> Py.lookup k' (Py.set k v d) = Py.lookup k' d.
Proof.
  intros Hne. induction d as [|[k0 v0] d IH]; simpl.
  - by destruct (String.eqb_spec k' k).
  - destruct (String.eqb_spec k k0) as [->|Hne0]; simpl.
    + destruct (String.eqb_spec k' k0); [congruence|done].
    + by rewrite IH.
Qed.

End DictFacts.

Section MkdirFacts.
Context {text : Type}.
Implicit Types (fs : node text) (p : path).

Lemma mkdir_p_is_dir p fs fs' :
  Fs.mkdir_p p fs = Ok fs' -> Fs.is_dir p fs' = true.
Proof.
  unfold Fs.is_dir.
  revert fs fs'. induction p as [|c p IH]; intros fs fs'; destruct fs as [t|es]; simpl;
    try done.
  - by intros [= <-].
  - destruct (Fs.mkdir_p p (default (Dir ∅) (es !! c))) as [child|e] eqn:Hc; [|done].
    simpl. intros [= <-]. rewrite lookup_insert_eq. simpl. by apply (IH _ _ Hc).
Qed.

Lemma is_dir_exists p fs : Fs.is_dir p fs = true -> Fs.exists_ p fs = true.
Proof. unfold Fs.is_dir, Fs.exists_. by destruct (Fs.lookup_path p fs). Qed.

End MkdirFacts.

(** One round of the loop of [prepare_volumes] over the configuration
    paths of the provider: it adds at most one mount, keyed by the path
    below the directory of the slot, bound to [/home/aibox/<path>] and
    read-write; a missing path without a suffix is created as a directory,
    a missing path with a suffix (a file) is not created, and a path that
    is not there after the round gets no mount.  The round fails only when
    the directory cannot be created. *)
Lemma mount_provider_path_round {text : Type}
    (aibox_dir : string) (os_access chmod_ok : path -> bool)
    (slot_number : Z) (path_name : string)
    (vols : list (string * Mount)) (fs : node text) :
  let host_path := Volumes.slot_dir slot_number ++ Volumes.parts path_name in
  let key := Volumes.host_str aibox_dir host_path in
  match Volumes.mount_provider_path aibox_dir os_access chmod_ok slot_number path_name
          (vols, fs) with
  | Ok (vols', fs') =>
      (vols' = vols
       \/ vols' = Py.set key {| bind_to := "/home/aibox/" +:+ path_name; mode := "rw" |} vols)
      /\ (NoDup (map fst vols) -> NoDup (map fst vols'))
      /\ (Fs.exists_ host_path fs = false -> Volumes.suffix host_path = "" ->
          Fs.mkdir_p host_path fs = Ok fs' /\ Fs.is_dir host_path fs' = true)
      /\ (Fs.exists_ host_path fs = false -> Volumes.suffix host_path <> "" ->
          fs' = fs /\ vols' = vols)
      /\ (Fs.exists_ host_path fs = true -> fs' = fs)
      /\ (Fs.exists_ host_path fs' = false -> vols' = vols)
  | Raise e =>
      Fs.exists_ host_path fs = false /\ Volumes.suffix host_path = ""
      /\ Fs.mkdir_p host_path fs = Raise e
  end.
Proof.
  intros host_path key. unfold Volumes.mount_provider_path, Volumes.rw.
  fold host_path. fold key. clearbody key. clearbody host_path.
  destruct (Fs.exists_ host_path fs) eqn:Hex; cbn [negb andb bind].
  - rewrite Hex. cbn [negb andb bind].
    repeat case_match; simplify_eq/=;
      (split; [by auto|]); (split; [by auto using set_NoDup|]);
      repeat split; try done; congruence.
  - destruct (String.eqb_spec (Volumes.suffix host_path) "") as [Hsuf|Hsuf];
      cbn [negb andb bind].
    + destruct (Fs.mkdir_p host_path fs) as [fs1|e] eqn:Hmk; cbn [negb andb bind];
        [|by repeat split].
      pose proof (mkdir_p_is_dir _ _ _ Hmk) as Hdir.
      rewrite (is_dir_exists _ _ Hdir), Hdir. cbn [negb andb bind].
      repeat case_match; simplify_eq/=;
        (split; [by auto|]); (split; [by auto using set_NoDup|]);
        repeat split; try done; try congruence;
        rewrite (is_dir_exists _ _ Hdir); done.
    + split; [by auto|]. split; [done|]. repeat split; try done; congruence.
Qed.

(** ** Listing *)

(** C6 fails on the code.  The directories are visited in the order of
    their names, so slot 10 is listed before slot 2; a record that is not
    YAML is skipped, but a record that parses to something else than a
    mapping stops the listing with [TypeError]. *)
Theorem list_slots_in_name_order :
  Slot.list_slots Sim.safe_load
    (Sim.saved [(2%Z, Slot.record "claude" "aibox-demo-2" "t2" "t2");
                (10%Z, Slot.record "gemini" "aibox-demo-10" "t10" "t10")])
  = Ok [ [("slot", SInt 10); ("ai_provider", SStr "gemini");
          ("container_name", SStr "aibox-demo-10");
          ("created_at", SStr "t10"); ("last_used", SStr "t10")];
         [("slot", SInt 2); ("ai_provider", SStr "claude");
          ("container_name", SStr "aibox-demo-2");
          ("created_at", SStr "t2"); ("last_used", SStr "t2")] ]
  /\ Slot.list_slots Sim.safe_load
       (Sim.with_text 1 None
          (Sim.saved [(2%Z, Slot.record "claude" "aibox-demo-2" "t2" "t2")]))
     = Ok [ [("slot", SInt 2); ("ai_provider", SStr "claude");
             ("container_name", SStr "aibox-demo-2");
             ("created_at", SStr "t2"); ("last_used", SStr "t2")] ]
  /\ Slot.list_slots Sim.safe_load
       (Sim.with_text 1 (Some (YScalar (SStr "hello")))
          (Sim.saved [(2%Z, Slot.record "claude" "aibox-demo-2" "t2" "t2")]))
     = Raise TypeError.
Proof. repeat split; vm_compute; reflexivity. Qed.

(** ** Slot directory names *)

Lemma digit_pretty_N_char (d : N) :
  (d < 10)%N -> Py.digit (pretty_N_char d) = Some (Z.of_N d).
Proof.
  intros Hd.
  assert (d = 0 \/ d = 1 \/ d = 2 \/ d = 3 \/ d = 4 \/ d = 5 \/ d = 6 \/ d = 7
          \/ d = 8 \/ d = 9)%N as Hcases by lia.
  repeat (destruct Hcases as [->|Hcases]; [reflexivity|]). by subst.
Qed.

Lemma digits_go_pretty (x : N) :
  forall s b, (0 < x)%N ->
    Py.digits_go 0 b (pretty_N_go x s) = Py.digits_go (Z.of_N x) true s.
Proof.
  induction x as [x IH] using (well_founded_induction N.lt_wf_0).
  intros s b Hx. rewrite pretty_N_go_step by done.
  assert (x `mod` 10 < 10)%N as Hmod by (apply N.mod_lt; lia).
  assert (x `div` 10 < x)%N as Hdiv by (apply N.div_lt; lia).
  pose proof (N.div_mod x 10 ltac:(lia)) as Hdm.
  destruct (decide (x `div` 10 = 0)%N) as [Hz|Hnz%N.neq_0_lt_0].
  - rewrite Hz, pretty_N_go_0. simpl.
    rewrite (digit_pretty_N_char _ Hmod). rewrite Hz in Hdm.
    do 2 f_equal. generalize dependent (x `mod` 10)%N. intros. lia.
  - rewrite (IH _ Hdiv _ _ Hnz). simpl.
    rewrite (digit_pretty_N_char _ Hmod). f_equal.
    generalize dependent (x `mod` 10)%N. generalize dependent (x `div` 10)%N.
    intros. lia.
Qed.

Lemma pretty_N_go_digits (x : N) :
  forall s, Forall is_digit (list_ascii_of_string s) ->
    Forall is_digit (list_ascii_of_string (pretty_N_go x s)).
Proof.
  induction x as [x IH] using (well_founded_induction N.lt_wf_0).
  intros s Hs. destruct (decide (x = 0)%N) as [->|Hnz]; [by rewrite pretty_N_go_0|].
  rewrite pretty_N_go_step by lia. apply IH; [apply N.div_lt; lia|].
  simpl. constructor; [|done].
  eexists. apply digit_pretty_N_char. apply N.mod_lt. lia.
Qed.

Lemma pretty_N_go_nonempty (x : N) s : (0 < x)%N -> pretty_N_go x s <> "".
Proof.
  revert s. induction x as [x IH] using (well_founded_induction N.lt_wf_0).
  intros s Hx. rewrite pretty_N_go_step by done.
  destruct (decide (x `div` 10 = 0)%N) as [Hz|Hnz%N.neq_0_lt_0].
  - by rewrite Hz, pretty_N_go_0.
  - apply IH; [apply N.div_lt; lia|done].
Qed.

(** The decimal text of a positive number. *)
Lemma pretty_pos_spec (n : Z) :
  (1 <= n)%Z ->
  pretty n <> ""
  /\ Forall is_digit (list_ascii_of_string (pretty n))
  /\ Py.digits_go 0 false (pretty n) = Some n.
Proof.
  intros Hn. destruct n as [|p|p]; try lia.
  change (pretty (Z.pos p)) with (pretty_N_go (N.pos p) "").
  split; [apply pretty_N_go_nonempty; lia|].
  split; [apply pretty_N_go_digits; constructor|].
  rewrite digits_go_pretty by lia. done.
Qed.

Lemma digit_not_space c : is_digit c -> PyStr.is_space c = false.
Proof.
  intros [d Hd]. unfold Py.digit in Hd. unfold PyStr.is_space.
  destruct (48 <=? nat_of_ascii c)%nat eqn:H1; [|done].
  destruct (nat_of_ascii c <=? 57)%nat eqn:H2; [|done].
  apply Nat.leb_le in H1, H2.
  rewrite (proj2 (Nat.leb_gt (nat_of_ascii c) 13)) by lia.
  rewrite andb_false_r. simpl.
  rewrite (proj2 (Nat.leb_gt (nat_of_ascii c) 32)) by lia. by rewrite andb_false_r.
Qed.

Lemma digit_neq c (c' : ascii) :
  is_digit c -> Py.digit c' = None -> Ascii.eqb c c' = false.
Proof.
  intros [d Hd] Hc'. destruct (Ascii.eqb_spec c c') as [->|]; [congruence|done].
Qed.

Lemma strip_digits s :
  Forall is_digit (list_ascii_of_string s) -> PyStr.strip s = s.
Proof.
  intros Hs. unfold PyStr.strip.
  assert (PyStr.lstrip s = s) as ->.
  { destruct s as [|c s]; [done|]. simpl. inversion_clear Hs as [|?? Hc _].
    by rewrite (digit_not_space _ Hc). }
  induction s as [|c s IH]; [done|]. simpl in *.
  inversion_clear Hs as [|?? Hc Hs']. rewrite (IH Hs').
  destruct s; [|done]. by rewrite (digit_not_space _ Hc).
Qed.

Lemma int_pretty (n : Z) : (1 <= n)%Z -> Py.int (pretty n) = Some n.
Proof.
  intros Hn. destruct (pretty_pos_spec n Hn) as (Hne & Hdig & Hval).
  unfold Py.int. rewrite (strip_digits _ Hdig).
  destruct (pretty n) as [|c r]; [done|].
  inversion_clear Hdig as [|?? Hc _].
  rewrite (digit_neq c "+" Hc), (digit_neq c "-" Hc) by done. exact Hval.
Qed.

Lemma split_no_sep sep s :
  Forall (fun c => Ascii.eqb c sep = false) (list_ascii_of_string s) ->
  PyStr.split sep s = [s].
Proof.
  induction s as [|c s IH]; [done|]. simpl.
  intros Hs. inversion_clear Hs as [|?? Hc Hs']. by rewrite Hc, (IH Hs').
Qed.

Lemma split_slot_name (n : Z) :
  (1 <= n)%Z -> PyStr.split "-" (Slot.slot_name n) = ["slot"; pretty n].
Proof.
  intros Hn. destruct (pretty_pos_spec n Hn) as (_ & Hdig & _).
  unfold Slot.slot_name.
  change ("slot-" +:+ pretty n)
    with (String "s" (String "l" (String "o" (String "t" (String "-" (pretty n)))))).
  cbn -[pretty]. rewrite split_no_sep; [done|].
  eapply Forall_impl; [exact Hdig|]. intros c Hc. by apply digit_neq.
Qed.

Lemma slot_name_inj (n m : Z) : Slot.slot_name n = Slot.slot_name m -> n = m.
Proof.
  unfold Slot.slot_name.
  change ("slot-" +:+ pretty n)
    with (String "s" (String "l" (String "o" (String "t" (String "-" (pretty n)))))).
  change ("slot-" +:+ pretty m)
    with (String "s" (String "l" (String "o" (String "t" (String "-" (pretty m)))))).
  intros [= H]. by apply (inj pretty).
Qed.

Lemma slot_name_prefix (n : Z) : String.prefix "slot-" (Slot.slot_name n) = true.
Proof.
  unfold Slot.slot_name.
  change ("slot-" +:+ pretty n)
    with (String "s" (String "l" (String "o" (String "t" (String "-" (pretty n)))))).
  cbn -[pretty]. by destruct (pretty n).
Qed.

(** ** Dictionaries *)

Lemma lookup_not_in {A} k (d : list (string * A)) :
  k ∉ map fst d -> Py.lookup k d = None.
Proof.
  induction d as [|[k' v] d IH]; simpl; [done|].
  intros Hk. destruct (String.eqb_spec k k') as [->|]; [set_solver|].
  apply IH. set_solver.
Qed.

Lemma lookup_update {A} k (base d : list (string * A)) :
  NoDup (map fst d) ->
  Py.lookup k (Py.update base d)
  = match Py.lookup k d with Some v => Some v | None => Py.lookup k base end.
Proof.
  unfold Py.update. revert base.
  induction d as [|[k0 v0] d IH]; intros base Hnd; simpl; [done|].
  inversion_clear Hnd as [|?? Hk0 Hnd']. rewrite (IH _ Hnd').
  destruct (String.eqb_spec k k0) as [->|Hne].
  - by rewrite (lookup_not_in _ _ Hk0), lookup_set_eq.
  - by rewrite lookup_set_ne.
Qed.

Lemma entry_slot n d :
  NoDup (map fst d) -> Py.lookup "slot" d = None ->
  Py.lookup "slot" (entry n d) = Some (SInt n).
Proof. intros Hnd Hs. unfold entry. by rewrite lookup_update, Hs. Qed.

Lemma entry_get n d k :
  NoDup (map fst d) -> k <> "slot" -> Py.get k (entry n d) = Py.get k d.
Proof.
  intros Hnd Hk. unfold Py.get, entry. rewrite lookup_update by done.
  destruct (Py.lookup k d); [done|]. simpl.
  by destruct (String.eqb_spec k "slot").
Qed.

Lemma get_set_eq k v (d : dict) : Py.get k (Py.set k v d) = v.
Proof. unfold Py.get. by rewrite lookup_set_eq. Qed.

Lemma get_set_ne k k' v (d : dict) : k <> k' -> Py.get k' (Py.set k v d) = Py.get k' d.
Proof. intros Hne. unfold Py.get. by rewrite lookup_set_ne. Qed.

Lemma set_nonempty {A} k v (d : list (string * A)) : Py.set k v d <> [].
Proof. destruct d as [|[k' v'] d]; simpl; [done|]. by destruct (String.eqb k k'). Qed.

Lemma restamp_get n d k :
  NoDup (map fst d) -> Py.get k (restamp (entry n d) d) = Py.get k d.
Proof.
  intros Hnd. unfold restamp. rewrite !entry_get by done.
  destruct (decide (k = "last_used")) as [->|Hl]; [by rewrite get_set_eq|].
  rewrite get_set_ne by done.
  destruct (decide (k = "created_at")) as [->|Hc]; [by rewrite get_set_eq|].
  by rewrite get_set_ne.
Qed.

Lemma restamp_slot n d :
  Py.lookup "slot" d = None -> Py.lookup "slot" (restamp (entry n d) d) = None.
Proof. intros Hs. unfold restamp. by rewrite !lookup_set_ne. Qed.

(** ** The slots directory *)

Section StoreFacts.
Context {text : Type}.
Variable yaml_dump : yaml -> text.
Variable yaml_safe_load : text -> option yaml.
Hypothesis Hroundtrip : yaml_roundtrip yaml_dump yaml_safe_load.
Implicit Types (root slots : gmap string (node text)) (x : node text).

Lemma with_slots_id root slots :
  root !! "slots" = Some (Dir slots) -> Dir root = with_slots root slots.
Proof. intros H. unfold with_slots. by rewrite insert_id. Qed.

Lemma with_slots_lookup root slots p :
  Fs.lookup_path ("slots" :: p) (with_slots root slots)
  = Fs.lookup_path p (Dir slots).
Proof. unfold with_slots. simpl. by rewrite lookup_insert_eq. Qed.

Lemma lookup_slot_dir root slots n :
  Fs.lookup_path (Slot.slot_dir n) (with_slots root slots) = slots !! Slot.slot_name n.
Proof.
  unfold Slot.slot_dir, Slot.slots_dir. simpl app. rewrite with_slots_lookup. simpl.
  by destruct (slots !! Slot.slot_name n).
Qed.

Lemma load_holds root slots n x d :
  slots !! Slot.slot_name n = Some x ->
  holds_record yaml_safe_load x d ->
  Slot.load yaml_safe_load n (with_slots root slots) = Some (YMap d).
Proof.
  intros Hx (es & t & -> & Hm & Hl & Hne & _).
  rewrite (load_written yaml_safe_load n t).
  - rewrite Hl. simpl. by destruct d.
  - unfold Slot.config_path, Slot.slot_dir, Slot.slots_dir. simpl app.
    rewrite with_slots_lookup. simpl. rewrite Hx. simpl. by rewrite Hm.
Qed.

Lemma exists_absent root slots n :
  slots !! Slot.slot_name n = None ->
  Slot.exists_ n (with_slots root slots) = false
  /\ Slot.load yaml_safe_load n (with_slots root slots) = None.
Proof.
  intros Hx.
  assert (Slot.exists_ n (with_slots root slots) = false) as Hex.
  { unfold Slot.exists_, Fs.exists_, Slot.config_path, Slot.slot_dir, Slot.slots_dir.
    simpl app. rewrite with_slots_lookup. simpl. by rewrite Hx. }
  split; [done|].
  destruct (Slot.load yaml_safe_load n (with_slots root slots)) eqn:Hl; [|done].
  apply load_exists in Hl. congruence.
Qed.

Lemma move_slot root slots a b x :
  slots !! a = Some x -> slots !! b = None ->
  Fs.move ["slots"; a] ["slots"; b] (with_slots root slots)
  = Ok (with_slots root (<[b := x]> (delete a slots))).
Proof.
  intros Ha Hb.
  assert (a <> b) as Hab by congruence.
  unfold Fs.move. rewrite !with_slots_lookup. simpl. rewrite Ha, Hb. simpl.
  unfold Fs.is_prefix. rewrite bool_decide_eq_false_2.
  - unfold Fs.rename. rewrite with_slots_lookup. simpl. rewrite Ha. simpl.
    unfold with_slots. simpl. rewrite !lookup_insert_eq. simpl. rewrite Ha. simpl.
    rewrite !lookup_insert_eq. simpl. by rewrite !insert_insert_eq.
  - intros [k Hk]. simpl in Hk. congruence.
Qed.

Lemma write_metadata root slots n es t :
  slots !! Slot.slot_name n = Some (Dir es) ->
  (forall es', es !! "metadata.yml" <> Some (Dir es')) ->
  Fs.write_text (Slot.config_path n) t (with_slots root slots)
  = Ok (with_slots root
          (<[Slot.slot_name n := Dir (<["metadata.yml" := File t]> es)]> slots)).
Proof.
  intros Hx Hm. unfold Slot.config_path, Slot.slot_dir, Slot.slots_dir, with_slots.
  simpl. rewrite lookup_insert_eq. simpl. rewrite Hx. simpl.
  destruct (es !! "metadata.yml") as [[?|es']|] eqn:Hes; simpl;
    rewrite ?insert_insert_eq; try done.
  by destruct (Hm es').
Qed.

(** One round of the loop of [renumber_slots], for a slot that has to
    move to a free number. *)
Lemma renumber_step_moves root slots new old x d :
  old <> new ->
  slots !! Slot.slot_name old = Some x ->
  holds_record yaml_safe_load x d ->
  slots !! Slot.slot_name new = None ->
  exists x',
    Slot.renumber_step yaml_dump yaml_safe_load new old (entry old d)
      (with_slots root slots)
    = Ok (with_slots root (<[Slot.slot_name new := x']> (delete (Slot.slot_name old) slots)))
    /\ holds_record yaml_safe_load x' (restamp (entry old d) d).
Proof.
  intros Hne Hold Hrec Hnew.
  pose proof Hrec as (es & t & -> & Hm & Hl & Hd & Hnd & Hs).
  exists (Dir (<["metadata.yml" := File (yaml_dump (YMap (restamp (entry old d) d)))]> es)).
  split.
  - unfold Slot.renumber_step.
    rewrite (proj2 (Z.eqb_neq old new)) by done.
    unfold Fs.exists_. rewrite lookup_slot_dir, Hold.
    unfold Slot.slot_dir, Slot.slots_dir. simpl app.
    rewrite (move_slot _ _ _ _ _ Hold Hnew). cbn [bind].
    rewrite (load_holds _ _ new (Dir es) d); [|by rewrite lookup_insert_eq|done].
    cbv beta iota. fold (restamp (entry old d) d).
    rewrite (write_metadata _ _ new es); [| by rewrite lookup_insert_eq | by rewrite Hm].
    by rewrite insert_insert_eq.
  - eexists _, _. split; [done|]. split; [by rewrite lookup_insert_eq|].
    split; [apply Hroundtrip|]. split; [apply set_nonempty|].
    split; [by do 2 apply set_NoDup|]. by apply restamp_slot.
Qed.

(** The loop of [renumber_slots] on the slots that remain, which are in
    increasing order and not below the next number [i]; the numbers
    from [i] on that are not theirs are free. *)
Lemma renumber_loop_spec root (L : list (Z * dict)) :
  forall (i : Z) slots,
    (1 <= i)%Z ->
    named slots ->
    StronglySorted (fun a b => (fst a < fst b)%Z) L ->
    Forall (fun a => (i <= fst a)%Z) L ->
    Forall (listed yaml_safe_load slots) L ->
    (forall j, (i <= j)%Z -> j ∉ map fst L -> slots !! Slot.slot_name j = None) ->
    exists slots',
      Slot.renumber_loop yaml_dump yaml_safe_load i L (with_slots root slots)
      = Ok (with_slots root slots')
      /\ named slots'
      /\ (forall idx a, L !! idx = Some a ->
            exists d', slot_ok yaml_safe_load slots' (i + Z.of_nat idx) d'
                       /\ forall k, k <> "slot" -> Py.get k d' = Py.get k (snd a))
      /\ (forall nm, (forall j, (i <= j)%Z -> nm <> Slot.slot_name j) ->
            slots' !! nm = slots !! nm)
      /\ (forall j, (i + Z.of_nat (length L) <= j)%Z -> slots' !! Slot.slot_name j = None).
Proof.
  induction L as [|[old e] L IH]; intros i slots Hi1 Hnamed Hsorted Hge Hlisted Hfree.
  { exists slots. split; [done|]. split; [done|]. split; [intros idx a Ha; by destruct idx|]. split; [done|].
    intros j Hj. apply Hfree; [simpl in Hj; lia|]. set_solver. }
  apply StronglySorted_inv in Hsorted as [Hsorted Hlt].
  apply Forall_cons in Hge as [Hold Hge]. simpl in Hold.
  apply Forall_cons in Hlisted as [(d & (x & Hx & Hrec) & He) Hlisted].
  simpl in He, Hx. subst e.
  pose proof Hrec as (_ & _ & _ & _ & _ & _ & Hnd & _).
  assert (Forall (fun a => (i + 1 <= fst a)%Z) L) as Hge'.
  { eapply Forall_impl; [exact Hlt|]. simpl. intros a Ha. lia. }
  assert (forall j, (i + 1 <= j)%Z -> j <> old -> j ∉ map fst L ->
                    slots !! Slot.slot_name j = None) as Hfree'.
  { intros j Hj Hjo Hjl. apply Hfree; [lia|]. simpl. set_solver. }
  assert (old ∉ map fst L) as Hold_notin.
  { intros Hin. apply list_elem_of_In, in_map_iff in Hin as ([o e'] & <- & Hin).
    apply list_elem_of_In in Hin.
    rewrite Forall_forall in Hlt. specialize (Hlt _ Hin). simpl in Hlt. lia. }
  simpl Slot.renumber_loop.
  destruct (decide (old = i)) as [->|Hne].
  - (* already in place *)
    unfold Slot.renumber_step at 1. rewrite Z.eqb_refl. cbn [bind].
    destruct (IH (i + 1)%Z slots ltac:(lia) Hnamed Hsorted Hge' Hlisted)
      as (slots' & Hloop & Hnamed' & Hkeep & Hsame & Hnone).
    { intros j Hj Hjl. apply Hfree'; [done|lia|done]. }
    exists slots'. split; [done|]. split; [done|]. split; [|split].
    + intros [|idx] a Ha; simpl in Ha.
      * injection Ha as <-. exists d. split.
        -- exists x. split; [|done]. rewrite Hsame; [by rewrite Z.add_0_r|].
           intros j Hj Heq. apply slot_name_inj in Heq. lia.
        -- intros k Hk. simpl. by rewrite entry_get.
      * destruct (Hkeep idx a Ha) as (d' & Hok & Hget).
        exists d'. split; [|done].
        by replace (i + Z.of_nat (S idx))%Z with (i + 1 + Z.of_nat idx)%Z by lia.
    + intros nm Hnm. apply Hsame. intros j Hj. apply Hnm. lia.
    + intros j Hj. apply Hnone. simpl in Hj. lia.
  - (* moved down to the free number [i] *)
    assert (slots !! Slot.slot_name i = None) as Hi.
    { apply Hfree; [lia|]. simpl. intros [->|Hin]%elem_of_cons; [done|].
      apply list_elem_of_In, in_map_iff in Hin as ([o e'] & Ho & Hin). simpl in Ho. subst o.
      apply list_elem_of_In in Hin.
      rewrite Forall_forall in Hge'. specialize (Hge' _ Hin). simpl in Hge'. lia. }
    destruct (renumber_step_moves root slots i old x d Hne Hx Hrec Hi)
      as (x' & Hstep & Hrec').
    rewrite Hstep. cbn [bind].
    set (slots1 := <[Slot.slot_name i := x']> (delete (Slot.slot_name old) slots)).
    assert (forall j, j <> i -> j <> old ->
              slots1 !! Slot.slot_name j = slots !! Slot.slot_name j) as Hother.
    { intros j Hji Hjo. unfold slots1.
      rewrite lookup_insert_ne by (intros Heq%slot_name_inj; lia).
      rewrite lookup_delete_ne by (intros Heq%slot_name_inj; lia). done. }
    assert (named slots1) as Hnamed1.
    { intros nm [y Hy]. unfold slots1 in Hy.
      destruct (decide (nm = Slot.slot_name i)) as [->|Hnmi]; [by exists i|].
      rewrite lookup_insert_ne in Hy by done.
      apply lookup_delete_Some in Hy as [_ Hy]. by apply Hnamed. }
    assert (Forall (listed yaml_safe_load slots1) L) as Hlisted1.
    { apply Forall_forall. intros [o e'] Hin.
      destruct (proj1 (Forall_forall _ _) Hlisted _ Hin) as (d0 & (x0 & Hx0 & Hrec0) & He0).
      simpl in Hx0, He0.
      exists d0. split; [|done]. exists x0. split; [|done].
      rewrite Hother; [done| |].
      - pose proof (proj1 (Forall_forall _ _) Hge' _ Hin) as Ho. simpl in *. lia.
      - pose proof (proj1 (Forall_forall _ _) Hlt _ Hin) as Ho. simpl in *. lia. }
    assert (forall j, (i + 1 <= j)%Z -> j ∉ map fst L ->
                      slots1 !! Slot.slot_name j = None) as Hfree1.
    { intros j Hj Hjl. destruct (decide (j = old)) as [->|Hjo].
      - unfold slots1. rewrite lookup_insert_ne by (intros Heq%slot_name_inj; lia).
        by rewrite lookup_delete_eq.
      - rewrite Hother by lia. by apply Hfree'. }
    destruct (IH (i + 1)%Z slots1 ltac:(lia) Hnamed1 Hsorted Hge' Hlisted1 Hfree1)
      as (slots' & Hloop & Hnamed' & Hkeep & Hsame & Hnone).
    exists slots'. split; [done|]. split; [done|]. split; [|split].
    + intros [|idx] a Ha; simpl in Ha.
      * injection Ha as <-. exists (restamp (entry old d) d). split.
        -- exists x'. split; [|done]. rewrite Z.add_0_r, Hsame.
           ++ unfold slots1. by rewrite lookup_insert_eq.
           ++ intros j Hj Heq. apply slot_name_inj in Heq. lia.
        -- intros k Hk. simpl. by rewrite restamp_get, entry_get.
      * destruct (Hkeep idx a Ha) as (d' & Hok & Hget).
        exists d'. split; [|done].
        by replace (i + Z.of_nat (S idx))%Z with (i + 1 + Z.of_nat idx)%Z by lia.
    + intros nm Hnm. rewrite Hsame by (intros j Hj; apply Hnm; lia).
      unfold slots1.
      rewrite lookup_insert_ne by (intros <-; by apply (Hnm i); [lia|]).
      rewrite lookup_delete_ne by (intros <-; by apply (Hnm old); [lia|]). done.
    + intros j Hj. apply Hnone. simpl in Hj. lia.
Qed.

End StoreFacts.

(** ** Listing a store whose records parse *)

Lemma combine_fst_snd {A B} (l : list (A * B)) : combine (map fst l) (map snd l) = l.
Proof. induction l as [|[a b] l IH]; simpl; congruence. Qed.

Lemma strict_of_sorted (L : list (Z * dict)) :
  key_sorted Z.leb fst L -> NoDup (map fst L) ->
  StronglySorted (fun a b => (fst a < fst b)%Z) L.
Proof.
  induction 1 as [|a L Hs IH Hall]; intros Hnd; [constructor|].
  simpl in Hnd. apply NoDup_cons in Hnd as [Hnotin Hnd].
  constructor; [by apply IH|].
  apply Forall_forall. intros b Hb.
  pose proof (proj1 (Forall_forall _ _) Hall _ Hb) as Hle. apply Z.leb_le in Hle.
  assert (fst a <> fst b); [|lia].
  intros Heq. apply Hnotin. rewrite Heq.
  apply list_elem_of_In, in_map, list_elem_of_In, Hb.
Qed.

Lemma sorted_seqZ (m : Z) (n : nat) : StronglySorted Z.le (seqZ m (Z.of_nat n)).
Proof.
  revert m. induction n as [|n IH]; intros m; [constructor|].
  rewrite seqZ_cons by lia.
  replace (Z.pred (Z.of_nat (S n))) with (Z.of_nat n) by lia.
  constructor; [apply IH|].
  apply Forall_forall. intros k Hk%elem_of_seqZ. lia.
Qed.

Section ListFacts.
Context {text : Type}.
Variable yaml_dump : yaml -> text.
Variable yaml_safe_load : text -> option yaml.
Implicit Types (root slots : gmap string (node text)).

Lemma list_entry_valid root slots n d :
  (1 <= n)%Z -> slot_ok yaml_safe_load slots n d ->
  Slot.list_entry yaml_safe_load (Slot.slot_name n) (with_slots root slots)
  = Ok (Some (entry n d)).
Proof.
  intros Hn (x & Hx & Hrec). unfold Slot.list_entry, Fs.is_dir.
  change (Slot.slots_dir ++ [Slot.slot_name n]) with (Slot.slot_dir n).
  rewrite lookup_slot_dir, Hx.
  pose proof Hrec as (es & t & -> & _). cbn [negb].
  rewrite (split_slot_name n Hn). cbn [nth_error].
  rewrite (int_pretty n Hn), (load_holds yaml_safe_load root slots n _ d Hx Hrec).
  done.
Qed.

Lemma list_entries_valid root slots names :
  Forall (fun nm => exists n d, (1 <= n)%Z /\ nm = Slot.slot_name n
                                /\ slot_ok yaml_safe_load slots n d) names ->
  exists pairs : list (Z * dict),
    Slot.list_entries yaml_safe_load names (with_slots root slots) = Ok (map snd pairs)
    /\ mapM Slot.slot_of (map snd pairs) = Ok (map fst pairs)
    /\ map Slot.slot_name (map fst pairs) = names
    /\ Forall (listed yaml_safe_load slots) pairs
    /\ Forall (fun a => (1 <= fst a)%Z) pairs.
Proof.
  induction 1 as [|nm names (n & d & Hn & -> & Hok) _ (pairs & Hl & Hm & Hnames & Hlisted & Hpos)].
  { by exists []. }
  exists ((n, entry n d) :: pairs). simpl.
  rewrite (list_entry_valid root slots n d Hn Hok). cbn [bind]. rewrite Hl. cbn [bind].
  split; [done|].
  destruct Hok as (x & Hx & Hrec).
  pose proof Hrec as (_ & _ & _ & _ & _ & _ & Hnd & Hs).
  split.
  { unfold Slot.slot_of at 1. rewrite (entry_slot n d Hnd Hs). cbn [bind].
    by rewrite Hm. }
  split; [by rewrite Hnames|].
  split; constructor; try done.
  exists d. split; [by exists x|done].
Qed.

(** The listing of a store whose records parse, and the order
    [renumber_slots] puts it in. *)
Lemma list_slots_parse root slots :
  slots_parse yaml_safe_load slots ->
  exists (l : list dict) (L : list (Z * dict)),
    Slot.list_slots yaml_safe_load (with_slots root slots) = Ok l
    /\ Slot.sorted_slots l = Ok L
    /\ length l = length L
    /\ StronglySorted (fun a b => (fst a < fst b)%Z) L
    /\ Forall (fun a => (1 <= fst a)%Z) L
    /\ Forall (listed yaml_safe_load slots) L
    /\ (forall j, j ∉ map fst L -> slots !! Slot.slot_name j = None).
Proof.
  intros Hparse.
  set (all_names := map fst (map_to_list slots)).
  set (names := Fs.sorted_glob Slot.slots_dir "slot-" (with_slots root slots)).
  assert (names = Str.sorted (filter (fun nm => String.prefix "slot-" nm = true) all_names))
    as Hnames.
  { unfold names, Fs.sorted_glob, Slot.slots_dir.
    rewrite with_slots_lookup. done. }
  assert (Permutation (filter (fun nm => String.prefix "slot-" nm = true) all_names) names)
    as Hperm.
  { rewrite Hnames. apply sorted_by_perm. }
  assert (forall nm, nm ∈ names <-> is_Some (slots !! nm)) as Hin.
  { intros nm. rewrite <- Hperm, list_elem_of_filter. unfold all_names.
    change (map fst (map_to_list slots)) with ((map_to_list slots).*1).
    rewrite list_elem_of_fmap. split.
    - intros (_ & [nm' x] & -> & Hx%elem_of_map_to_list). by exists x.
    - intros [x Hx]. destruct (Hparse nm x Hx) as (n & d & _ & -> & _).
      split; [apply slot_name_prefix|].
      exists (Slot.slot_name n, x). split; [done|]. by apply elem_of_map_to_list. }
  assert (NoDup names) as Hnd.
  { rewrite <- Hperm. apply NoDup_filter. unfold all_names.
    change (map fst (map_to_list slots)) with ((map_to_list slots).*1).
    apply NoDup_fst_map_to_list. }
  destruct (list_entries_valid root slots names)
    as (pairs & Hl & Hm & Hpn & Hlisted & Hpos).
  { apply Forall_forall. intros nm [x Hx]%Hin.
    destruct (Hparse nm x Hx) as (n & d & Hn & -> & Hrec).
    exists n, d. split; [done|]. split; [done|]. by exists x. }
  exists (map snd pairs), (Str.sorted_by Z.leb fst pairs).
  pose proof (sorted_by_perm Z.leb fst pairs) as Hpp.
  split.
  { unfold Slot.list_slots, Fs.exists_, Slot.slots_dir. rewrite with_slots_lookup.
    cbn [Fs.lookup_path negb]. exact Hl. }
  split.
  { unfold Slot.sorted_slots. rewrite Hm. cbn [bind]. by rewrite combine_fst_snd. }
  split.
  { rewrite List.length_map. by apply Permutation_length. }
  assert (NoDup (map fst pairs)) as Hndp.
  { change (map Slot.slot_name (map fst pairs))
      with (Slot.slot_name <$> map fst pairs) in Hpn.
    apply (NoDup_fmap_1 Slot.slot_name). by rewrite Hpn. }
  split.
  { apply strict_of_sorted.
    - apply sorted_by_sorted.
      + intros a b. rewrite !Z.leb_le. lia.
      + intros a b c. rewrite !Z.leb_le. lia.
    - change (map fst (Str.sorted_by Z.leb fst pairs))
        with (fst <$> Str.sorted_by Z.leb fst pairs).
      rewrite <- Hpp. exact Hndp. }
  split; [by rewrite <- Hpp|]. split; [by rewrite <- Hpp|].
  intros j Hj. destruct (slots !! Slot.slot_name j) as [x|] eqn:Hx; [|done].
  exfalso. apply Hj.
  assert (Slot.slot_name j ∈ names) as Hjn by (apply Hin; by exists x).
  rewrite <- Hpn in Hjn.
  change (map Slot.slot_name (map fst pairs))
    with (Slot.slot_name <$> map fst pairs) in Hjn.
  apply list_elem_of_fmap in Hjn as (n & Hjn%slot_name_inj & Hn). subst n.
  change (map fst (Str.sorted_by Z.leb fst pairs))
    with (fst <$> Str.sorted_by Z.leb fst pairs).
  by rewrite <- Hpp.
Qed.

(** Slots that are numbered [i, i+1, ...] stay where they are. *)
Lemma renumber_loop_in_place (L : list (Z * dict)) :
  forall (i : Z) (fs : node text),
    map fst L = seqZ i (Z.of_nat (length L)) ->
    Slot.renumber_loop yaml_dump yaml_safe_load i L fs = Ok fs.
Proof.
  induction L as [|[old e] L IH]; intros i fs Hnums; [done|].
  simpl length in Hnums. rewrite seqZ_cons in Hnums by lia.
  replace (Z.pred (Z.of_nat (S (length L)))) with (Z.of_nat (length L)) in Hnums by lia.
  simpl in Hnums. injection Hnums as -> Hnums.
  simpl. unfold Slot.renumber_step. rewrite Z.eqb_refl. cbn [bind].
  apply IH. by rewrite Hnums.
Qed.

End ListFacts.

(** ** Renumbering *)

Lemma strict_fst (L : list (Z * dict)) :
  StronglySorted (fun a b => (fst a < fst b)%Z) L ->
  StronglySorted Z.le (map fst L) /\ NoDup (map fst L).
Proof.
  induction 1 as [|a L Hs [IH1 IH2] Hall]; simpl; [split; constructor|].
  split.
  - constructor; [done|]. apply List.Forall_map.
    eapply Forall_impl; [exact Hall|]. simpl. intros b Hb. lia.
  - apply NoDup_cons. split; [|done].
    intros Hin. apply list_elem_of_In, in_map_iff in Hin as (b & Hb & Hin).
    apply list_elem_of_In in Hin.
    pose proof (proj1 (Forall_forall _ _) Hall _ Hin). simpl in *. lia.
Qed.

Section RenumberFacts.
Context {text : Type}.
Variable yaml_dump : yaml -> text.
Variable yaml_safe_load : text -> option yaml.
Hypothesis Hroundtrip : yaml_roundtrip yaml_dump yaml_safe_load.
Implicit Types (root slots : gmap string (node text)) (fs : node text).

Lemma renumber_slots_loop fs l L :
  Slot.list_slots yaml_safe_load fs = Ok l ->
  Slot.sorted_slots l = Ok L ->
  length l = length L ->
  Slot.renumber_slots yaml_dump yaml_safe_load fs
  = Slot.renumber_loop yaml_dump yaml_safe_load 1 L fs.
Proof.
  intros Hl HL Hlen. unfold Slot.renumber_slots. rewrite Hl. cbn [bind].
  destruct l as [|e l]; [by destruct L|]. by rewrite HL.
Qed.

(** What [renumber_slots] does to a [slots] directory whose records
    parse. *)
Lemma renumber_slots_parse root slots :
  slots_parse yaml_safe_load slots ->
  exists (l : list dict) (L : list (Z * dict)) slots',
    Slot.list_slots yaml_safe_load (with_slots root slots) = Ok l
    /\ Slot.sorted_slots l = Ok L
    /\ Slot.renumber_slots yaml_dump yaml_safe_load (with_slots root slots)
       = Ok (with_slots root slots')
    /\ slots_parse yaml_safe_load slots'
    /\ (forall j, is_Some (slots' !! Slot.slot_name j)
                  <-> (1 <= j <= Z.of_nat (length L))%Z)
    /\ (forall idx a, L !! idx = Some a ->
          exists d', slot_ok yaml_safe_load slots' (1 + Z.of_nat idx) d'
                     /\ forall k, k <> "slot" -> Py.get k d' = Py.get k (snd a)).
Proof.
  intros Hparse.
  destruct (list_slots_parse yaml_safe_load root slots Hparse)
    as (l & L & Hl & HL & Hlen & Hsorted & Hpos & Hlisted & Hfree).
  assert (named slots) as Hnamed.
  { intros nm [x Hx]. destruct (Hparse nm x Hx) as (n & d & Hn & -> & _). by exists n. }
  destruct (renumber_loop_spec yaml_dump yaml_safe_load Hroundtrip root L 1 slots)
    as (slots' & Hloop & Hnamed' & Hkeep & Hsame & Hnone); try done.
  { intros j _. apply Hfree. }
  assert (forall j, is_Some (slots' !! Slot.slot_name j)
                    <-> (1 <= j <= Z.of_nat (length L))%Z) as Hdom.
  { intros j. split.
    - intros Hj. destruct (Hnamed' _ Hj) as (j' & Hj' & ->%slot_name_inj).
      split; [done|].
      destruct (decide (j' <= Z.of_nat (length L))%Z) as [|Hgt]; [done|].
      rewrite Hnone in Hj by lia. by destruct Hj.
    - intros Hj.
      destruct (lookup_lt_is_Some_2 L (Z.to_nat (j - 1))) as [a Ha]; [lia|].
      destruct (Hkeep _ _ Ha) as (d' & (x & Hx & _) & _).
      replace (1 + Z.of_nat (Z.to_nat (j - 1)))%Z with j in Hx by lia. by exists x. }
  exists l, L, slots'. split; [done|]. split; [done|].
  split; [by rewrite (renumber_slots_loop _ l L)|].
  split; [|by split].
  intros nm x Hx.
  destruct (Hnamed' nm (ex_intro _ x Hx)) as (j & Hj & ->).
  assert (1 <= j <= Z.of_nat (length L))%Z as Hjk by (apply Hdom; by exists x).
  destruct (lookup_lt_is_Some_2 L (Z.to_nat (j - 1))) as [a Ha]; [lia|].
  destruct (Hkeep _ _ Ha) as (d' & (x' & Hx' & Hrec) & _).
  replace (1 + Z.of_nat (Z.to_nat (j - 1)))%Z with j in Hx' by lia.
  exists j, d'. split; [done|]. split; [done|]. congruence.
Qed.

(** A [slots] directory whose slots are numbered [1..k] is left as it
    is. *)
Lemma renumber_slots_compact root slots (k : nat) :
  slots_parse yaml_safe_load slots ->
  (forall j, is_Some (slots !! Slot.slot_name j) <-> (1 <= j <= Z.of_nat k)%Z) ->
  exists l L,
    Slot.list_slots yaml_safe_load (with_slots root slots) = Ok l
    /\ Slot.sorted_slots l = Ok L
    /\ map fst L = seqZ 1 (Z.of_nat k)
    /\ Slot.renumber_slots yaml_dump yaml_safe_load (with_slots root slots)
       = Ok (with_slots root slots).
Proof.
  intros Hparse Hdom.
  destruct (list_slots_parse yaml_safe_load root slots Hparse)
    as (l & L & Hl & HL & Hlen & Hsorted & Hpos & Hlisted & Hfree).
  destruct (strict_fst L Hsorted) as [Hle Hnd].
  assert (map fst L = seqZ 1 (Z.of_nat k)) as Hnums.
  { apply (StronglySorted_unique Z.le); [done|apply sorted_seqZ|].
    apply NoDup_Permutation; [done|apply NoDup_seqZ|].
    intros j. rewrite elem_of_seqZ. split.
    - intros Hin. apply list_elem_of_In, in_map_iff in Hin as (a & <- & Hin).
      apply list_elem_of_In in Hin.
      destruct (proj1 (Forall_forall _ _) Hlisted _ Hin) as (d & (x & Hx & _) & _).
      assert (1 <= fst a <= Z.of_nat k)%Z by (apply Hdom; by exists x). lia.
    - intros Hj. destruct (decide (j ∈ map fst L)) as [|Hnotin]; [done|].
      assert (is_Some (slots !! Slot.slot_name j)) as [x Hx] by (apply Hdom; lia).
      rewrite (Hfree j Hnotin) in Hx. done. }
  exists l, L. split; [done|]. split; [done|]. split; [done|].
  rewrite (renumber_slots_loop _ l L) by done.
  apply renumber_loop_in_place.
  rewrite Hnums. f_equal.
  rewrite <- (List.length_map fst L), Hnums, length_seqZ. lia.
Qed.

End RenumberFacts.

(** X23: [renumber_slots] compacts a well-formed store.  Where the
    [slots] directory holds nothing but directories [slot-<n>] ([n >= 1],
    written in plain decimal), each with a record that loads as a
    non-empty mapping without a key [slot] of its own, [k] of them, and
    what [yaml.dump] writes [yaml.safe_load] reads back: [renumber_slots]
    leaves exactly the slots [1..k]; the slot that was the i-th in the
    order of the numbers is slot [i], with every field of its record
    ([ai_provider], [container_name], [created_at], [last_used]) as
    before; and a second [renumber_slots] changes nothing. *)
Theorem renumber_slots_compacts {text : Type}
    (yaml_dump : yaml -> text) (yaml_safe_load : text -> option yaml) (fs : node text) :
  yaml_roundtrip yaml_dump yaml_safe_load ->
  all_records_parse yaml_safe_load fs ->
  exists (l : list dict) (slots : list (Z * dict)) (fs' : node text),
    Slot.list_slots yaml_safe_load fs = Ok l
    /\ Slot.sorted_slots l = Ok slots
    /\ Slot.renumber_slots yaml_dump yaml_safe_load fs = Ok fs'
    /\ (forall n, Slot.exists_ n fs' = true <-> (1 <= n <= Z.of_nat (length slots))%Z)
    /\ (forall n, is_Some (Slot.load yaml_safe_load n fs')
                  <-> (1 <= n <= Z.of_nat (length slots))%Z)
    /\ (exists l' slots',
          Slot.list_slots yaml_safe_load fs' = Ok l'
          /\ Slot.sorted_slots l' = Ok slots'
          /\ map fst slots' = seqZ 1 (Z.of_nat (length slots)))
    /\ (forall idx a, slots !! idx = Some a ->
          exists d', Slot.load yaml_safe_load (1 + Z.of_nat idx) fs' = Some (YMap d')
                     /\ forall k, k <> "slot" -> Py.get k d' = Py.get k (snd a))
    /\ Slot.renumber_slots yaml_dump yaml_safe_load fs' = Ok fs'.
Proof.
  intros Hrt (root & -> & Hslots).
  destruct (root !! "slots") as [[t|slots]|] eqn:Hr; [done| |].
  - rewrite (with_slots_id root slots Hr).
    destruct (renumber_slots_parse yaml_dump yaml_safe_load Hrt root slots Hslots)
      as (l & L & slots' & Hl & HL & Hren & Hparse' & Hdom & Hkeep).
    destruct (renumber_slots_compact yaml_dump yaml_safe_load root slots' (length L)
                Hparse' Hdom) as (l' & L' & Hl' & HL' & Hnums & Hidem).
    exists l, L, (with_slots root slots').
    assert (forall n, is_Some (Slot.load yaml_safe_load n (with_slots root slots'))
                      <-> (1 <= n <= Z.of_nat (length L))%Z) as Hload.
    { intros n. rewrite <- Hdom. split.
      - intros [y Hy]. destruct (slots' !! Slot.slot_name n) eqn:Hn; [done|].
        by rewrite (proj2 (exists_absent yaml_safe_load root slots' n Hn)) in Hy.
      - intros [x Hx]. destruct (Hparse' _ _ Hx) as (n' & d & _ & Heq%slot_name_inj & Hrec); subst n'.
        rewrite (load_holds yaml_safe_load root slots' n x d Hx Hrec). done. }
    split; [done|]. split; [done|]. split; [done|].
    split.
    { intros n. rewrite <- Hload. split.
      - intros Hex. destruct (slots' !! Slot.slot_name n) as [x|] eqn:Hn.
        + destruct (Hparse' _ _ Hn) as (n' & d & _ & Heq%slot_name_inj & Hrec); subst n'.
          rewrite (load_holds yaml_safe_load root slots' n x d Hn Hrec). done.
        + by rewrite (proj1 (exists_absent yaml_safe_load root slots' n Hn)) in Hex.
      - intros [y Hy]. by eapply load_exists. }
    split; [done|]. split; [by exists l', L'|]. split; [|done].
    intros idx a Ha. destruct (Hkeep idx a Ha) as (d' & (x & Hx & Hrec) & Hget).
    exists d'. split; [|done].
    by rewrite (load_holds yaml_safe_load root slots' _ x d' Hx Hrec).
  - assert (Slot.list_slots yaml_safe_load (Dir root) = Ok []) as Hl.
    { unfold Slot.list_slots, Fs.exists_, Slot.slots_dir. simpl. by rewrite Hr. }
    assert (forall n, Slot.exists_ n (Dir root) = false) as Hex.
    { intros n. unfold Slot.exists_, Fs.exists_, Slot.config_path, Slot.slot_dir,
        Slot.slots_dir. simpl. by rewrite Hr. }
    assert (Slot.renumber_slots yaml_dump yaml_safe_load (Dir root) = Ok (Dir root)) as Hren.
    { unfold Slot.renumber_slots. by rewrite Hl. }
    exists [], [], (Dir root). simpl.
    split; [done|]. split; [done|]. split; [done|].
    split; [intros n; rewrite Hex; split; [done|lia]|].
    split.
    { intros n. split; [|lia]. intros [y Hy]. apply load_exists in Hy. by rewrite Hex in Hy. }
    split; [by exists [], []|]. split; [|done]. by intros [|?] a.
Qed.

Lemma slot_node_holds_record (d : dict) :
  d <> [] -> NoDup (map fst d) -> Py.lookup "slot" d = None ->
  holds_record Sim.safe_load (Sim.slot_node d) d.
Proof.
  intros Hne Hnd Hslot.
  exists {[ "metadata.yml" := File (Sim.dump (YMap d)) ]}, (Sim.dump (YMap d)).
  split; [done|]. split; [apply lookup_singleton_eq|]. done.
Qed.

Lemma record_holds (p c t1 t2 : string) :
  holds_record Sim.safe_load (Sim.slot_node (Slot.record p c t1 t2)) (Slot.record p c t1 t2).
Proof.
  apply slot_node_holds_record; [done| |done].
  simpl. apply (bool_decide_unpack _). vm_compute. done.
Qed.

Lemma gapped_fs_parses : all_records_parse Sim.safe_load Sim.gapped_fs.
Proof.
  eexists. split; [reflexivity|]. rewrite lookup_singleton_eq.
  intros nm x [[<- <-]|[_ [<- <-]%lookup_singleton_Some]]%lookup_insert_Some.
  - exists 2%Z, Sim.gemini_record. split; [lia|]. split; [reflexivity|]. apply record_holds.
  - exists 5%Z, Sim.openai_record. split; [lia|]. split; [reflexivity|]. apply record_holds.
Qed.

Lemma renumber_slots_compacts_witness :
  exists fs' : node Sim.text,
    Slot.renumber_slots Sim.dump Sim.safe_load Sim.gapped_fs = Ok fs'
    /\ (forall n, Slot.exists_ n fs' = true <-> (1 <= n <= 2)%Z)
    /\ (exists d, Slot.load Sim.safe_load 2 fs' = Some (YMap d)
                  /\ Py.get "ai_provider" d = SStr "openai"
                  /\ Py.get "container_name" d = SStr "aibox-demo-5"
                  /\ Py.get "created_at" d = SStr "2024-06-05T08:00:00+00:00"
                  /\ Py.get "last_used" d = SStr "2024-06-06T09:30:00+00:00")
    /\ Slot.renumber_slots Sim.dump Sim.safe_load fs' = Ok fs'.
Proof.
  destruct (renumber_slots_compacts Sim.dump Sim.safe_load Sim.gapped_fs
              (fun y => eq_refl) gapped_fs_parses)
    as (l & slots & fs' & Hl & HL & Hren & Hex & _ & _ & Hkeep & Hidem).
  eassert (Slot.list_slots Sim.safe_load Sim.gapped_fs = Ok _) as Hl0
    by (vm_compute; reflexivity).
  rewrite Hl0 in Hl. injection Hl as <-.
  match type of HL with
  | ?t = _ => eassert (t = Ok _) as HL0 by (vm_compute; reflexivity)
  end.
  rewrite HL0 in HL. injection HL as <-.
  exists fs'. split; [done|]. split; [exact Hex|]. split; [|done].
  destruct (Hkeep 1%nat _ eq_refl) as (d & Hd & Hget).
  exists d. split; [exact Hd|].
  rewrite !Hget by done. repeat split; vm_compute; reflexivity.
Defined.

(** C2 fails on the code.  [renumber_slots] is to compact the numbering
    and to rename the slot directories.  With slot 2 and a directory
    [slot-1] that has no record (as [prepare_volumes] leaves one when a
    start fails before the record is written), the one record of the store
    parses and slot 2 is listed; [shutil.move] then moves the directory of
    slot 2 into the directory [slot-1] instead of renaming it, and no slot
    exists afterwards: the record lies at [slot-1/slot-2/metadata.yml]. *)
Lemma renumber_slots_nests_into_directory :
  Slot.list_slots Sim.safe_load Sim.orphan_fs = Ok [entry 2 Sim.gemini_record]
  /\ Slot.exists_ 2 Sim.orphan_fs = true
  /\ exists fs' : node Sim.text,
       Slot.renumber_slots Sim.dump Sim.safe_load Sim.orphan_fs = Ok fs'
       /\ Slot.exists_ 1 fs' = false
       /\ Slot.exists_ 2 fs' = false
       /\ Slot.list_slots Sim.safe_load fs' = Ok []
       /\ Fs.is_file ["slots"; "slot-1"; "slot-2"; "metadata.yml"] fs' = true.
Proof.
  split; [vm_compute; reflexivity|]. split; [vm_compute; reflexivity|].
  eexists. split; [vm_compute; reflexivity|]. vm_compute. done.
Qed.

(** ** Frame properties of the file operations *)

Section FsFrame.
Context {text : Type}.
Implicit Types (fs : node text) (p q : path).

Lemma lookup_path_empty_dir q : q <> [] -> Fs.lookup_path q (Dir (∅ : gmap string (node text))) = None.
Proof. destruct q as [|c q]; [done|]. intros _. simpl. by rewrite lookup_empty. Qed.

Lemma lookup_path_file q t : q <> [] -> Fs.lookup_path q (File t : node text) = None.
Proof. by destruct q. Qed.

Lemma write_text_cons c c2 p t (es : gmap string (node text)) :
  Fs.write_text (c :: c2 :: p) t (Dir es)
  = match es !! c with
    | Some child => child' <- Fs.write_text (c2 :: p) t child ;; Ok (Dir (<[c := child']> es))
    | None => Raise OSError
    end.
Proof. reflexivity. Qed.

Lemma detach_cons c c2 p (es : gmap string (node text)) :
  Fs.detach (c :: c2 :: p) (Dir es)
  = (child ← es !! c; child' ← Fs.detach (c2 :: p) child; Some (Dir (<[c := child']> es))).
Proof. reflexivity. Qed.

(** [mkdir(parents=True)] changes nothing outside the ancestors of the
    directory it makes. *)
Lemma mkdir_p_frame p : forall fs fs' q,
  Fs.mkdir_p p fs = Ok fs' -> ~ q `prefix_of` p ->
  Fs.lookup_path q fs' = Fs.lookup_path q fs.
Proof.
  induction p as [|c p IH]; intros fs fs' q Hmk Hq.
  - destruct fs; simpl in Hmk; [done|]. by injection Hmk as <-.
  - destruct fs as [t|es]; simpl in Hmk; [done|].
    destruct (Fs.mkdir_p p (default (Dir ∅) (es !! c))) as [child|e] eqn:Hc; [|done].
    simpl in Hmk. injection Hmk as <-.
    destruct q as [|c' q]; [exfalso; apply Hq, prefix_nil|].
    simpl. destruct (decide (c' = c)) as [->|Hne].
    + rewrite lookup_insert_eq. simpl.
      assert (~ q `prefix_of` p) as Hq'.
      { intros Hpre. apply Hq. by apply prefix_cons. }
      rewrite (IH _ _ q Hc Hq').
      destruct (es !! c) as [x|]; simpl; [done|].
      apply lookup_path_empty_dir. intros ->. apply Hq', prefix_nil.
    + by rewrite lookup_insert_ne.
Qed.

(** The ancestors of a directory made by [mkdir(parents=True)] are
    directories afterwards, and were directories or missing before. *)
Lemma mkdir_p_ancestors p : forall fs fs' q,
  Fs.mkdir_p p fs = Ok fs' -> q `prefix_of` p ->
  Fs.is_dir q fs' = true /\ (Fs.lookup_path q fs = None \/ Fs.is_dir q fs = true).
Proof.
  induction p as [|c p IH]; intros fs fs' q Hmk Hq.
  - apply prefix_nil_inv in Hq as ->.
    destruct fs; simpl in Hmk; [done|]. injection Hmk as <-. by split; [|right].
  - destruct fs as [t|es]; simpl in Hmk; [done|].
    destruct (Fs.mkdir_p p (default (Dir ∅) (es !! c))) as [child|e] eqn:Hc; [|done].
    simpl in Hmk. injection Hmk as <-.
    destruct q as [|c' q]; [by split; [|right]|].
    apply prefix_cons_inv_1 in Hq as Hcc. subst c'.
    apply prefix_cons_inv_2 in Hq.
    destruct (IH _ _ q Hc Hq) as [Hd Hbefore].
    unfold Fs.is_dir in *. simpl. rewrite lookup_insert_eq. simpl.
    split; [done|].
    destruct (es !! c) as [x|]; simpl in *; [done|by left].
Qed.

(** [write_text] changes nothing but the file and the entries of its
    ancestors. *)
Lemma write_text_frame p t : forall fs fs' q,
  Fs.write_text p t fs = Ok fs' -> ~ q `prefix_of` p ->
  Fs.lookup_path q fs' = Fs.lookup_path q fs.
Proof.
  induction p as [|c p IH]; intros fs fs' q Hw Hq.
  - by destruct fs.
  - destruct q as [|c' q]; [exfalso; apply Hq, prefix_nil|].
    destruct fs as [t0|es]; [by destruct p|].
    destruct p as [|c2 p].
    + simpl in Hw.
      assert (Dir (<[c := File t]> es) = fs') as <-.
      { destruct (es !! c) as [[?|?]|]; by simplify_eq. }
      simpl. destruct (decide (c' = c)) as [->|Hne].
      * rewrite lookup_insert_eq. simpl.
        assert (q <> []) as Hne.
        { intros ->. by apply Hq. }
        rewrite (lookup_path_file q t Hne).
        destruct (es !! c) as [[t1|es1]|] eqn:Hc; simpl in *; try done.
        by rewrite lookup_path_file.
      * by rewrite lookup_insert_ne.
    + rewrite write_text_cons in Hw.
      destruct (es !! c) as [child|] eqn:Hc; [|done].
      destruct (Fs.write_text (c2 :: p) t child) as [child'|e] eqn:Hc'; [|by simpl in Hw].
      simpl in Hw. injection Hw as <-.
      cbn [Fs.lookup_path]. destruct (decide (c' = c)) as [->|Hne].
      * rewrite lookup_insert_eq, Hc. simpl.
        apply (IH _ _ q Hc'). intros Hpre. apply Hq. by apply prefix_cons.
      * by rewrite lookup_insert_ne.
Qed.

Lemma write_text_root p t fs fs' :
  Fs.write_text p t fs = Ok fs' -> exists es es', fs = Dir es /\ fs' = Dir es'.
Proof.
  destruct fs as [t0|es]; [by destruct p|].
  destruct p as [|c [|c2 p]]; [done| |].
  - simpl. destruct (es !! c) as [[?|?]|]; intros; simplify_eq; eauto.
  - rewrite write_text_cons. destruct (es !! c) as [child|]; [|done].
    destruct (Fs.write_text (c2 :: p) t child); simpl; intros; simplify_eq; eauto.
Qed.

Lemma detach_root p fs fs' :
  Fs.detach p fs = Some fs' -> exists es es', fs = Dir es /\ fs' = Dir es'.
Proof.
  destruct fs as [t0|es]; [by destruct p|].
  destruct p as [|c [|c2 p]]; [done| |].
  - simpl. destruct (es !! c); intros; simplify_eq; eauto.
  - rewrite detach_cons. destruct (es !! c) as [child|]; [|done]. cbn [mbind option_bind].
    destruct (Fs.detach (c2 :: p) child); cbn [mbind option_bind]; intros; simplify_eq; eauto.
Qed.

(** The ancestors of a written file are the directories they were. *)
Lemma write_text_ancestors p t : forall fs fs' q,
  Fs.write_text p t fs = Ok fs' -> q `prefix_of` p -> q <> p ->
  Fs.is_dir q fs' = true /\ Fs.is_dir q fs = true.
Proof.
  induction p as [|c p IH]; intros fs fs' q Hw Hq Hne.
  - by destruct fs.
  - destruct fs as [t0|es]; [by destruct p|].
    destruct q as [|c' q].
    { by destruct (write_text_root _ _ _ _ Hw) as (? & ? & [= <-] & ->). }
    apply prefix_cons_inv_1 in Hq as Hcc. subst c'.
    apply prefix_cons_inv_2 in Hq.
    destruct p as [|c2 p].
    + apply prefix_nil_inv in Hq as ->. done.
    + rewrite write_text_cons in Hw.
      destruct (es !! c) as [child|] eqn:Hc; [|done].
      destruct (Fs.write_text (c2 :: p) t child) as [child'|e] eqn:Hc'; [|by simpl in Hw].
      simpl in Hw. injection Hw as <-.
      assert (q <> c2 :: p) as Hne' by congruence.
      destruct (IH _ _ q Hc' Hq Hne') as [H1 H2].
      unfold Fs.is_dir in *. cbn [Fs.lookup_path].
      rewrite lookup_insert_eq, Hc. simpl. done.
Qed.

(** Removing a tree changes nothing outside it and its ancestors, and
    nothing is left below it. *)
Lemma detach_frame p : forall fs fs' q,
  Fs.detach p fs = Some fs' -> ~ q `prefix_of` p ->
  Fs.lookup_path q fs' = if bool_decide (p `prefix_of` q) then None else Fs.lookup_path q fs.
Proof.
  induction p as [|c p IH]; intros fs fs' q Hd Hq.
  - by destruct fs.
  - destruct q as [|c' q]; [exfalso; apply Hq, prefix_nil|].
    destruct fs as [t0|es]; [by destruct p|].
    destruct p as [|c2 p].
    + simpl in Hd. destruct (es !! c) as [x|] eqn:Hc; [|done]. injection Hd as <-.
      simpl. destruct (decide (c' = c)) as [->|Hne].
      * rewrite lookup_delete_eq. simpl.
        rewrite bool_decide_eq_true_2; [done|]. apply prefix_cons, prefix_nil.
      * rewrite lookup_delete_ne by done.
        rewrite bool_decide_eq_false_2; [done|].
        intros Hpre. by apply prefix_cons_inv_1 in Hpre.
    + rewrite detach_cons in Hd.
      destruct (es !! c) as [child|] eqn:Hc; [|done]. cbn [mbind option_bind] in Hd.
      destruct (Fs.detach (c2 :: p) child) as [child'|] eqn:Hc'; [|done].
      cbn [mbind option_bind] in Hd. injection Hd as <-.
      cbn [Fs.lookup_path]. destruct (decide (c' = c)) as [->|Hne].
      * rewrite lookup_insert_eq, Hc. simpl.
        assert (~ q `prefix_of` c2 :: p) as Hq'.
        { intros Hpre. apply Hq. by apply prefix_cons. }
        rewrite (IH _ _ q Hc' Hq').
        rewrite (bool_decide_ext (c2 :: p `prefix_of` q) (c :: c2 :: p `prefix_of` c :: q));
          [done|]. split; [apply prefix_cons|apply prefix_cons_inv_2].
      * rewrite lookup_insert_ne by done.
        rewrite bool_decide_eq_false_2; [done|].
        intros Hpre. by apply prefix_cons_inv_1 in Hpre.
Qed.

Lemma detach_exists p : forall fs,
  p <> [] -> Fs.exists_ p fs = true -> is_Some (Fs.detach p fs).
Proof.
  induction p as [|c p IH]; intros fs Hne Hex; [done|].
  unfold Fs.exists_ in Hex.
  destruct fs as [t0|es]; [done|]. cbn [Fs.lookup_path] in Hex.
  destruct (es !! c) as [child|] eqn:Hc; [|done]. simpl in Hex.
  destruct p as [|c2 p].
  - simpl. rewrite Hc. done.
  - rewrite detach_cons, Hc. cbn [mbind option_bind].
    destruct (IH child) as [child' Hd]; [done| |].
    { unfold Fs.exists_. by destruct (Fs.lookup_path (c2 :: p) child). }
    rewrite Hd. done.
Qed.

(** The ancestors of a removed tree stay directories. *)
Lemma detach_ancestors p : forall fs fs' q,
  Fs.detach p fs = Some fs' -> q `prefix_of` p -> q <> p ->
  Fs.is_dir q fs' = true.
Proof.
  induction p as [|c p IH]; intros fs fs' q Hd Hq Hne.
  - by destruct fs.
  - destruct fs as [t0|es]; [by destruct p|].
    destruct q as [|c' q].
    { by destruct (detach_root _ _ _ Hd) as (? & ? & _ & ->). }
    apply prefix_cons_inv_1 in Hq as Hcc. subst c'.
    apply prefix_cons_inv_2 in Hq.
    destruct p as [|c2 p].
    + apply prefix_nil_inv in Hq as ->. done.
    + rewrite detach_cons in Hd.
      destruct (es !! c) as [child|] eqn:Hc; [|done]. cbn [mbind option_bind] in Hd.
      destruct (Fs.detach (c2 :: p) child) as [child'|] eqn:Hc'; [|done].
      cbn [mbind option_bind] in Hd. injection Hd as <-.
      assert (q <> c2 :: p) as Hne' by congruence.
      pose proof (IH _ _ q Hc' Hq Hne') as H1.
      unfold Fs.is_dir in *. cbn [Fs.lookup_path].
      rewrite lookup_insert_eq. simpl. done.
Qed.

End FsFrame.

(** ** Slots: what [save], [delete] and [update_last_used] leave alone *)

Lemma slot_dir_prefix_config (n : Z) : Slot.slot_dir n `prefix_of` Slot.config_path n.
Proof. by exists ["metadata.yml"]. Qed.

Lemma slot_paths_apart (m n : Z) (q : path) :
  m <> n -> ~ (Slot.slot_dir m ++ q) `prefix_of` Slot.config_path n.
Proof.
  intros Hne Hpre. unfold Slot.slot_dir, Slot.config_path, Slot.slot_dir, Slot.slots_dir in Hpre.
  simpl in Hpre. apply prefix_cons_inv_2, prefix_cons_inv_1 in Hpre.
  by apply Hne, slot_name_inj.
Qed.

Lemma slot_paths_apart_dir (m n : Z) (q : path) :
  m <> n -> ~ Slot.slot_dir n `prefix_of` (Slot.slot_dir m ++ q).
Proof.
  intros Hne Hpre. unfold Slot.slot_dir, Slot.slots_dir in Hpre.
  simpl in Hpre. apply prefix_cons_inv_2, prefix_cons_inv_1 in Hpre.
  by apply Hne, eq_sym, slot_name_inj.
Qed.

Lemma not_prefix_trans (q p p' : path) : p `prefix_of` p' -> ~ q `prefix_of` p' -> ~ q `prefix_of` p.
Proof. intros Hp Hq Hqp. apply Hq. by etrans. Qed.

Section SlotFrame.
Context {text : Type}.
Variable yaml_dump : yaml -> text.
Variable yaml_safe_load : text -> option yaml.
Implicit Types (fs : node text) (q : path).

(** [exists] and [load] read nothing but the metadata path. *)
Lemma load_ext n fs fs' :
  Fs.lookup_path (Slot.config_path n) fs' = Fs.lookup_path (Slot.config_path n) fs ->
  Slot.exists_ n fs' = Slot.exists_ n fs
  /\ Slot.load yaml_safe_load n fs' = Slot.load yaml_safe_load n fs.
Proof.
  intros H. unfold Slot.load, Slot.exists_, Fs.exists_, Fs.read_text. by rewrite H.
Qed.

Lemma write_text_file_ok p : forall fs t0 t,
  p <> [] -> Fs.lookup_path p fs = Some (File t0) -> exists fs', Fs.write_text p t fs = Ok fs'.
Proof.
  induction p as [|c p IH]; intros fs t0 t Hne Hl; [done|].
  destruct fs as [t1|es]; [done|]. cbn [Fs.lookup_path] in Hl.
  destruct (es !! c) as [child|] eqn:Hc; [|done]. simpl in Hl.
  destruct p as [|c2 p].
  - simpl in Hl. injection Hl as ->. simpl. rewrite Hc. eauto.
  - rewrite write_text_cons, Hc.
    destruct (IH child t0 t) as [child' ->]; [done|done|]. simpl. eauto.
Qed.

(** What [save] changes lies on the way to the metadata file of the slot. *)
Lemma save_frame n p c t1 t2 fs fs' q :
  Slot.save yaml_dump n p c t1 t2 fs = Ok fs' ->
  ~ q `prefix_of` Slot.config_path n ->
  Fs.lookup_path q fs' = Fs.lookup_path q fs.
Proof.
  intros Hsave Hq. unfold Slot.save, bind in Hsave.
  destruct (Fs.mkdir_p (Slot.slot_dir n) fs) as [fs1|e] eqn:Hmk; [|done].
  rewrite (write_text_frame _ _ _ _ _ Hsave Hq).
  apply (mkdir_p_frame _ _ _ _ Hmk).
  by apply (not_prefix_trans _ _ _ (slot_dir_prefix_config n)).
Qed.

Lemma save_exists n p c t1 t2 fs fs' :
  Slot.save yaml_dump n p c t1 t2 fs = Ok fs' -> Slot.exists_ n fs' = true.
Proof.
  intros Hsave. unfold Slot.save, bind in Hsave.
  destruct (Fs.mkdir_p (Slot.slot_dir n) fs) as [fs1|e]; [|done].
  apply write_text_lookup in Hsave. apply exists_lookup. by rewrite Hsave.
Qed.

End SlotFrame.

(** X1: [SlotConfig.save] changes nothing but the metadata file of its
    slot and the directories leading to it: every other path holds what it
    held, so the provider files of the slot stay, and every other slot
    exists and loads as before. *)
Theorem save_touches_only_metadata {text : Type}
    (yaml_dump : yaml -> text) (yaml_safe_load : text -> option yaml)
    (n : Z) (p c t1 t2 : string) (fs fs' : node text) :
  Slot.save yaml_dump n p c t1 t2 fs = Ok fs' ->
  (forall q, ~ q `prefix_of` Slot.config_path n ->
             Fs.lookup_path q fs' = Fs.lookup_path q fs)
  /\ (forall name q, name <> "metadata.yml" ->
        Fs.lookup_path (Slot.slot_dir n ++ name :: q) fs'
        = Fs.lookup_path (Slot.slot_dir n ++ name :: q) fs)
  /\ (forall m, m <> n ->
        Slot.exists_ m fs' = Slot.exists_ m fs
        /\ Slot.load yaml_safe_load m fs' = Slot.load yaml_safe_load m fs).
Proof.
  intros Hsave. split; [|split].
  - intros q Hq. by eapply save_frame.
  - intros name q Hname. eapply save_frame; [done|].
    unfold Slot.config_path. intros Hpre.
    apply prefix_app_inv, prefix_cons_inv_1 in Hpre. done.
  - intros m Hm. apply load_ext. eapply save_frame; [done|].
    pose proof (slot_paths_apart m n ["metadata.yml"] Hm) as H. exact H.
Qed.

Lemma save_touches_only_metadata_witness :
  exists fs' : node Sim.text,
    Slot.save Sim.dump 1 "claude" "aibox-demo-1" "t0" "t1" Sim.gapped_fs = Ok fs'
    /\ Slot.load Sim.safe_load 2 fs' = Slot.load Sim.safe_load 2 Sim.gapped_fs
    /\ Slot.load Sim.safe_load 5 fs' = Slot.load Sim.safe_load 5 Sim.gapped_fs.
Proof.
  assert (exists fs', Slot.save Sim.dump 1 "claude" "aibox-demo-1" "t0" "t1" Sim.gapped_fs
                      = Ok fs') as [fs' H] by (vm_compute; eauto).
  exists fs'. split; [exact H|].
  destruct (save_touches_only_metadata Sim.dump Sim.safe_load 1 "claude" "aibox-demo-1"
              "t0" "t1" Sim.gapped_fs fs' H) as (_ & _ & Hm).
  split; [apply (Hm 2%Z); lia|apply (Hm 5%Z); lia].
Defined.

Section SlotDelete.
Context {text : Type}.
Variable yaml_safe_load : text -> option yaml.
Implicit Types (fs : node text) (q : path).

Lemma delete_lookup n fs q :
  ~ q `prefix_of` Slot.slot_dir n ->
  Fs.lookup_path q (Slot.delete n fs)
  = if bool_decide (Slot.slot_dir n `prefix_of` q) then None else Fs.lookup_path q fs.
Proof.
  intros Hq. unfold Slot.delete, Fs.rmtree.
  destruct (Fs.exists_ (Slot.slot_dir n) fs) eqn:Hex.
  - destruct (detach_exists (Slot.slot_dir n) fs) as [fs' Hd]; [done|done|].
    rewrite Hd. simpl. by apply detach_frame.
  - case_bool_decide as Hpre; [|done].
    destruct Hpre as [r ->]. rewrite lookup_path_app.
    unfold Fs.exists_ in Hex. by destruct (Fs.lookup_path (Slot.slot_dir n) fs).
Qed.

End SlotDelete.

(** X2: after [SlotConfig.delete] nothing is left of the slot directory,
    so the slot neither exists nor loads; every path outside that
    directory holds what it held, and every other slot exists and loads as
    before.  ([shutil.rmtree] raises on a path that is a file: the slot
    directory is taken not to be one.) *)
Theorem delete_removes_only_the_slot {text : Type}
    (yaml_safe_load : text -> option yaml) (n : Z) (fs : node text) :
  Fs.is_file (Slot.slot_dir n) fs = false ->
  (forall q, Fs.lookup_path (Slot.slot_dir n ++ q) (Slot.delete n fs) = None)
  /\ Slot.exists_ n (Slot.delete n fs) = false
  /\ Slot.load yaml_safe_load n (Slot.delete n fs) = None
  /\ (forall q, ~ q `prefix_of` Slot.slot_dir n -> ~ Slot.slot_dir n `prefix_of` q ->
        Fs.lookup_path q (Slot.delete n fs) = Fs.lookup_path q fs)
  /\ (forall m, m <> n ->
        Slot.exists_ m (Slot.delete n fs) = Slot.exists_ m fs
        /\ Slot.load yaml_safe_load m (Slot.delete n fs) = Slot.load yaml_safe_load m fs).
Proof.
  intros _.
  assert (forall q, Fs.lookup_path (Slot.slot_dir n ++ q) (Slot.delete n fs) = None) as Hgone.
  { intros q. destruct q as [|c q].
    - rewrite app_nil_r. unfold Slot.delete, Fs.rmtree.
      destruct (Fs.exists_ (Slot.slot_dir n) fs) eqn:Hex.
      + destruct (detach_exists (Slot.slot_dir n) fs) as [fs' Hd]; [done|done|].
        rewrite Hd. simpl. unfold Slot.slot_dir, Slot.slots_dir in *. simpl in *.
        destruct fs as [|es]; [done|]. simpl in Hd.
        destruct (es !! "slots") as [[|es1]|]; simpl in Hd; try done.
        destruct (es1 !! Slot.slot_name n); simpl in Hd; [|done].
        injection Hd as <-. simpl. rewrite lookup_insert_eq. simpl.
        by rewrite lookup_delete_eq.
      + unfold Fs.exists_ in Hex. by destruct (Fs.lookup_path (Slot.slot_dir n) fs).
    - rewrite delete_lookup.
      + rewrite bool_decide_eq_true_2; [done|]. by exists (c :: q).
      + intros [r Hr]. apply (f_equal length) in Hr.
        rewrite !length_app in Hr. simpl in Hr. lia. }
  split; [done|].
  assert (Fs.lookup_path (Slot.config_path n) (Slot.delete n fs) = None) as Hcfg
    by apply Hgone.
  split; [unfold Slot.exists_, Fs.exists_; by rewrite Hcfg|].
  split; [unfold Slot.load, Fs.exists_; by rewrite Hcfg|].
  split.
  - intros q Hq1 Hq2. rewrite delete_lookup by done.
    by rewrite bool_decide_eq_false_2.
  - intros m Hm. apply load_ext. unfold Slot.config_path.
    rewrite delete_lookup.
    + rewrite bool_decide_eq_false_2; [done|]. by apply slot_paths_apart_dir.
    + apply (not_prefix_trans _ _ _ (slot_dir_prefix_config n)).
      by apply (slot_paths_apart m n ["metadata.yml"]).
Qed.

Lemma delete_removes_only_the_slot_witness :
  Slot.exists_ 2 (Slot.delete 2 Sim.gapped_fs) = false
  /\ Slot.load Sim.safe_load 5 (Slot.delete 2 Sim.gapped_fs)
     = Slot.load Sim.safe_load 5 Sim.gapped_fs.
Proof.
  destruct (delete_removes_only_the_slot Sim.safe_load 2 Sim.gapped_fs)
    as (_ & Hex & _ & _ & Hm); [vm_compute; reflexivity|].
  split; [exact Hex|apply (Hm 5%Z); lia].
Defined.

(** X3: [SlotConfig.update_last_used] on a slot whose record is a mapping
    writes the record back with [last_used] set to the new reading of the
    clock, every other field and the order of the keys as they were, and
    changes no other path; on a slot without a record it does nothing. *)
Theorem update_last_used_only_stamps {text : Type}
    (yaml_dump : yaml -> text) (yaml_safe_load : text -> option yaml)
    (n : Z) (now : string) (fs : node text) :
  yaml_roundtrip yaml_dump yaml_safe_load ->
  match Slot.load yaml_safe_load n fs with
  | Some (YMap d) =>
      exists fs',
        Slot.update_last_used yaml_dump yaml_safe_load n now fs = Ok fs'
        /\ Slot.load yaml_safe_load n fs'
           = Some (YMap (Py.set "last_used" (SStr now) d))
        /\ Py.get "last_used" (Py.set "last_used" (SStr now) d) = SStr now
        /\ (forall k, k <> "last_used" ->
              Py.get k (Py.set "last_used" (SStr now) d) = Py.get k d)
        /\ (forall q, ~ q `prefix_of` Slot.config_path n ->
              Fs.lookup_path q fs' = Fs.lookup_path q fs)
  | Some _ => Slot.update_last_used yaml_dump yaml_safe_load n now fs = Raise TypeError
  | None => Slot.update_last_used yaml_dump yaml_safe_load n now fs = Ok fs
  end.
Proof.
  intros Hrt. unfold Slot.update_last_used.
  destruct (Slot.load yaml_safe_load n fs) as [[v|l|d]|] eqn:Hload; try done.
  assert (exists t0, Fs.lookup_path (Slot.config_path n) fs = Some (File t0)) as [t0 Ht0].
  { unfold Slot.load, Fs.exists_, Fs.read_text in Hload.
    destruct (Fs.lookup_path (Slot.config_path n) fs) as [[t0|es]|]; try done. by exists t0. }
  destruct (write_text_file_ok (Slot.config_path n) fs t0
              (yaml_dump (YMap (Py.set "last_used" (SStr now) d)))) as [fs' Hw];
    [done|done|].
  exists fs'. split; [done|]. split.
  - rewrite (load_written yaml_safe_load n _ fs' (write_text_lookup _ _ _ _ Hw)), Hrt.
    simpl. by destruct (Py.set "last_used" (SStr now) d) eqn:Hs; [apply set_nonempty in Hs|].
  - split; [apply get_set_eq|]. split.
    + intros k Hk. by apply get_set_ne.
    + intros q Hq. by apply (write_text_frame _ _ _ _ _ Hw).
Qed.

Lemma update_last_used_only_stamps_witness :
  exists fs' : node Sim.text,
    Slot.update_last_used Sim.dump Sim.safe_load 2 "2025-01-01T00:00:00+00:00" Sim.gapped_fs
    = Ok fs'
    /\ Slot.load Sim.safe_load 2 fs'
       = Some (YMap (Py.set "last_used" (SStr "2025-01-01T00:00:00+00:00") Sim.gemini_record)).
Proof.
  pose proof (update_last_used_only_stamps Sim.dump Sim.safe_load 2
                "2025-01-01T00:00:00+00:00" Sim.gapped_fs (fun y => eq_refl)) as H.
  assert (Slot.load Sim.safe_load 2 Sim.gapped_fs = Some (YMap Sim.gemini_record)) as Hl
    by (vm_compute; reflexivity).
  rewrite Hl in H. destruct H as (fs' & H1 & H2 & _). by exists fs'.
Defined.

(** X4: a slot that was allocated and saved is not allocated again: after
    [find_available_slot] returned [j] and [save] wrote the record of slot
    [j], [find_available_slot] returns a number above [j], or raises
    [NoAvailableSlotsError] with all of [1..max_slots] taken. *)
Theorem allocation_after_save_moves_on {text : Type}
    (yaml_dump : yaml -> text) (max_slots j : Z) (p c t1 t2 : string) (fs fs' : node text) :
  Slot.find_available_slot max_slots 1 fs = Ok j ->
  Slot.save yaml_dump j p c t1 t2 fs = Ok fs' ->
  match Slot.find_available_slot max_slots 1 fs' with
  | Ok j' => (j < j' <= max_slots)%Z /\ Slot.exists_ j' fs' = false
  | Raise e =>
      e = NoAvailableSlotsError
      /\ forall k, (1 <= k <= max_slots)%Z -> Slot.exists_ k fs' = true
  end.
Proof.
  intros Hfind Hsave. unfold Slot.find_available_slot in *.
  pose proof (find_from_spec (Z.to_nat (max_slots + 1 - 1)) 1 fs) as H.
  rewrite Hfind in H. destruct H as (Hj & Hfree & Hocc).
  assert (forall k, k <> j -> Slot.exists_ k fs' = Slot.exists_ k fs) as Hsame.
  { intros k Hk. apply (load_ext (fun _ => None)). eapply save_frame; [done|].
    exact (slot_paths_apart k j ["metadata.yml"] Hk). }
  pose proof (save_exists _ _ _ _ _ _ _ _ Hsave) as Hjex.
  pose proof (find_from_spec (Z.to_nat (max_slots + 1 - 1)) 1 fs') as H'.
  destruct (Slot.find_from _ 1 fs') as [j'|e].
  - destruct H' as (Hj' & Hfree' & Hocc'). split; [|done].
    destruct (decide (j' = j)) as [->|Hne]; [congruence|].
    destruct (decide (j' < j)%Z) as [Hlt|]; [|lia].
    rewrite (Hsame j' Hne), (Hocc j') in Hfree' by lia. done.
  - destruct H' as (-> & Hocc'). split; [done|]. intros k Hk. apply Hocc'. lia.
Qed.

Lemma allocation_after_save_moves_on_witness :
  exists fs' : node Sim.text,
    Slot.save Sim.dump 1 "claude" "aibox-demo-1" "t0" "t1" Sim.gapped_fs = Ok fs'
    /\ match Slot.find_available_slot 10 1 fs' with
       | Ok j' => (1 < j' <= 10)%Z /\ Slot.exists_ j' fs' = false
       | Raise e =>
           e = NoAvailableSlotsError
           /\ forall k, (1 <= k <= 10)%Z -> Slot.exists_ k fs' = true
       end.
Proof.
  assert (exists fs', Slot.save Sim.dump 1 "claude" "aibox-demo-1" "t0" "t1" Sim.gapped_fs
                      = Ok fs') as [fs' H] by (vm_compute; eauto).
  exists fs'. split; [exact H|].
  apply (allocation_after_save_moves_on Sim.dump 10 1 "claude" "aibox-demo-1" "t0" "t1"
           Sim.gapped_fs fs'); [vm_compute; reflexivity|exact H].
Defined.

(** ** Listing and the next slot number *)

Section Listing.
Context {text : Type}.
Variable yaml_safe_load : text -> option yaml.
Implicit Types (fs : node text).

Lemma list_entry_sound nm fs :
  match Slot.list_entry yaml_safe_load nm fs with
  | Ok (Some e) => exists n d, e = entry n d /\ Slot.load yaml_safe_load n fs = Some (YMap d)
  | Ok None => True
  | Raise e =>
      e = TypeError
      /\ exists n y, Slot.load yaml_safe_load n fs = Some y /\ forall d, y <> YMap d
  end.
Proof.
  unfold Slot.list_entry.
  destruct (negb (Fs.is_dir (Slot.slots_dir ++ [nm]) fs)); [done|].
  destruct (nth_error (PyStr.split "-" nm) 1) as [field|]; [|done].
  destruct (Py.int field) as [n|]; [|done].
  destruct (Slot.load yaml_safe_load n fs) as [[v|l|d]|] eqn:Hl; [| | |done].
  - split; [done|]. by exists n, (YScalar v).
  - split; [done|]. by exists n, (YSeq l).
  - by exists n, d.
Qed.

Lemma list_entries_sound names fs :
  match Slot.list_entries yaml_safe_load names fs with
  | Ok l =>
      Forall (fun e => exists n d,
                e = entry n d /\ Slot.load yaml_safe_load n fs = Some (YMap d)) l
      /\ forall nm e, nm ∈ names ->
           Slot.list_entry yaml_safe_load nm fs = Ok (Some e) -> e ∈ l
  | Raise e =>
      e = TypeError
      /\ exists n y, Slot.load yaml_safe_load n fs = Some y /\ forall d, y <> YMap d
  end.
Proof.
  induction names as [|nm names IH]; simpl.
  - split; [constructor|]. intros nm e Hin. by apply elem_of_nil in Hin.
  - pose proof (list_entry_sound nm fs) as Hnm.
    destruct (Slot.list_entry yaml_safe_load nm fs) as [o|e] eqn:He; [|done]. simpl.
    destruct (Slot.list_entries yaml_safe_load names fs) as [l|e]; [|done]. simpl.
    destruct IH as [IH1 IH2]. split.
    + destruct o; [by constructor|done].
    + intros nm' e' [->|Hin]%elem_of_cons Hnm'.
      * rewrite He in Hnm'. injection Hnm' as ->. apply elem_of_cons. by left.
      * destruct o; [apply elem_of_cons; right|]; by eapply IH2.
Qed.

(** The directory of a slot that loads is an entry of [slots] with the
    name of the slot. *)
Lemma load_slot_dir n fs y :
  Slot.load yaml_safe_load n fs = Some y ->
  exists root es x,
    fs = Dir root /\ root !! "slots" = Some (Dir es) /\ es !! Slot.slot_name n = Some (Dir x).
Proof.
  intros Hl. apply load_exists in Hl.
  unfold Slot.exists_, Fs.exists_, Slot.config_path, Slot.slot_dir, Slot.slots_dir in Hl.
  simpl in Hl. destruct fs as [|root]; [done|].
  destruct (root !! "slots") as [[|es]|] eqn:Hs; try done. simpl in Hl.
  destruct (es !! Slot.slot_name n) as [[|x]|] eqn:Hn; try done.
  by exists root, es, x.
Qed.

Lemma list_entry_loaded n d fs :
  (1 <= n)%Z -> Slot.load yaml_safe_load n fs = Some (YMap d) ->
  Slot.list_entry yaml_safe_load (Slot.slot_name n) fs = Ok (Some (entry n d)).
Proof.
  intros Hn Hl. destruct (load_slot_dir n fs _ Hl) as (root & es & x & -> & Hs & Hx).
  unfold Slot.list_entry.
  assert (Fs.is_dir (Slot.slots_dir ++ [Slot.slot_name n]) (Dir root) = true) as ->.
  { unfold Fs.is_dir, Slot.slots_dir. cbn [app Fs.lookup_path]. rewrite Hs.
    cbn [mbind option_bind]. by rewrite Hx. }
  cbn [negb]. rewrite (split_slot_name n Hn). cbn [nth_error].
  by rewrite (int_pretty n Hn), Hl.
Qed.

Lemma sorted_glob_slot n fs y :
  Slot.load yaml_safe_load n fs = Some y ->
  Slot.slot_name n ∈ Fs.sorted_glob Slot.slots_dir "slot-" fs.
Proof.
  intros Hl. destruct (load_slot_dir n fs _ Hl) as (root & es & x & -> & Hs & Hx).
  unfold Fs.sorted_glob, Slot.slots_dir. cbn [Fs.lookup_path]. rewrite Hs.
  cbn [mbind option_bind]. unfold Str.sorted. rewrite <- (sorted_by_perm Str.leb id).
  apply list_elem_of_filter. split; [apply slot_name_prefix|].
  change (map fst (map_to_list es)) with ((map_to_list es).*1).
  apply list_elem_of_fmap. exists (Slot.slot_name n, Dir x). split; [done|].
  by apply elem_of_map_to_list.
Qed.

End Listing.

Lemma lookup_update_absent {A} k (base d : list (string * A)) :
  Py.lookup k d = None -> Py.lookup k (Py.update base d) = Py.lookup k base.
Proof.
  unfold Py.update. revert base.
  induction d as [|[k0 v0] d IH]; intros base; simpl; [done|].
  destruct (String.eqb_spec k k0) as [->|Hne]; [done|]. intros Hd.
  rewrite (IH _ Hd). apply lookup_set_ne. congruence.
Qed.

(** X5: [list_slots] lists the records that load.  Every entry it returns
    is [{"slot": n, **record}] for a slot [n] whose record [load] gives as
    that mapping: it has the fields of the record, and under the key
    [slot] the number [n], unless the record has a key [slot] of its own,
    whose value is then the one listed.  Every slot [n >= 1] whose record
    loads as a mapping has its entry; without a [slots] directory nothing
    is listed.  The only error is the [TypeError] for a record that loads
    as something else than a mapping. *)
Theorem list_slots_lists_loaded_records {text : Type}
    (yaml_safe_load : text -> option yaml) (fs : node text) :
  match Slot.list_slots yaml_safe_load fs with
  | Ok l =>
      Forall (fun e => exists n d,
                e = entry n d /\ Slot.load yaml_safe_load n fs = Some (YMap d)
                /\ (Py.lookup "slot" d = None -> Py.lookup "slot" e = Some (SInt n))
                /\ (NoDup (map fst d) ->
                    (forall v, Py.lookup "slot" d = Some v -> Py.lookup "slot" e = Some v)
                    /\ forall k, k <> "slot" -> Py.get k e = Py.get k d)) l
      /\ (forall n d, (1 <= n)%Z -> Slot.load yaml_safe_load n fs = Some (YMap d) ->
            entry n d ∈ l)
      /\ (Fs.exists_ Slot.slots_dir fs = false -> l = [])
  | Raise e =>
      e = TypeError
      /\ exists n y, Slot.load yaml_safe_load n fs = Some y /\ forall d, y <> YMap d
  end.
Proof.
  unfold Slot.list_slots.
  destruct (Fs.exists_ Slot.slots_dir fs) eqn:Hex; simpl.
  - pose proof (list_entries_sound yaml_safe_load
                  (Fs.sorted_glob Slot.slots_dir "slot-" fs) fs) as H.
    destruct (Slot.list_entries _ _ fs) as [l|e]; [|done].
    destruct H as [H1 H2]. split; [|split; [|done]].
    + eapply Forall_impl; [exact H1|]. intros e (n & d & -> & Hl).
      exists n, d. split; [done|]. split; [done|]. split.
      * intros Hs. unfold entry. rewrite (lookup_update_absent _ _ _ Hs). simpl. done.
      * intros Hnd. split.
        -- intros v Hv. unfold entry. by rewrite lookup_update, Hv.
        -- intros k Hk. by apply entry_get.
    + intros n d Hn Hl. apply (H2 (Slot.slot_name n)).
      * by eapply sorted_glob_slot.
      * by apply list_entry_loaded.
  - split; [constructor|]. split; [|done].
    intros n d _ Hl. destruct (load_slot_dir yaml_safe_load n fs _ Hl) as (root & es & x & -> & Hs & _).
    unfold Fs.exists_, Slot.slots_dir in Hex. simpl in Hex. by rewrite Hs in Hex.
Qed.

Lemma mapM_length {A B} (f : A -> result B) (l : list A) : forall l',
  mapM f l = Ok l' -> length l' = length l.
Proof.
  induction l as [|a l IH]; intros l'; simpl; [by intros [= <-]|].
  destruct (f a); [|done]. simpl. destruct (mapM f l) as [l0|]; [|done]. simpl.
  intros [= <-]. simpl. by rewrite (IH l0).
Qed.

Lemma max_list_upper (x0 : Z) (l : list Z) (x : Z) :
  x ∈ x0 :: l -> (x <= foldr Z.max x0 l)%Z.
Proof.
  induction l as [|a l IH]; simpl.
  - intros Heq%list_elem_of_singleton. lia.
  - intros [Heq|[Heq|Hin]%elem_of_cons]%elem_of_cons.
    + assert (x <= foldr Z.max x0 l)%Z by (apply IH, elem_of_cons; by left). lia.
    + lia.
    + assert (x <= foldr Z.max x0 l)%Z by (apply IH, elem_of_cons; by right). lia.
Qed.

Lemma max_list_elem (x0 : Z) (l : list Z) : foldr Z.max x0 l ∈ x0 :: l.
Proof.
  induction l as [|a l IH]; simpl; [by left|].
  destruct (Z.max_spec a (foldr Z.max x0 l)) as [[_ ->]|[_ ->]].
  - apply elem_of_cons in IH as [->|IH]; [by left|]. right. by right.
  - right. by left.
Qed.

Section NextSlot.
Context {text : Type}.
Variable yaml_safe_load : text -> option yaml.
Implicit Types (fs : node text).

(** The numbers of the entries of a listing, where no record has a key
    [slot] of its own. *)
Lemma slot_int_entries fs (l : list dict) :
  (forall m d, Slot.load yaml_safe_load m fs = Some (YMap d) -> Py.lookup "slot" d = None) ->
  Forall (fun e => exists n d,
            e = entry n d /\ Slot.load yaml_safe_load n fs = Some (YMap d)) l ->
  exists nums,
    mapM Slot.slot_int l = Ok nums
    /\ length nums = length l
    /\ Forall (fun n => exists d, Slot.load yaml_safe_load n fs = Some (YMap d)) nums
    /\ forall n d, entry n d ∈ l -> Py.lookup "slot" d = None -> n ∈ nums.
Proof.
  intros Hplain. induction 1 as [|e l (n & d & -> & Hl) _ (nums & Hm & Hlen & Hall & Hin)].
  { exists []. split; [done|]. split; [done|]. split; [done|].
    intros n d Hn. by apply elem_of_nil in Hn. }
  assert (forall n' d', Py.lookup "slot" d' = None ->
            Py.lookup "slot" (entry n' d') = Some (SInt n')) as Hkey.
  { intros n' d' Hs. unfold entry. by rewrite (lookup_update_absent _ _ _ Hs). }
  exists (n :: nums). simpl. unfold Slot.slot_int at 1.
  rewrite (Hkey n d (Hplain n d Hl)). cbn [bind]. rewrite Hm. cbn [bind].
  split; [done|]. split; [by rewrite Hlen|]. split; [constructor; [by exists d|done]|].
  intros n' d' [Heq|Hn']%elem_of_cons Hs.
  - assert (Py.lookup "slot" (entry n' d') = Py.lookup "slot" (entry n d)) as Hk
      by (by rewrite Heq).
    rewrite (Hkey n' d' Hs), (Hkey n d (Hplain n d Hl)) in Hk. injection Hk as ->. by left.
  - right. by eapply Hin.
Qed.

Lemma no_slots_dir_no_slot fs m :
  Fs.exists_ Slot.slots_dir fs = false -> Slot.exists_ m fs = false.
Proof.
  unfold Slot.exists_, Fs.exists_, Slot.config_path, Slot.slot_dir.
  rewrite <- !app_assoc, lookup_path_app.
  by destruct (Fs.lookup_path Slot.slots_dir fs).
Qed.

(** A store whose records all parse is one whose records are plain. *)
Lemma parse_plain fs : all_records_parse yaml_safe_load fs -> records_plain yaml_safe_load fs.
Proof.
  intros (root & -> & Hslots) m Hm.
  destruct (root !! "slots") as [[t|slots]|] eqn:Hr; [done| |].
  - rewrite (with_slots_id root slots Hr) in *.
    destruct (slots !! Slot.slot_name m) as [x|] eqn:Hx.
    + destruct (Hslots _ _ Hx) as (m' & d & Hpos & Heq%slot_name_inj & Hrec). subst m'.
      split; [done|]. exists d. split; [by eapply load_holds|].
      by destruct Hrec as (_ & _ & _ & _ & _ & _ & _ & Hs).
    + by rewrite (proj1 (exists_absent yaml_safe_load root slots m Hx)) in Hm.
  - rewrite no_slots_dir_no_slot in Hm; [done|].
    unfold Fs.exists_, Slot.slots_dir. simpl. by rewrite Hr.
Qed.

End NextSlot.

(** X6: [get_next_slot_number] goes past the highest slot.  In a store
    where every slot whose metadata file exists has a number of 1 or more
    and a record that loads as a mapping without a key [slot] of its own,
    whatever else the [slots] directory holds: the number returned is free
    and above every existing slot (it is 1 when there is none, and
    otherwise follows a slot that exists), so gaps below are not filled;
    and when the call raises, it raises [NoAvailableSlotsError] and a slot
    numbered [max_slots] or more exists. *)
Theorem next_slot_number_is_past_the_highest {text : Type}
    (yaml_safe_load : text -> option yaml) (max_slots : Z) (fs : node text) :
  records_plain yaml_safe_load fs ->
  match Slot.get_next_slot_number yaml_safe_load max_slots fs with
  | Ok n =>
      Slot.exists_ n fs = false
      /\ (forall m, Slot.exists_ m fs = true -> (1 <= m < n)%Z)
      /\ ((n = 1%Z /\ forall m, Slot.exists_ m fs = false)
          \/ ((1 < n <= max_slots)%Z /\ Slot.exists_ (n - 1) fs = true))
  | Raise e =>
      e = NoAvailableSlotsError
      /\ exists m, (max_slots <= m)%Z /\ Slot.exists_ m fs = true
  end.
Proof.
  intros Hplain.
  assert (forall m d, Slot.load yaml_safe_load m fs = Some (YMap d) ->
            Py.lookup "slot" d = None) as Hkey.
  { intros m d Hl. destruct (Hplain m (load_exists _ _ _ _ Hl)) as (_ & d' & Hl' & Hs).
    rewrite Hl in Hl'. by injection Hl' as <-. }
  unfold Slot.get_next_slot_number.
  pose proof (list_entries_sound yaml_safe_load
                (Fs.sorted_glob Slot.slots_dir "slot-" fs) fs) as Hsound.
  unfold Slot.list_slots.
  destruct (Fs.exists_ Slot.slots_dir fs) eqn:Hdir; cbn [negb].
  2: { cbn [bind]. split; [by apply no_slots_dir_no_slot|]. split.
       - intros m Hm. by rewrite no_slots_dir_no_slot in Hm.
       - left. split; [done|]. intros m. by apply no_slots_dir_no_slot. }
  destruct (Slot.list_entries yaml_safe_load _ fs) as [l|e] eqn:Hl.
  2: { destruct Hsound as (_ & n & y & Hy & Hno).
       destruct (Hplain n (load_exists _ _ _ _ Hy)) as (_ & d & Hd & _).
       rewrite Hy in Hd. injection Hd as ->. by destruct (Hno d). }
  destruct Hsound as [Hentries Hall]. cbn [bind].
  assert (forall m, Slot.exists_ m fs = true ->
            (1 <= m)%Z /\ exists d, entry m d ∈ l /\ Py.lookup "slot" d = None) as Hlisted.
  { intros m Hm. destruct (Hplain m Hm) as (Hpos & d & Hd & Hs).
    split; [done|]. exists d. split; [|done].
    apply (Hall (Slot.slot_name m)).
    - by eapply sorted_glob_slot.
    - by apply list_entry_loaded. }
  destruct (slot_int_entries yaml_safe_load fs l Hkey Hentries)
    as (nums & Hm & Hlen & Hnums & Hin).
  destruct l as [|e l].
  - split.
    { destruct (Slot.exists_ 1 fs) eqn:H1; [|done].
      destruct (Hlisted 1%Z H1) as (_ & d & Hd & _). by apply elem_of_nil in Hd. }
    split.
    { intros m Hex. destruct (Hlisted m Hex) as (_ & d & Hd & _). by apply elem_of_nil in Hd. }
    left. split; [done|]. intros m.
    destruct (Slot.exists_ m fs) eqn:Hex; [|done].
    destruct (Hlisted m Hex) as (_ & d & Hd & _). by apply elem_of_nil in Hd.
  - rewrite Hm. cbn [bind].
    destruct nums as [|x nums]; [done|]. cbn [hd tl].
    set (mx := foldr Z.max x nums).
    assert (forall m, Slot.exists_ m fs = true -> (1 <= m <= mx)%Z) as Hle.
    { intros m Hex. destruct (Hlisted m Hex) as (Hpos & d & Hd & Hs).
      split; [done|]. apply max_list_upper. by eapply Hin. }
    assert (Slot.exists_ mx fs = true) as Hmx.
    { pose proof (max_list_elem x nums) as Hel. fold mx in Hel.
      destruct (proj1 (Forall_forall _ _) Hnums mx Hel) as [d Hd]. by eapply load_exists. }
    destruct (max_slots <? mx + 1)%Z eqn:Hcmp.
    + split; [done|]. exists mx. split; [lia|done].
    + split.
      { destruct (Slot.exists_ (mx + 1) fs) eqn:Hx; [|done]. apply Hle in Hx. lia. }
      split.
      { intros m Hex. apply Hle in Hex. lia. }
      right. pose proof (Hle mx Hmx). split; [lia|].
      by replace (mx + 1 - 1)%Z with mx by lia.
Qed.

Lemma next_slot_number_is_past_the_highest_witness :
  Slot.get_next_slot_number Sim.safe_load 10 Sim.gapped_fs = Ok 6%Z
  /\ Slot.exists_ 6 Sim.gapped_fs = false
  /\ Slot.exists_ 5 Sim.gapped_fs = true.
Proof.
  pose proof (next_slot_number_is_past_the_highest Sim.safe_load 10 Sim.gapped_fs
                (parse_plain Sim.safe_load Sim.gapped_fs gapped_fs_parses)) as H.
  assert (Slot.get_next_slot_number Sim.safe_load 10 Sim.gapped_fs = Ok 6%Z) as Hn
    by (vm_compute; reflexivity).
  rewrite Hn in H. destruct H as (H1 & _ & [[Hc _]|[_ H3]]); [discriminate Hc|].
  split; [exact Hn|]. split; [exact H1|exact H3].
Defined.

(** ** Volumes: the whole of [prepare_volumes] *)

Section MkdirKeeps.
Context {text : Type}.
Implicit Types (fs : node text) (p q : path).

(** [mkdir(parents=True)] makes directories and nothing else: the files
    are the same before and after, and directories stay. *)
Lemma mkdir_p_keeps p fs fs' :
  Fs.mkdir_p p fs = Ok fs' ->
  (forall q t, Fs.lookup_path q fs' = Some (File t) <-> Fs.lookup_path q fs = Some (File t))
  /\ (forall q, Fs.is_dir q fs = true -> Fs.is_dir q fs' = true).
Proof.
  intros Hmk. split.
  - intros q t. destruct (decide (q `prefix_of` p)) as [Hpre|Hpre].
    + destruct (mkdir_p_ancestors p fs fs' q Hmk Hpre) as [Hd Hb].
      unfold Fs.is_dir in *. split; intros Hq; rewrite Hq in *; [done|].
      by destruct Hb.
    + by rewrite (mkdir_p_frame p fs fs' q Hmk Hpre).
  - intros q Hq. destruct (decide (q `prefix_of` p)) as [Hpre|Hpre].
    + by destruct (mkdir_p_ancestors p fs fs' q Hmk Hpre).
    + unfold Fs.is_dir. by rewrite (mkdir_p_frame p fs fs' q Hmk Hpre).
Qed.

End MkdirKeeps.

Section PrepareVolumes.
Context {text : Type}.
Variable aibox_dir project_dir : string.
Variable os_access chmod_ok : path -> bool.
Variable resolve : string -> string.
Variable host_exists : string -> bool.
Implicit Types (fs : node text) (vols : list (string * Mount)).

(** One provider path: the tree is the same or has one more directory,
    and the volumes are the same or have one more read-write mount below
    the storage directory. *)
Lemma mount_provider_path_step slot_number path_name vols fs vols' fs' :
  Volumes.mount_provider_path aibox_dir os_access chmod_ok slot_number path_name (vols, fs)
  = Ok (vols', fs') ->
  (fs' = fs \/ exists p, Fs.mkdir_p p fs = Ok fs')
  /\ (vols' = vols
      \/ exists p, vols' = Py.set (Volumes.host_str aibox_dir p)
                             (Volumes.rw ("/home/aibox/" +:+ path_name)) vols).
Proof.
  unfold Volumes.mount_provider_path.
  set (host_path := Volumes.slot_dir slot_number ++ Volumes.parts path_name).
  clearbody host_path.
  destruct (negb (Fs.exists_ host_path fs) && negb (String.eqb (Volumes.suffix host_path) "")).
  { intros [= <- <-]. by split; left. }
  destruct (negb (Fs.exists_ host_path fs)).
  - destruct (Fs.mkdir_p host_path fs) as [fs1|e] eqn:Hmk; [|done]. cbn [bind].
    repeat case_match; intros [= <- <-]; (split; [right; by exists host_path|]);
      first [by left | right; by exists host_path].
  - cbn [bind].
    repeat case_match; intros [= <- <-]; (split; [by left|]);
      first [by left | right; by exists host_path].
Qed.

Lemma mount_provider_paths_spec slot_number mount_paths : forall vols fs vols' fs',
  Volumes.mount_provider_paths aibox_dir os_access chmod_ok slot_number mount_paths (vols, fs)
  = Ok (vols', fs') ->
  ((forall q t, Fs.lookup_path q fs' = Some (File t) <-> Fs.lookup_path q fs = Some (File t))
   /\ (forall q, Fs.is_dir q fs = true -> Fs.is_dir q fs' = true))
  /\ (NoDup (map fst vols) -> NoDup (map fst vols'))
  /\ (forall k, is_Some (Py.lookup k vols) -> is_Some (Py.lookup k vols'))
  /\ (forall k, (forall p, Volumes.host_str aibox_dir p <> k) ->
                Py.lookup k vols' = Py.lookup k vols).
Proof.
  induction mount_paths as [|path_name rest IH]; intros vols fs vols' fs';
    cbn [Volumes.mount_provider_paths].
  - intros [= <- <-]. done.
  - destruct (Volumes.mount_provider_path aibox_dir os_access chmod_ok slot_number
                path_name (vols, fs)) as [[vols1 fs1]|e] eqn:Hstep; [|done].
    cbn [bind]. intros Hrest.
    destruct (mount_provider_path_step _ _ _ _ _ _ Hstep) as [Hfs Hvols].
    destruct (IH _ _ _ _ Hrest) as ((Hf & Hd) & Hnd & Hsome & Hsame).
    split; [|split; [|split]].
    + destruct Hfs as [->|[p Hmk]]; [done|].
      destruct (mkdir_p_keeps p fs fs1 Hmk) as [Hf1 Hd1]. split.
      * intros q t. by rewrite Hf, Hf1.
      * intros q Hq. by apply Hd, Hd1.
    + intros Hv. apply Hnd. destruct Hvols as [->|[p ->]]; [done|]. by apply set_NoDup.
    + intros k Hk. apply Hsome. destruct Hvols as [->|[p ->]]; [done|].
      destruct (decide (Volumes.host_str aibox_dir p = k)) as [<-|Hne].
      * by rewrite lookup_set_eq.
      * by rewrite lookup_set_ne.
    + intros k Hk. rewrite (Hsame k Hk). destruct Hvols as [->|[p ->]]; [done|].
      by rewrite lookup_set_ne.
Qed.

(** The custom mounts, from the last one back. *)
Lemma mount_custom_fold customs : forall vols,
  (NoDup (map fst vols) ->
   NoDup (map fst (fold_left (Volumes.mount_custom resolve host_exists) customs vols)))
  /\ (forall k, is_Some (Py.lookup k vols) ->
        is_Some (Py.lookup k (fold_left (Volumes.mount_custom resolve host_exists) customs vols)))
  /\ (forall k, (forall m, m ∈ customs -> resolve (source m) <> k) ->
        Py.lookup k (fold_left (Volumes.mount_custom resolve host_exists) customs vols)
        = Py.lookup k vols).
Proof.
  induction customs as [|m customs IH]; intros vols; simpl.
  - split; [done|]. split; [done|]. done.
  - destruct (IH (Volumes.mount_custom resolve host_exists vols m)) as (IH1 & IH2 & IH3).
    unfold Volumes.mount_custom in *.
    destruct (String.eqb (mount_mode m) "ro" && negb (host_exists (resolve (source m)))).
    + split; [done|]. split; [done|].
      intros k Hk. apply IH3. intros m' Hm'. apply Hk, elem_of_cons. by right.
    + split; [|split].
      * intros Hnd. by apply IH1, set_NoDup.
      * intros k Hk. apply IH2.
        destruct (decide (resolve (source m) = k)) as [<-|Hne].
        -- by rewrite lookup_set_eq.
        -- by rewrite lookup_set_ne.
      * intros k Hk. rewrite IH3.
        -- apply lookup_set_ne, Hk, elem_of_cons. by left.
        -- intros m' Hm'. apply Hk, elem_of_cons. by right.
Qed.

End PrepareVolumes.

(** X7: [prepare_volumes] makes directories and nothing else: the files
    below the project storage directory, with what they hold, are the same
    before and after, no directory disappears, and the directory of the
    slot is there afterwards. *)
Theorem prepare_volumes_makes_only_directories {text : Type}
    (aibox_dir project_dir : string) (os_access chmod_ok : path -> bool)
    (resolve : string -> string) (host_exists : string -> bool)
    (slot_number : Z) (provider_name : string) (mount_paths : list string)
    (custom_mounts : list MountConfig) (fs fs' : node text) (vols : list (string * Mount)) :
  Volumes.prepare_volumes aibox_dir project_dir os_access chmod_ok resolve host_exists
    slot_number provider_name mount_paths custom_mounts fs = Ok (vols, fs') ->
  (forall q t, Fs.lookup_path q fs' = Some (File t) <-> Fs.lookup_path q fs = Some (File t))
  /\ (forall q, Fs.is_dir q fs = true -> Fs.is_dir q fs' = true)
  /\ Fs.is_dir (Volumes.slot_dir slot_number) fs' = true.
Proof.
  unfold Volumes.prepare_volumes. intros H.
  destruct (Fs.mkdir_p (Volumes.slot_dir slot_number) fs) as [fs1|e] eqn:Hmk; [|done].
  cbn [bind] in H.
  destruct (Volumes.mount_provider_paths _ _ _ _ _ _) as [[vols1 fs2]|e] eqn:Hp; [|done].
  cbn [bind] in H. injection H as _ <-.
  destruct (mkdir_p_keeps _ _ _ Hmk) as [Hf1 Hd1].
  destruct (mount_provider_paths_spec _ _ _ _ _ _ _ _ _ Hp) as ((Hf2 & Hd2) & _).
  split; [|split].
  - intros q t. by rewrite Hf2, Hf1.
  - intros q Hq. by apply Hd2, Hd1.
  - by apply Hd2, (mkdir_p_is_dir _ _ _ Hmk).
Qed.

Lemma prepare_volumes_makes_only_directories_witness :
  exists vols (fs' : node Sim.text),
    Volumes.prepare_volumes "/home/u/.aibox/projects/demo-0a1b2c3d" "/home/u/demo"
      (fun _ => true) (fun _ => true) (fun s => s) (fun _ => true)
      2 "claude" [".claude"] [] Sim.gapped_fs = Ok (vols, fs')
    /\ Fs.lookup_path (Slot.config_path 2) fs' = Fs.lookup_path (Slot.config_path 2) Sim.gapped_fs.
Proof.
  assert (exists vols (fs' : node Sim.text),
            Volumes.prepare_volumes "/home/u/.aibox/projects/demo-0a1b2c3d" "/home/u/demo"
              (fun _ => true) (fun _ => true) (fun s => s) (fun _ => true)
              2 "claude" [".claude"] [] Sim.gapped_fs = Ok (vols, fs'))
    as (vols & fs' & H) by (vm_compute; eauto).
  exists vols, fs'. split; [exact H|].
  destruct (prepare_volumes_makes_only_directories _ _ _ _ _ _ _ _ _ _ _ _ _ H) as (Hf & _ & _).
  assert (Fs.lookup_path (Slot.config_path 2) Sim.gapped_fs
          = Some (File (Sim.dump (YMap Sim.gemini_record)))) as Hl by (vm_compute; reflexivity).
  rewrite Hl. by apply Hf.
Defined.

(** X8: the volumes of [prepare_volumes] never have two mounts for one
    host path, and always one for the project directory; a custom mount
    that is not skipped (read-only with a missing source) and is not
    followed by another one for the same source is there with its target
    and mode, whatever was mounted for that host path before; and where no
    custom mount and no path below the storage directory coincides with
    the project directory, the project directory is bound to [/workspace]
    read-write. *)
Theorem prepare_volumes_mounts {text : Type}
    (aibox_dir project_dir : string) (os_access chmod_ok : path -> bool)
    (resolve : string -> string) (host_exists : string -> bool)
    (slot_number : Z) (provider_name : string) (mount_paths : list string)
    (custom_mounts : list MountConfig) (fs fs' : node text) (vols : list (string * Mount)) :
  Volumes.prepare_volumes aibox_dir project_dir os_access chmod_ok resolve host_exists
    slot_number provider_name mount_paths custom_mounts fs = Ok (vols, fs') ->
  NoDup (map fst vols)
  /\ is_Some (Py.lookup project_dir vols)
  /\ (forall cs1 m cs2,
        custom_mounts = cs1 ++ m :: cs2 ->
        (mount_mode m = "ro" -> host_exists (resolve (source m)) = true) ->
        (forall m', m' ∈ cs2 -> resolve (source m') <> resolve (source m)) ->
        Py.lookup (resolve (source m)) vols
        = Some {| bind_to := target m; mode := mount_mode m |})
  /\ ((forall m, m ∈ custom_mounts -> resolve (source m) <> project_dir) ->
      (forall p, Volumes.host_str aibox_dir p <> project_dir) ->
      Py.lookup project_dir vols = Some {| bind_to := "/workspace"; mode := "rw" |}).
Proof.
  unfold Volumes.prepare_volumes. intros H.
  destruct (Fs.mkdir_p (Volumes.slot_dir slot_number) fs) as [fs1|e] eqn:Hmk; [|done].
  cbn [bind] in H.
  destruct (Volumes.mount_provider_paths _ _ _ _ _ _) as [[vols1 fs2]|e] eqn:Hp; [|done].
  cbn [bind] in H. injection H as <- _.
  destruct (mount_provider_paths_spec _ _ _ _ _ _ _ _ _ Hp) as (_ & Hnd1 & Hsome1 & Hsame1).
  set (claude_json := Volumes.slot_dir slot_number ++ [".claude"; ".claude.json"]) in *.
  match goal with
  | |- context [fold_left _ custom_mounts ?v] => set (vols2 := v)
  end.
  assert (NoDup (map fst vols2)) as Hnd2.
  { unfold vols2. case_match; [apply set_NoDup|]; apply Hnd1; simpl;
      apply NoDup_singleton. }
  assert (is_Some (Py.lookup project_dir vols2)) as Hsome2.
  { assert (is_Some (Py.lookup project_dir vols1)) as Hs1.
    { apply Hsome1. simpl. by rewrite String.eqb_refl. }
    unfold vols2. case_match; [|done].
    destruct (decide (Volumes.host_str aibox_dir claude_json = project_dir)) as [<-|Hne].
    - by rewrite lookup_set_eq.
    - by rewrite lookup_set_ne. }
  split; [by apply mount_custom_fold|].
  split; [by apply mount_custom_fold|].
  split.
  - intros cs1 m cs2 -> Hkept Hlater.
    rewrite fold_left_app. simpl.
    destruct (mount_custom_fold resolve host_exists cs2
                (Volumes.mount_custom resolve host_exists
                   (fold_left (Volumes.mount_custom resolve host_exists) cs1 vols2) m))
      as (_ & _ & H3).
    rewrite (H3 _ Hlater). unfold Volumes.mount_custom.
    assert (String.eqb (mount_mode m) "ro" && negb (host_exists (resolve (source m))) = false)
      as ->.
    { destruct (String.eqb_spec (mount_mode m) "ro") as [Hro|]; [|done].
      by rewrite (Hkept Hro). }
    apply lookup_set_eq.
  - intros Hcustom Hhost.
    destruct (mount_custom_fold resolve host_exists custom_mounts vols2) as (_ & _ & H3).
    rewrite (H3 _ Hcustom).
    assert (Py.lookup project_dir vols1 = Some {| bind_to := "/workspace"; mode := "rw" |})
      as Hv1.
    { rewrite (Hsame1 _ Hhost). simpl. by rewrite String.eqb_refl. }
    unfold vols2. case_match; [|done]. by rewrite lookup_set_ne.
Qed.

Lemma prepare_volumes_mounts_witness :
  exists vols (fs' : node Sim.text),
    Volumes.prepare_volumes "/home/u/.aibox/projects/demo-0a1b2c3d" "/home/u/demo"
      (fun _ => true) (fun _ => true) (fun s => s) (fun _ => false)
      2 "claude" [".claude"]
      [ {| source := "/home/u/demo"; target := "/workspace"; mount_mode := "ro" |};
        {| source := "/data"; target := "/data"; mount_mode := "rw" |} ]
      Sim.gapped_fs = Ok (vols, fs')
    /\ NoDup (map fst vols)
    /\ Py.lookup "/data" vols = Some {| bind_to := "/data"; mode := "rw" |}.
Proof.
  assert (exists vols (fs' : node Sim.text),
            Volumes.prepare_volumes "/home/u/.aibox/projects/demo-0a1b2c3d" "/home/u/demo"
              (fun _ => true) (fun _ => true) (fun s => s) (fun _ => false)
              2 "claude" [".claude"]
              [ {| source := "/home/u/demo"; target := "/workspace"; mount_mode := "ro" |};
                {| source := "/data"; target := "/data"; mount_mode := "rw" |} ]
              Sim.gapped_fs = Ok (vols, fs'))
    as (vols & fs' & H) by (vm_compute; eauto).
  exists vols, fs'. split; [exact H|].
  destruct (prepare_volumes_mounts _ _ _ _ _ _ _ _ _ _ _ _ _ H) as (Hnd & _ & Hc & _).
  split; [exact Hnd|].
  apply (Hc [ {| source := "/home/u/demo"; target := "/workspace"; mount_mode := "ro" |} ]
            {| source := "/data"; target := "/data"; mount_mode := "rw" |} []).
  - reflexivity.
  - simpl. discriminate.
  - intros m' Hm'. by apply elem_of_nil in Hm'.
Defined.

(** ** Profile specifications *)

Lemma lstrip_app_space (a t : string) : all_space a -> PyStr.lstrip (a +:+ t) = PyStr.lstrip t.
Proof.
  unfold all_space. induction a as [|c a IH]; simpl; [done|].
  intros [Hc Ha]%Forall_cons. rewrite Hc. by apply IH.
Qed.

Lemma lstrip_all_space (a : string) : all_space a -> PyStr.lstrip a = "".
Proof.
  unfold all_space. induction a as [|c a IH]; simpl; [done|].
  intros [Hc Ha]%Forall_cons. rewrite Hc. by apply IH.
Qed.

Lemma rstrip_all_space (a : string) : all_space a -> PyStr.rstrip a = "".
Proof.
  unfold all_space. induction a as [|c a IH]; simpl; [done|].
  intros [Hc Ha]%Forall_cons. by rewrite (IH Ha), Hc.
Qed.

Lemma rstrip_app_space (t b : string) : all_space b -> PyStr.rstrip (t +:+ b) = PyStr.rstrip t.
Proof.
  intros Hb. induction t as [|c t IH]; simpl.
  - by apply rstrip_all_space.
  - by rewrite IH.
Qed.

Lemma lstrip_length (s : string) : (String.length (PyStr.lstrip s) <= String.length s)%nat.
Proof. induction s as [|c s IH]; simpl; [done|]. destruct (PyStr.is_space c); simpl; lia. Qed.

Lemma lstrip_fixed (c : ascii) (r t : string) :
  PyStr.lstrip (String c r) = String c r -> PyStr.lstrip (String c r +:+ t) = String c r +:+ t.
Proof.
  simpl. destruct (PyStr.is_space c); [|done].
  intros H. pose proof (lstrip_length r) as Hl. rewrite H in Hl. simpl in Hl. lia.
Qed.

(** A text that [lstrip] and [rstrip] leave alone, between white space. *)
Lemma strip_padded (a s b : string) :
  all_space a -> all_space b -> PyStr.lstrip s = s -> PyStr.rstrip s = s ->
  PyStr.strip (a +:+ s +:+ b) = s.
Proof.
  intros Ha Hb Hl Hr. unfold PyStr.strip. rewrite lstrip_app_space by done.
  destruct s as [|c r].
  - change ("" +:+ b) with b. by rewrite (lstrip_all_space b Hb).
  - rewrite (lstrip_fixed c r b Hl). by rewrite rstrip_app_space.
Qed.

Lemma split1_sep (sep : ascii) (s rest : string) :
  Forall (fun c => c <> sep) (list_ascii_of_string s) ->
  PyStr.split1 sep (s +:+ String sep rest) = (s, Some rest)
  /\ PyStr.split1 sep s = (s, None).
Proof.
  induction s as [|c s IH]; simpl.
  - intros _. by rewrite Ascii.eqb_refl.
  - intros [Hc Hs]%Forall_cons. destruct (IH Hs) as [-> ->].
    by destruct (Ascii.eqb_spec c sep).
Qed.

Lemma space_not_colon (s : string) :
  all_space s -> Forall (fun c => c <> ":"%char) (list_ascii_of_string s).
Proof.
  unfold all_space. intros H. eapply Forall_impl; [exact H|].
  intros c Hc ->. by vm_compute in Hc.
Qed.

(** X9: [_parse_spec] reads back a name and a version written as
    [name:version], white space around either being dropped, and a name
    alone as that name without a version: for a name that is not empty,
    holds no colon and neither starts nor ends with white space, and a
    version that neither starts nor ends with white space. *)
Theorem parse_spec_reads_name_and_version (name version a b c d : string) :
  is_ascii name -> is_ascii version ->
  name <> "" ->
  Forall (fun ch => ch <> ":"%char) (list_ascii_of_string name) ->
  PyStr.lstrip name = name -> PyStr.rstrip name = name ->
  PyStr.lstrip version = version -> PyStr.rstrip version = version ->
  all_space a -> all_space b -> all_space c -> all_space d ->
  ProfileLoader._parse_spec ((a +:+ name +:+ b) +:+ ":" +:+ (c +:+ version +:+ d))
  = Ok (name, Some version)
  /\ ProfileLoader._parse_spec (a +:+ name +:+ b) = Ok (name, None).
Proof.
  intros _ _ Hne Hcolon Hl Hr Hvl Hvr Ha Hb Hc Hd.
  assert (Forall (fun ch => ch <> ":"%char) (list_ascii_of_string (a +:+ name +:+ b))) as Hno.
  { rewrite !list_ascii_app. rewrite !Forall_app. auto using space_not_colon. }
  destruct (split1_sep ":" (a +:+ name +:+ b) (c +:+ version +:+ d) Hno) as [H1 H2].
  unfold ProfileLoader._parse_spec.
  change (":" +:+ (c +:+ version +:+ d)) with (String ":" (c +:+ version +:+ d)).
  rewrite H1, H2, (strip_padded a name b Ha Hb Hl Hr).
  destruct (String.eqb_spec name "") as [|_]; [done|].
  simpl. by rewrite (strip_padded c version d Hc Hd Hvl Hvr).
Qed.

Lemma parse_spec_reads_name_and_version_witness :
  ProfileLoader._parse_spec (" python " +:+ ":" +:+ " 3.12 ") = Ok ("python", Some "3.12")
  /\ ProfileLoader._parse_spec " python " = Ok ("python", None).
Proof.
  apply (parse_spec_reads_name_and_version "python" "3.12" " " " " " " " ");
    try reflexivity; try discriminate; unfold is_ascii, all_space;
    apply (bool_decide_unpack _); vm_compute; reflexivity.
Defined.

(** X10: [load_profile] returns the definition the catalogue holds under
    the name of the specification, with a version of that definition's
    list: the requested one, or the default when none is requested, the
    default being one of the versions as the validators of
    [ProfileDefinition] require.  Its errors are [InvalidProfileError] and
    [ProfileNotFoundError]. *)
Theorem load_profile_version_is_listed (c : ProfileLoader.catalog) (profile_spec : string) :
  (forall nm p, c nm = Some p -> valid_versions p) ->
  match ProfileLoader.load_profile c profile_spec with
  | Ok (p, v) =>
      v ∈ versions p
      /\ exists nm requested,
           ProfileLoader._parse_spec profile_spec = Ok (nm, requested)
           /\ c nm = Some p
           /\ match requested with Some r => v = r | None => v = default_version p end
  | Raise e => e = InvalidProfileError \/ e = ProfileNotFoundError
  end.
Proof.
  intros Hvalid. unfold ProfileLoader.load_profile.
  destruct (ProfileLoader._parse_spec profile_spec) as [[nm requested]|e] eqn:Hparse.
  - cbn [bind fst snd]. unfold ProfileLoader._load_profile_definition.
    destruct (c nm) as [p|] eqn:Hc; [|by right]. cbn [bind].
    unfold Profile.get_version. destruct requested as [r|].
    + case_bool_decide as Hr; [|by left]. cbn [bind]. split; [done|]. by exists nm, (Some r).
    + cbn [bind]. split; [by apply (Hvalid nm)|]. by exists nm, None.
  - cbn [bind]. left. unfold ProfileLoader._parse_spec in Hparse.
    destruct (PyStr.split1 ":" profile_spec) as [hd rest].
    by destruct (String.eqb (PyStr.strip hd) ""); simplify_eq.
Qed.

Lemma load_profile_version_is_listed_witness :
  ProfileLoader.load_profile Sim.profile_catalog "python" = Ok (Sim.python, "3.12")
  /\ "3.12" ∈ versions Sim.python.
Proof.
  pose proof (load_profile_version_is_listed Sim.profile_catalog "python") as H.
  assert (ProfileLoader.load_profile Sim.profile_catalog "python" = Ok (Sim.python, "3.12"))
    as Hl by (vm_compute; reflexivity).
  rewrite Hl in H. split; [done|]. apply H.
  intros nm p. unfold Sim.profile_catalog.
  destruct (String.eqb nm "python"); [intros [= <-]; unfold valid_versions; apply list_elem_of_In; simpl; auto|].
  destruct (String.eqb nm "nodejs"); [intros [= <-]; unfold valid_versions; apply list_elem_of_In; simpl; auto|].
  done.
Defined.

(** ** Storage directory names *)

Lemma split_pieces (sep : ascii) (s : string) :
  Forall (fun w => Forall (fun c => c <> sep) (list_ascii_of_string w)) (PyStr.split sep s).
Proof.
  induction s as [|c s IH]; simpl.
  - by repeat constructor.
  - destruct (Ascii.eqb_spec c sep) as [->|Hne].
    + constructor; [constructor|done].
    + destruct (PyStr.split sep s) as [|w ws]; [by repeat constructor|].
      apply Forall_cons in IH as [Hw Hws]. constructor; [|done]. by constructor.
Qed.

Lemma last_Forall {A} (P : A -> Prop) (l : list A) (d : A) :
  P d -> Forall P l -> P (List.last l d).
Proof.
  intros Hd. induction l as [|a [|b l] IH]; [done| |].
  - by intros [Ha _]%Forall_cons.
  - intros [_ Hl]%Forall_cons. by apply IH.
Qed.

Lemma hex_not_slash (c : ascii) : is_hex c = true -> c <> "/"%char.
Proof. intros H ->. by vm_compute in H. Qed.

Lemma project_hash_shape (abs_path : string) :
  hex_string 8 (Hash.generate_project_hash abs_path).
Proof.
  unfold Hash.generate_project_hash.
  destruct (hexdigest_spec abs_path) as [Hlen Hhex].
  destruct (take_spec 8 (Sha256.hexdigest abs_path)) as [H1 H2]; [lia|].
  split; [done|]. rewrite H2. by apply Forall_take.
Qed.

(** X11: the storage directory of a project is named after the project
    directory, a dash and eight hexadecimal digits, the start of the
    SHA-256 of the resolved path; the name holds no [/], so it is one
    component of a path below [~/.aibox/projects]. *)
Theorem storage_dir_is_name_and_hash (abs_path : string) :
  Hash.get_project_storage_dir abs_path
  = Hash.get_project_name abs_path +:+ "-" +:+ Str.take 8 (Sha256.hexdigest abs_path)
  /\ hex_string 8 (Str.take 8 (Sha256.hexdigest abs_path))
  /\ String.length (Hash.get_project_storage_dir abs_path)
     = (String.length (Hash.get_project_name abs_path) + 9)%nat
  /\ Forall (fun c => c <> "/"%char)
       (list_ascii_of_string (Hash.get_project_storage_dir abs_path)).
Proof.
  pose proof (project_hash_shape abs_path) as [Hlen Hhex].
  unfold Hash.get_project_storage_dir, Hash.generate_project_hash in *.
  split; [done|]. split; [done|]. split.
  - rewrite !string_length_app, Hlen. change (String.length "-") with 1%nat. lia.
  - rewrite !list_ascii_app. rewrite !Forall_app. split; [|split].
    + unfold Hash.get_project_name, Volumes.parts. apply last_Forall; [constructor|].
      apply Forall_forall. intros w [_ Hw]%list_elem_of_filter.
      by apply (proj1 (Forall_forall _ _) (split_pieces "/" abs_path)).
    + by repeat constructor.
    + eapply Forall_impl; [exact Hhex|]. apply hex_not_slash.
Qed.

(** ** The packages and build arguments of the Dockerfile *)

Lemma app_assoc_5 {A} (l1 l2 l3 l4 l5 rest : list A) :
  l1 ++ l2 ++ l3 ++ l4 ++ l5 ++ rest = (l1 ++ l2 ++ l3 ++ l4) ++ l5 ++ rest.
Proof. by rewrite <- !app_assoc. Qed.

Lemma generate_uses_install_packages base_image pvs ai_provider :
  exists before after,
    DockerfileGenerator.generate base_image pvs ai_provider
    = Str.join PyStr.nl
        (before ++ DockerfileGenerator.package_lines (Dockerfile.install_packages pvs)
         ++ after).
Proof.
  unfold DockerfileGenerator.generate, Dockerfile.install_packages. cbv zeta.
  rewrite app_assoc_5. eexists _, _. reflexivity.
Qed.

(** X12: the packages [generate] installs with [apt-get] are in the order
    of [sorted]; they are [nodejs], [bash] and the system dependencies of
    the profiles, and nothing else; each is there once, [nodejs] apart,
    which is added to the sorted set and so is there twice when a profile
    asks for it.  [generate] writes one line for each of them. *)
Theorem install_packages_are_the_dependencies
    (base_image : string) (pvs : list (ProfileDefinition * string))
    (ai_provider : option string) :
  key_sorted Str.leb id (Dockerfile.install_packages pvs)
  /\ (forall dep, dep ∈ Dockerfile.install_packages pvs
        <-> dep = "nodejs" \/ dep = "bash"
            \/ exists pv, pv ∈ pvs /\ dep ∈ system_dependencies (fst pv))
  /\ (exists rest, Permutation (Dockerfile.install_packages pvs) ("nodejs" :: rest)
                   /\ NoDup rest)
  /\ (exists before after,
        DockerfileGenerator.generate base_image pvs ai_provider
        = Str.join PyStr.nl
            (before ++ DockerfileGenerator.package_lines (Dockerfile.install_packages pvs)
             ++ after)).
Proof.
  set (deps := DockerfileGenerator._collect_system_dependencies pvs ++ ["bash"]).
  assert (Permutation (Dockerfile.install_packages pvs)
            ("nodejs" :: DockerfileGenerator.sorted_set deps)) as Hperm.
  { unfold Dockerfile.install_packages, Str.sorted. symmetry. apply sorted_by_perm. }
  assert (Permutation (DockerfileGenerator.sorted_set deps) (remove_dups deps)) as Hperm2.
  { unfold DockerfileGenerator.sorted_set, Str.sorted. symmetry. apply sorted_by_perm. }
  split; [|split; [|split]].
  - unfold Dockerfile.install_packages, Str.sorted.
    apply sorted_by_sorted; [apply str_leb_total|apply str_leb_trans].
  - intros dep. rewrite Hperm, elem_of_cons, Hperm2, elem_of_remove_dups.
    unfold deps. rewrite elem_of_app, list_elem_of_singleton.
    unfold DockerfileGenerator._collect_system_dependencies.
    split.
    + intros [->|[Hin| ->]]; [by left| |by right; left].
      right; right. apply list_elem_of_In, in_concat in Hin as (l & Hl & Hdep).
      apply in_map_iff in Hl as (pv & <- & Hpv).
      exists pv. split; by apply list_elem_of_In.
    + intros [->|[->|(pv & Hpv & Hdep)]]; [by left|by right; right|].
      right; left. apply list_elem_of_In, in_concat.
      exists (system_dependencies (fst pv)). split; [|by apply list_elem_of_In].
      apply in_map_iff. exists pv. split; [done|]. by apply list_elem_of_In.
  - exists (DockerfileGenerator.sorted_set deps). split; [done|].
    rewrite Hperm2. apply NoDup_remove_dups.
  - apply generate_uses_install_packages.
Qed.

Lemma build_args_fold (pvs : list (ProfileDefinition * string)) : forall acc,
  let args := fold_left (fun acc pv => Py.set (DockerfileGenerator.version_arg (fst pv))
                                         (snd pv) acc) pvs acc in
  (NoDup (map fst acc) -> NoDup (map fst args))
  /\ (forall k, k ∈ map fst args
        <-> k ∈ map fst acc \/ exists pv, pv ∈ pvs /\ DockerfileGenerator.version_arg (fst pv) = k)
  /\ (forall k, (forall pv, pv ∈ pvs -> DockerfileGenerator.version_arg (fst pv) <> k) ->
        Py.lookup k args = Py.lookup k acc).
Proof.
  induction pvs as [|pv pvs IH]; intros acc; simpl.
  - split; [done|]. split; [|done]. intros k. split; [by left|].
    intros [?|(pv & Hpv & _)]; [done|]. by apply elem_of_nil in Hpv.
  - destruct (IH (Py.set (DockerfileGenerator.version_arg (fst pv)) (snd pv) acc))
      as (IH1 & IH2 & IH3).
    split; [|split].
    + intros Hnd. by apply IH1, set_NoDup.
    + intros k. rewrite IH2, set_keys. split.
      * intros [Hk|(pv' & Hpv' & Hk)].
        -- case_bool_decide as Hin; [by left|].
           apply elem_of_app in Hk as [Hk| ->%list_elem_of_singleton]; [by left|].
           right. exists pv. split; [by left|done].
        -- right. exists pv'. split; [by right|done].
      * intros [Hk|(pv' & [->|Hpv']%elem_of_cons & Hk)].
        -- left. case_bool_decide; [done|]. apply elem_of_app. by left.
        -- left. subst k. case_bool_decide; [done|]. apply elem_of_app. right.
           by apply list_elem_of_singleton.
        -- right. by exists pv'.
    + intros k Hk. rewrite IH3.
      * apply lookup_set_ne, Hk. by left.
      * intros pv' Hpv'. apply Hk. by right.
Qed.

(** X13: [generate_build_args] has one build argument for each
    [<NAME>_VERSION] of the profiles, and where the same name comes more
    than once the version of the last profile is the one passed to
    [docker build]. *)
Theorem build_args_last_version_wins (pvs : list (ProfileDefinition * string)) :
  NoDup (map fst (DockerfileGenerator.generate_build_args pvs))
  /\ (forall k, k ∈ map fst (DockerfileGenerator.generate_build_args pvs)
        <-> exists pv, pv ∈ pvs /\ DockerfileGenerator.version_arg (fst pv) = k)
  /\ (forall pvs1 pv pvs2,
        pvs = pvs1 ++ pv :: pvs2 ->
        (forall pv', pv' ∈ pvs2 ->
           DockerfileGenerator.version_arg (fst pv') <> DockerfileGenerator.version_arg (fst pv)) ->
        Py.lookup (DockerfileGenerator.version_arg (fst pv))
          (DockerfileGenerator.generate_build_args pvs) = Some (snd pv)).
Proof.
  unfold DockerfileGenerator.generate_build_args.
  destruct (build_args_fold pvs []) as (H1 & H2 & H3).
  split; [apply H1; constructor|]. split.
  - intros k. rewrite H2. split; [|by right].
    intros [Hk|?]; [|done]. by apply elem_of_nil in Hk.
  - intros pvs1 pv pvs2 -> Hlater. rewrite fold_left_app. simpl.
    destruct (build_args_fold pvs2
                (Py.set (DockerfileGenerator.version_arg (fst pv)) (snd pv)
                   (fold_left (fun acc pv => Py.set (DockerfileGenerator.version_arg (fst pv))
                                               (snd pv) acc) pvs1 []))) as (_ & _ & H3').
    rewrite (H3' _ Hlater). apply lookup_set_eq.
Qed.

(** ** Images and the start of a container *)

Section OrchestratorMore.
Context {text E C : Type}.
Variable env : Env text E C.
Implicit Types (w : world text E) (pl : @Orchestrator.plan text).

Lemma ensure_image_exists_calls h l df args cache w built w' :
  Orchestrator._ensure_image_exists env h l df args cache w = Ok (built, w') ->
  w_fs w' = w_fs w
  /\ exists evs, w_calls w' = w_calls w ++ evs /\ forall a, EvCreate a ∉ evs.
Proof.
  unfold Orchestrator._ensure_image_exists, Orchestrator.do_tag, Orchestrator._build_image,
    Orchestrator.with_docker.
  assert (forall a, EvCreate a ∉ [EvTag h l]) as H1.
  { intros a [?|?%elem_of_nil]%elem_of_cons; done. }
  assert (forall a, EvCreate a ∉ [EvBuild h; EvTag h l]) as H2.
  { intros a [?|[?|?%elem_of_nil]%elem_of_cons]%elem_of_cons; done. }
  destruct (image_exists (manager env) h (w_docker w)).
  - destruct (tag_image (manager env) h l (w_docker w)) as [d|e]; cbn [bind].
    + intros [= <- <-]. simpl. split; [done|]. by exists [EvTag h l].
    + destruct (build_image (manager env) df h args cache (w_docker w)) as [d1|]; [|done].
      cbn [bind w_docker]. destruct (tag_image (manager env) h l d1) as [d2|]; [|done].
      cbn [bind]. intros [= <- <-]. simpl. rewrite <- app_assoc.
      split; [done|]. by exists [EvBuild h; EvTag h l].
  - destruct (build_image (manager env) df h args cache (w_docker w)) as [d1|]; [|done].
    cbn [bind w_docker]. destruct (negb (image_exists (manager env) h d1)); [done|].
    destruct (tag_image (manager env) h l d1) as [d2|]; [|done].
    cbn [bind]. intros [= <- <-]. simpl. rewrite <- app_assoc.
    split; [done|]. by exists [EvBuild h; EvTag h l].
Qed.

Lemma make_plan_spec sn prov w pl :
  Orchestrator.make_plan env sn prov w = Ok pl ->
  load_config env = Ok (Orchestrator.pl_config pl)
  /\ providers env (PyStr.lower (Orchestrator.pl_provider_name pl))
     = Some (Orchestrator.pl_provider pl)
  /\ match sn with
     | Some n => Orchestrator.pl_slot_number pl = n
     | None => Slot.find_available_slot 10 1 (w_fs w) = Ok (Orchestrator.pl_slot_number pl)
     end.
Proof.
  unfold Orchestrator.make_plan, Orchestrator.get_provider. intros H.
  destruct (load_config env) as [config|]; [|done]. cbn [bind] in H.
  destruct (match sn with Some n => Ok n | None => _ end) as [n|] eqn:Hn; [|done].
  cbn [bind] in H.
  destruct (Orchestrator.resolve_provider_name env n prov w) as [pn|]; [|done].
  cbn [bind] in H.
  destruct (providers env (PyStr.lower pn)) as [p|] eqn:Hp; [|done]. cbn [bind] in H.
  destruct (validate_config p config); [|done]. cbn [bind] in H.
  destruct (mapM _ (profiles config)); [|done]. cbn [bind] in H.
  injection H as <-. simpl. split; [done|]. split; [done|].
  destruct sn; by simplify_eq.
Qed.

Lemma run_container_creates pl reuse auto_remove force w c w' :
  Orchestrator.run_container env pl reuse auto_remove force w = Ok (c, w') ->
  exists evs,
    w_calls w' = w_calls w ++ evs
    /\ forall a, EvCreate a ∈ evs ->
         ca_name a = Orchestrator.container_name_of pl
         /\ ca_image a = Orchestrator.provider_tag_latest pl
         /\ ca_environment a = get_docker_env_vars (Orchestrator.pl_provider pl)
         /\ ca_auto_remove a = auto_remove.
Proof.
  unfold Orchestrator.run_container. intros H.
  destruct (Volumes.prepare_volumes _ _ _ _ _ _ _ _ _ _ _) as [[vols fs1]|]; [|done].
  cbn [bind] in H. cbv zeta in H. cbn [w_docker w_calls w_fs w_ticks] in H.
  assert (forall (args : CreateArgs) c0 w0,
            ca_name args = Orchestrator.container_name_of pl ->
            ca_image args = Orchestrator.provider_tag_latest pl ->
            ca_environment args = get_docker_env_vars (Orchestrator.pl_provider pl) ->
            ca_auto_remove args = auto_remove ->
            (r <- cm_create_container (manager env) args (w_docker w) ;;
             d <- cm_start_container (manager env) (fst r)
                    (w_docker (Orchestrator.with_docker
                                 (Build_world fs1 (w_docker w) (w_ticks w) (w_calls w))
                                 (snd r) (EvCreate args))) ;;
             Ok (fst r,
                 Orchestrator.with_docker
                   (Orchestrator.with_docker
                      (Build_world fs1 (w_docker w) (w_ticks w) (w_calls w))
                      (snd r) (EvCreate args))
                   d (EvStart (id_of (manager env) (fst r))))) = Ok (c0, w0) ->
            exists evs, w_calls w0 = w_calls w ++ evs
              /\ forall a, EvCreate a ∈ evs ->
                   ca_name a = Orchestrator.container_name_of pl
                   /\ ca_image a = Orchestrator.provider_tag_latest pl
                   /\ ca_environment a = get_docker_env_vars (Orchestrator.pl_provider pl)
                   /\ ca_auto_remove a = auto_remove) as Hcreate.
  { intros args c0 w0 A1 A2 A3 A4 Hc.
    destruct (cm_create_container (manager env) args (w_docker w)) as [[c1 d2]|]; [|done].
    cbn [bind fst snd] in Hc. unfold Orchestrator.with_docker in Hc.
    cbn [w_docker w_calls w_fs w_ticks] in Hc.
    destruct (cm_start_container (manager env) c1 d2) as [d3|]; [|done].
    cbn [bind] in Hc. injection Hc as <- <-. cbn [w_calls]. rewrite <- app_assoc.
    eexists. split; [done|].
    intros a [[= <-]|[?|?%elem_of_nil]%elem_of_cons]%elem_of_cons; done. }
  destruct (get_container (manager env) (Orchestrator.container_name_of pl) (w_docker w))
    as [existing|]; [|eapply (Hcreate _ c w'); [| | | |exact H]; reflexivity].
  destruct reuse; [|eapply (Hcreate _ c w'); [| | | |exact H]; reflexivity].
  destruct (is_container_running (manager env) _ (w_docker w)).
  - injection H as <- <-. exists []. rewrite app_nil_r. split; [done|].
    by intros a ?%elem_of_nil.
  - destruct (cm_start_container (manager env) existing (w_docker w)) as [d|]; [|done].
    cbn [bind] in H. injection H as <- <-. cbn [w_calls]. eexists. split; [done|].
    intros a [?|?%elem_of_nil]%elem_of_cons; done.
Qed.

End OrchestratorMore.

(** X14: [_ensure_image_exists] builds at most once and says so: when it
    returns, the image was tagged [latest] by its last call, preceded by
    one build exactly when it answers that a build occurred; without a
    build the image was there already, and a build was made only for an
    image that was missing or could not be tagged.  The files are not
    touched. *)
Theorem ensure_image_builds_when_needed {text E C : Type} (env : Env text E C)
    (image_tag_hash image_tag_latest dockerfile_content : string)
    (buildargs : list (string * string)) (cache_from : list string)
    (w w' : world text E) (build_occurred : bool) :
  Orchestrator._ensure_image_exists env image_tag_hash image_tag_latest dockerfile_content
    buildargs cache_from w = Ok (build_occurred, w') ->
  w_fs w' = w_fs w
  /\ w_calls w' = w_calls w
                  ++ (if build_occurred then [EvBuild image_tag_hash] else [])
                  ++ [EvTag image_tag_hash image_tag_latest]
  /\ (build_occurred = false ->
      image_exists (manager env) image_tag_hash (w_docker w) = true)
  /\ (build_occurred = true ->
      image_exists (manager env) image_tag_hash (w_docker w) = false
      \/ exists e, tag_image (manager env) image_tag_hash image_tag_latest (w_docker w)
                   = Raise e).
Proof.
  unfold Orchestrator._ensure_image_exists, Orchestrator.do_tag, Orchestrator._build_image,
    Orchestrator.with_docker.
  destruct (image_exists (manager env) image_tag_hash (w_docker w)) eqn:Hex.
  - destruct (tag_image (manager env) image_tag_hash image_tag_latest (w_docker w))
      as [d|e] eqn:Htag; cbn [bind].
    + intros [= <- <-]. simpl. by repeat split.
    + destruct (build_image (manager env) dockerfile_content image_tag_hash buildargs
                  cache_from (w_docker w)) as [d1|]; [|done].
      cbn [bind w_docker].
      destruct (tag_image (manager env) image_tag_hash image_tag_latest d1) as [d2|]; [|done].
      cbn [bind]. intros [= <- <-]. simpl. rewrite <- app_assoc.
      split; [done|]. split; [done|]. split; [done|]. intros _. right. by exists e.
  - destruct (build_image (manager env) dockerfile_content image_tag_hash buildargs
                cache_from (w_docker w)) as [d1|]; [|done].
    cbn [bind w_docker].
    destruct (negb (image_exists (manager env) image_tag_hash d1)); [done|].
    destruct (tag_image (manager env) image_tag_hash image_tag_latest d1) as [d2|]; [|done].
    cbn [bind]. intros [= <- <-]. simpl. rewrite <- app_assoc.
    split; [done|]. split; [done|]. split; [done|]. intros _. by left.
Qed.

Lemma ensure_image_builds_when_needed_witness :
  exists w' : world Sim.text Sim.docker,
    Orchestrator._ensure_image_exists Sim.env "aibox-demo-base:0f66a9f563f7"
      "aibox-demo-base:latest" "FROM debian:bookworm-slim" [] []
      (Sim.start_world Sim.empty_fs true) = Ok (true, w')
    /\ w_calls w' = [EvBuild "aibox-demo-base:0f66a9f563f7";
                     EvTag "aibox-demo-base:0f66a9f563f7" "aibox-demo-base:latest"].
Proof.
  assert (exists w' : world Sim.text Sim.docker,
            Orchestrator._ensure_image_exists Sim.env "aibox-demo-base:0f66a9f563f7"
              "aibox-demo-base:latest" "FROM debian:bookworm-slim" [] []
              (Sim.start_world Sim.empty_fs true) = Ok (true, w'))
    as [w' H] by (vm_compute; eauto).
  exists w'. split; [exact H|].
  by destruct (ensure_image_builds_when_needed Sim.env _ _ _ _ _ _ _ _ H) as (_ & -> & _).
Defined.

(** X15: [start_container] without a slot number and without a provider
    never starts anything: the slot it assigns is a free one, a free slot
    has no record to take the provider from, and the call ends with
    [AiboxError], or before that with [NoAvailableSlotsError] or the error
    of [load_config]. *)
Theorem start_without_slot_needs_provider {text E C : Type} (env : Env text E C)
    (ai_provider : option string) (reuse_existing auto_remove force_openai_auth_port : bool)
    (w : world text E) :
  ai_provider = None \/ ai_provider = Some "" ->
  match load_config env with
  | Raise e =>
      Orchestrator.start_container env None ai_provider
        reuse_existing auto_remove force_openai_auth_port w = Raise e
  | Ok _ =>
      match Slot.find_available_slot 10 1 (w_fs w) with
      | Raise _ =>
          Orchestrator.start_container env None ai_provider
            reuse_existing auto_remove force_openai_auth_port w = Raise NoAvailableSlotsError
      | Ok _ =>
          Orchestrator.start_container env None ai_provider
            reuse_existing auto_remove force_openai_auth_port w = Raise AiboxError
      end
  end.
Proof.
  intros Hprov. unfold Orchestrator.start_container, Orchestrator.make_plan.
  destruct (load_config env) as [config|e]; [|done]. cbn [bind].
  pose proof (find_from_spec (Z.to_nat (10 + 1 - 1)) 1 (w_fs w)) as Hfind.
  unfold Slot.find_available_slot.
  destruct (Slot.find_from (Z.to_nat (10 + 1 - 1)) 1 (w_fs w)) as [j|e].
  - destruct Hfind as (Hj & Hfree & _). cbn [bind].
    assert (Orchestrator.resolve_provider_name env j ai_provider w = Raise AiboxError) as ->.
    { assert (Slot.get_ai_provider (yaml_safe_load env) j (w_fs w) = Ok SNone) as Hnone.
      { unfold Slot.get_ai_provider, Slot.load. unfold Slot.exists_ in Hfree.
        by rewrite Hfree. }
      unfold Orchestrator.resolve_provider_name, Slot.get_slot. cbv zeta.
      destruct (j <? 1)%Z eqn:Hlt; [lia|]. cbn [bind]. rewrite Hnone. cbn [bind].
      by destruct Hprov as [-> | ->]. }
    done.
  - destruct Hfind as [-> _]. done.
Qed.

Lemma start_without_slot_needs_provider_witness :
  Orchestrator.start_container Sim.env None None true true false
    (Sim.start_world Sim.gapped_fs true) = Raise AiboxError.
Proof.
  pose proof (start_without_slot_needs_provider Sim.env None true true false
                (Sim.start_world Sim.gapped_fs true) (or_introl eq_refl)) as H.
  assert (Slot.find_available_slot 10 1 (w_fs (Sim.start_world Sim.gapped_fs true)) = Ok 1%Z)
    as Hf by (vm_compute; reflexivity).
  change (load_config Sim.env) with (Ok Sim.config : result Config) in H.
  cbv beta iota in H. rewrite Hf in H. exact H.
Defined.

(** X16: what a successful [start_container] reports is what it did: the
    slot is the one asked for, or else the first free one, and is 1 or
    more; the project name is the one of the configuration and the
    container is named [aibox-<project>-<slot>]; the provider is one of
    the registry; and a container created on the way has that name, the
    image [aibox-<project>-<provider>:latest], the environment of the
    provider and the auto-remove flag of the call. *)
Theorem start_reports_what_it_started {text E C : Type} (env : Env text E C)
    (slot_num : option Z) (provider : option string)
    (reuse_existing auto_remove force_openai_auth_port : bool)
    (w w' : world text E) (info : ContainerInfo) :
  Orchestrator.start_container env slot_num provider
    reuse_existing auto_remove force_openai_auth_port w = Ok (info, w') ->
  (1 <= slot_number info)%Z
  /\ match slot_num with
     | Some n => slot_number info = n
     | None => Slot.find_available_slot 10 1 (w_fs w) = Ok (slot_number info)
     end
  /\ (exists config,
        load_config env = Ok config
        /\ info_project_name info = project_name config
        /\ container_name info
           = "aibox-" +:+ project_name config +:+ "-" +:+ pretty (slot_number info))
  /\ (exists p, providers env (PyStr.lower (ai_provider info)) = Some p
         /\ exists evs,
              w_calls w' = w_calls w ++ evs
              /\ forall a, EvCreate a ∈ evs ->
                   ca_name a = container_name info
                   /\ ca_image a = "aibox-" +:+ info_project_name info +:+ "-"
                                   +:+ ai_provider info +:+ ":latest"
                   /\ ca_environment a = get_docker_env_vars p
                   /\ ca_auto_remove a = auto_remove).
Proof.
  intros H. unfold Orchestrator.start_container in H.
  destruct (Orchestrator.make_plan env slot_num provider w) as [pl|] eqn:Hplan; [|done].
  cbn [bind] in H.
  destruct (Orchestrator.ensure_images env pl w) as [[built w1]|] eqn:Himg; [|done].
  cbn [bind] in H.
  destruct (Orchestrator.cleanup_after_build env built w1) as [w2|] eqn:Hc; [|done].
  cbn [bind] in H.
  destruct (Orchestrator.run_container env pl _ _ _ w2) as [[c w3]|] eqn:Hr; [|done].
  cbn [bind] in H.
  destruct (Orchestrator.save_slot env pl w3) as [w4|] eqn:Hs; [|done].
  cbn [bind] in H. injection H as <- <-. cbn [slot_number container_name ai_provider
    info_project_name].
  destruct (make_plan_spec env _ _ _ _ Hplan) as (Hcfg & Hprov & Hslot).
  unfold Orchestrator.save_slot, Slot.get_slot in Hs.
  destruct (Orchestrator.pl_slot_number pl <? 1)%Z eqn:Hlt; [done|]. cbn [bind] in Hs.
  destruct (Slot.save _ _ _ _ _ _ _) as [fs4|]; [|done]. cbn [bind] in Hs.
  injection Hs as <-. cbn [w_calls].
  split; [lia|]. split; [done|]. split.
  { exists (Orchestrator.pl_config pl). by split. }
  exists (Orchestrator.pl_provider pl). split; [done|].
  unfold Orchestrator.ensure_images in Himg.
  destruct (Orchestrator.connect env w); [|done]. cbn [bind] in Himg.
  destruct (Orchestrator._ensure_image_exists env (Orchestrator.base_tag_hash pl) _ _ _ _ w)
    as [[b0 w0]|] eqn:Hbase; [|done]. cbn [bind snd] in Himg.
  destruct (ensure_image_exists_calls env _ _ _ _ _ _ _ _ Hbase) as (_ & evs0 & He0 & Hn0).
  destruct (ensure_image_exists_calls env _ _ _ _ _ _ _ _ Himg) as (_ & evs1 & He1 & Hn1).
  destruct (cleanup_after_build_spec env _ _ _ Hc) as (_ & _ & He2).
  destruct (run_container_creates env _ _ _ _ _ _ _ Hr) as (evs3 & He3 & Hcr).
  unfold extends in He2.
  exists (evs0 ++ evs1 ++ (if built then [EvPrune] else []) ++ evs3).
  split.
  { rewrite He3, He2, He1, He0. by rewrite <- !app_assoc. }
  intros cargs [Ha|[Ha|[Ha|Ha]%elem_of_app]%elem_of_app]%elem_of_app.
  - by apply Hn0 in Ha.
  - by apply Hn1 in Ha.
  - destruct built; [apply elem_of_cons in Ha as [?|?%elem_of_nil]|apply elem_of_nil in Ha];
      done.
  - exact (Hcr cargs Ha).
Qed.

Lemma start_reports_what_it_started_witness :
  exists info w',
    Orchestrator.start_container Sim.env None (Some "claude") true true false
      (Sim.start_world Sim.gapped_fs true) = Ok (info, w')
    /\ (1 <= slot_number info)%Z
    /\ Slot.find_available_slot 10 1 Sim.gapped_fs = Ok (slot_number info).
Proof.
  assert (exists info w',
            Orchestrator.start_container Sim.env None (Some "claude") true true false
              (Sim.start_world Sim.gapped_fs true) = Ok (info, w'))
    as (info & w' & H) by (vm_compute; eauto).
  exists info, w'. split; [exact H|].
  destruct (start_reports_what_it_started Sim.env None (Some "claude") true true false
              (Sim.start_world Sim.gapped_fs true) w' info H) as (H1 & H2 & _).
  split; [exact H1|exact H2].
Defined.

(** ** Cleaning up a slot *)

Lemma split_nonempty (sep : ascii) (s : string) : PyStr.split sep s <> [].
Proof.
  destruct s as [|c s]; simpl; [done|].
  destruct (Ascii.eqb c sep); [done|]. by destruct (PyStr.split sep s).
Qed.

Lemma split_app_sep (sep : ascii) (a b : string) :
  PyStr.split sep (a +:+ String sep b) = PyStr.split sep a ++ PyStr.split sep b.
Proof.
  induction a as [|c a IH]; simpl.
  - by rewrite Ascii.eqb_refl.
  - destruct (Ascii.eqb c sep); [by rewrite IH|].
    rewrite IH. pose proof (split_nonempty sep a) as Hne.
    by destruct (PyStr.split sep a).
Qed.

Lemma join_split (sep : ascii) (s : string) :
  Str.join (String sep "") (PyStr.split sep s) = s.
Proof.
  induction s as [|c s IH]; simpl; [done|].
  destruct (Ascii.eqb_spec c sep) as [->|Hne].
  - pose proof (split_nonempty sep s) as Hs.
    destruct (PyStr.split sep s) as [|w ws] eqn:Hw; [done|].
    change (Str.join (String sep "") ("" :: w :: ws))
      with ("" +:+ String sep "" +:+ Str.join (String sep "") (w :: ws)).
    by rewrite IH.
  - pose proof (split_nonempty sep s) as Hs.
    destruct (PyStr.split sep s) as [|w ws] eqn:Hw; [done|].
    destruct ws as [|w2 ws].
    + simpl in *. by rewrite IH.
    + change (Str.join (String sep "") (String c w :: w2 :: ws))
        with (String c (w +:+ String sep "" +:+ Str.join (String sep "") (w2 :: ws))).
      by rewrite <- IH.
Qed.

Lemma digit_not_dash (c : ascii) : is_digit c -> Ascii.eqb c "-" = false.
Proof. intros Hc. by apply digit_neq. Qed.

(** X17: [cleanup_slot] reads the project name back from the container
    name that [start_container] made: for a slot number of 1 or more,
    [aibox-<project>-<slot>] gives [<project>], dashes in the project name
    included. *)
Theorem project_name_read_back {text : Type} (project : string) (n : Z)
    (pl : @Orchestrator.plan text) :
  (1 <= n)%Z ->
  Cleanup.project_of_container ("aibox-" +:+ project +:+ "-" +:+ pretty n) = project
  /\ ((1 <= Orchestrator.pl_slot_number pl)%Z ->
      Cleanup.project_of_container (Orchestrator.container_name_of pl)
      = project_name (Orchestrator.pl_config pl)).
Proof.
  assert (forall p m, (1 <= m)%Z ->
            Cleanup.project_of_container ("aibox-" +:+ p +:+ "-" +:+ pretty m) = p) as H.
  { intros p m Hm. unfold Cleanup.project_of_container.
    change ("aibox-" +:+ p +:+ "-" +:+ pretty m)
      with ("aibox" +:+ String "-" (p +:+ String "-" (pretty m))).
    rewrite !split_app_sep.
    destruct (pretty_pos_spec m Hm) as (_ & Hdigits & _).
    rewrite (split_no_sep "-" (pretty m)).
    2:{ eapply Forall_impl; [exact Hdigits|]. apply digit_not_dash. }
    change (PyStr.split "-" "aibox") with ["aibox"].
    cbn [app hd tl String.eqb Ascii.eqb Bool.eqb andb].
    rewrite removelast_last, join_split.
    pose proof (split_nonempty "-" p) as Hp.
    rewrite length_cons, length_app. simpl.
    destruct (PyStr.split "-" p); [done|]. simpl. by rewrite Nat.add_1_r. }
  intros Hn. split; [by apply H|]. intros Hpl. by apply H.
Qed.

Lemma project_name_read_back_witness :
  Cleanup.project_of_container "aibox-my-web-app-3" = "my-web-app".
Proof.
  exact (proj1 (project_name_read_back (text := Sim.text) "my-web-app" 3
                  {| Orchestrator.pl_config := Sim.config;
                     Orchestrator.pl_slot_number := 3;
                     Orchestrator.pl_provider_name := "claude";
                     Orchestrator.pl_provider := Sim.claude;
                     Orchestrator.pl_base_dockerfile := "";
                     Orchestrator.pl_base_build_args := [] |} ltac:(lia))).
Defined.

Lemma prefix_app (s t : string) : String.prefix s (s +:+ t) = true.
Proof.
  induction s as [|c s IH]; simpl; [by destruct t|]. by destruct (ascii_dec c c).
Qed.

Lemma prefix_app_app (s t u : string) : String.prefix (s +:+ t) (s +:+ t +:+ u) = true.
Proof.
  induction s as [|c s IH]; [exact (prefix_app t u)|].
  simpl. by destruct (ascii_dec c c).
Qed.

Section ProviderImages.
Context {E : Type}.
Variable cmgr : CleanupManager E.
Variable image_repo : string.

Lemma remove_if_unused_log tag (st : @Cleanup.docker_state E) :
  String.prefix (image_repo +:+ ":") tag = true ->
  exists new,
    snd (snd (Cleanup.remove_if_unused cmgr tag st)) = snd st ++ new
    /\ Forall (unused_image_of_repo cmgr image_repo) new
    /\ (cl_is_image_in_use cmgr tag (fst st) = true ->
        Cleanup.remove_if_unused cmgr tag st = (false, st)).
Proof.
  intros Hpre. destruct st as [d log]. unfold Cleanup.remove_if_unused.
  destruct (cl_is_image_in_use cmgr tag d) eqn:Huse.
  - exists []. rewrite app_nil_r. split; [done|]. split; [constructor|done].
  - assert (Forall (unused_image_of_repo cmgr image_repo) [RemoveImage tag d]) as Hok.
    { by repeat constructor. }
    cbn [fst].
    destruct (cl_remove_image cmgr tag d) as [[b d']|e]; exists [RemoveImage tag d];
      (split; [done|]); (split; [done|]); intros; congruence.
Qed.

Lemma remove_if_unused_eq tag d (log : list (removal E)) :
  Cleanup.remove_if_unused cmgr tag (d, log)
  = if cl_is_image_in_use cmgr tag d then (false, (d, log))
    else match cl_remove_image cmgr tag d with
         | Ok (_, d') => (true, (d', log ++ [RemoveImage tag d]))
         | Raise _ => (false, (d, log ++ [RemoveImage tag d]))
         end.
Proof. reflexivity. Qed.

Lemma remove_tags_log tags : forall (acc : bool * @Cleanup.docker_state E),
  exists new,
    snd (snd (Cleanup.remove_tags cmgr image_repo tags acc)) = snd (snd acc) ++ new
    /\ Forall (unused_image_of_repo cmgr image_repo) new
    /\ ((forall tag d, cl_is_image_in_use cmgr tag d = true) ->
        Cleanup.remove_tags cmgr image_repo tags acc = acc).
Proof.
  unfold Cleanup.remove_tags.
  induction tags as [|tag tags IH]; intros [b [d log]]; cbn [fold_left].
  - exists []. by rewrite app_nil_r.
  - cbv beta. destruct (String.prefix (image_repo +:+ ":") tag) eqn:Hpre; cbn [negb];
      [|apply IH].
    cbn [snd fst]. rewrite remove_if_unused_eq.
    destruct (cl_is_image_in_use cmgr tag d) eqn:Huse; cbv iota beta.
    + rewrite orb_false_r. apply IH.
    + assert (unused_image_of_repo cmgr image_repo (RemoveImage tag d)) as Hok by done.
      destruct (cl_remove_image cmgr tag d) as [[x d']|e]; cbv iota beta.
      * destruct (IH (b || true, (d', log ++ [RemoveImage tag d])))
          as (new2 & Hl2 & Hok2 & _).
        exists (RemoveImage tag d :: new2). split; [|split].
        -- etrans; [exact Hl2|]. cbn [snd]. by rewrite <- app_assoc.
        -- by constructor.
        -- intros Hall. by rewrite Hall in Huse.
      * destruct (IH (b || false, (d, log ++ [RemoveImage tag d])))
          as (new2 & Hl2 & Hok2 & _).
        exists (RemoveImage tag d :: new2). split; [|split].
        -- etrans; [exact Hl2|]. cbn [snd]. by rewrite <- app_assoc.
        -- by constructor.
        -- intros Hall. by rewrite Hall in Huse.
Qed.

Lemma remove_images_log images : forall (acc : bool * @Cleanup.docker_state E),
  exists new,
    snd (snd (fold_left (fun acc tags => Cleanup.remove_tags cmgr image_repo tags acc)
                images acc)) = snd (snd acc) ++ new
    /\ Forall (unused_image_of_repo cmgr image_repo) new
    /\ ((forall tag d, cl_is_image_in_use cmgr tag d = true) ->
        fold_left (fun acc tags => Cleanup.remove_tags cmgr image_repo tags acc) images acc
        = acc).
Proof.
  induction images as [|tags images IH]; intros acc; cbn [fold_left].
  - exists []. by rewrite app_nil_r.
  - destruct (remove_tags_log tags acc) as (new1 & Hl1 & Hok1 & Hid1).
    destruct (IH (Cleanup.remove_tags cmgr image_repo tags acc)) as (new2 & Hl2 & Hok2 & Hid2).
    exists (new1 ++ new2). split; [|split].
    + etrans; [exact Hl2|]. rewrite app_assoc. f_equal. exact Hl1.
    + by apply Forall_app.
    + intros Huse. etrans; [exact (Hid2 Huse)|]. exact (Hid1 Huse).
Qed.

End ProviderImages.

(** X18: [_remove_provider_images] asks the daemon only for the removal
    of images: of tags of the repository [<image_repo>:...], each found
    not to be in use just before; where every image is in use the daemon
    is asked for nothing and stays as it is. *)
Theorem provider_images_in_use_are_kept {E : Type} (cmgr : CleanupManager E)
    (image_repo : string) (d : E) (log : list (removal E)) :
  exists new,
    snd (Cleanup._remove_provider_images cmgr image_repo (d, log)) = log ++ new
    /\ Forall (unused_image_of_repo cmgr image_repo) new
    /\ ((forall tag d0, cl_is_image_in_use cmgr tag d0 = true) ->
        Cleanup._remove_provider_images cmgr image_repo (d, log) = (d, log)).
Proof.
  unfold Cleanup._remove_provider_images. cbn [fst].
  match goal with
  | |- context [fold_left ?f ?l ?a] =>
      destruct (remove_images_log cmgr image_repo l a) as (new1 & Hl1 & Hok1 & Hid1);
      destruct (fold_left f l a) as [removed st1] eqn:Hfold
  end.
  cbn [snd] in Hl1.
  destruct removed.
  - exists new1. split; [done|]. split; [done|].
    intros Huse. by specialize (Hid1 Huse).
  - destruct (remove_if_unused_log cmgr image_repo (image_repo +:+ ":latest") st1)
      as (new2 & Hl2 & Hok2 & Hid2); [apply (prefix_app_app image_repo ":" "latest")|].
    exists (new1 ++ new2). split; [|split].
    + etrans; [exact Hl2|]. rewrite app_assoc. f_equal. exact Hl1.
    + by apply Forall_app.
    + intros Huse. rewrite (Hid2 (Huse _ _)). cbn [snd].
      specialize (Hid1 Huse). by injection Hid1 as <-.
Qed.

Lemma strict_sorted_filter (P : Z * dict -> Prop) `{!forall a, Decision (P a)}
    (L : list (Z * dict)) :
  StronglySorted (fun a b => (fst a < fst b)%Z) L ->
  StronglySorted (fun a b => (fst a < fst b)%Z) (filter P L).
Proof.
  induction 1 as [|a L Hs IH Hall]; [constructor|].
  rewrite filter_cons. destruct (decide (P a)); [|done].
  constructor; [done|]. apply Forall_forall. intros b [_ Hb]%list_elem_of_filter.
  by apply (proj1 (Forall_forall _ _) Hall).
Qed.

Lemma strict_sorted_same (L1 L2 : list (Z * dict)) :
  StronglySorted (fun a b => (fst a < fst b)%Z) L1 ->
  StronglySorted (fun a b => (fst a < fst b)%Z) L2 ->
  (forall a, a ∈ L1 <-> a ∈ L2) ->
  L1 = L2.
Proof.
  intros H1 H2 Hiff.
  apply (StronglySorted_unique_strong (fun a b : Z * dict => (fst a < fst b)%Z));
    [intros; lia|done|done|].
  apply NoDup_Permutation; [| |done].
  - apply (NoDup_fmap_1 fst). apply (strict_fst L1 H1).
  - apply (NoDup_fmap_1 fst). apply (strict_fst L2 H2).
Qed.

Lemma filter_other_all (n : Z) (L : list (Z * dict)) :
  n ∉ map fst L -> filter (fun a => fst a <> n) L = L.
Proof.
  induction L as [|a L IH]; [done|]. simpl. intros Hn.
  apply not_elem_of_cons in Hn as [Hne Hn].
  rewrite filter_cons. destruct (decide (fst a <> n)) as [_|Heq]; [by rewrite IH|].
  destruct Heq. congruence.
Qed.

Lemma filter_other_length (n : Z) (L : list (Z * dict)) :
  NoDup (map fst L) -> n ∈ map fst L ->
  (length (filter (fun a => fst a <> n) L) + 1 = length L)%nat.
Proof.
  induction L as [|a L IH]; simpl; [by intros _ ?%elem_of_nil|].
  intros [Ha Hnd]%NoDup_cons Hin. rewrite filter_cons.
  destruct (decide (fst a <> n)) as [Hne|Heq].
  - apply elem_of_cons in Hin as [->|Hin]; [done|]. simpl. by rewrite IH.
  - assert (fst a = n) as Hn by (destruct (decide (fst a = n)); [done|by destruct Heq]).
    rewrite Hn in Ha. rewrite filter_other_all by done. lia.
Qed.

Section CleanupSlot.
Context {text E : Type}.
Variable yaml_dump : yaml -> text.
Variable yaml_safe_load : text -> option yaml.
Variable cmgr : CleanupManager E.
Implicit Types (fs : node text) (root slots : gmap string (node text)).

Lemma get_default_lookup k v0 v (sd : dict) :
  Py.lookup k sd = Some v -> Cleanup.get_default k v0 sd = v.
Proof. unfold Cleanup.get_default. by intros ->. Qed.

Lemma delete_with_slots root slots n x :
  slots !! Slot.slot_name n = Some x ->
  Slot.delete n (with_slots root slots) = with_slots root (delete (Slot.slot_name n) slots).
Proof.
  intros Hx. unfold Slot.delete, Fs.exists_. rewrite lookup_slot_dir, Hx.
  unfold Fs.rmtree, Slot.slot_dir, Slot.slots_dir, with_slots. simpl app.
  rewrite detach_cons. rewrite lookup_insert_eq. cbn [mbind option_bind].
  cbn [Fs.detach]. rewrite Hx. cbn [mbind option_bind default].
  by rewrite insert_insert_eq.
Qed.

Lemma slots_parse_delete slots nm :
  slots_parse yaml_safe_load slots -> slots_parse yaml_safe_load (delete nm slots).
Proof. intros H nm' x [_ Hx]%lookup_delete_Some. by apply H. Qed.

Lemma holds_record_inj (x : node text) (d1 d2 : dict) :
  holds_record yaml_safe_load x d1 -> holds_record yaml_safe_load x d2 -> d1 = d2.
Proof.
  intros (es & t & -> & Hm & Hl & _) (es' & t' & [= <-] & Hm' & Hl' & _).
  rewrite Hm in Hm'. injection Hm' as <-. rewrite Hl in Hl'. by injection Hl'.
Qed.

Lemma listed_inj slots (a b : Z * dict) :
  listed yaml_safe_load slots a -> listed yaml_safe_load slots b -> fst a = fst b -> a = b.
Proof.
  destruct a as [i ea], b as [j eb]. simpl.
  intros (da & (xa & Hxa & Hra) & Hea) (db & (xb & Hxb & Hrb) & Heb) <-. simpl in *.
  rewrite Hxa in Hxb. injection Hxb as <-.
  rewrite Hea, Heb. by rewrite (holds_record_inj xa da db).
Qed.

Lemma listed_delete slots n (a : Z * dict) :
  listed yaml_safe_load (delete (Slot.slot_name n) slots) a
  <-> listed yaml_safe_load slots a /\ fst a <> n.
Proof.
  split.
  - intros (da & (xa & [Hne Hxa]%lookup_delete_Some & Hra) & Hea). split.
    + exists da. split; [by exists xa|done].
    + intros Heq. by rewrite Heq in Hne.
  - intros [(da & (xa & Hxa & Hra) & Hea) Hne]. exists da. split; [|done].
    exists xa. split; [|done]. apply lookup_delete_Some. split; [|done].
    intros Heq%slot_name_inj. done.
Qed.

Lemma listing_after_delete root slots n x (L L2 : list (Z * dict)) :
  slots !! Slot.slot_name n = Some x ->
  StronglySorted (fun a b => (fst a < fst b)%Z) L ->
  Forall (listed yaml_safe_load slots) L ->
  (forall j, j ∉ map fst L -> slots !! Slot.slot_name j = None) ->
  StronglySorted (fun a b => (fst a < fst b)%Z) L2 ->
  Forall (listed yaml_safe_load (delete (Slot.slot_name n) slots)) L2 ->
  (forall j, j ∉ map fst L2 -> delete (Slot.slot_name n) slots !! Slot.slot_name j = None) ->
  L2 = filter (fun a => fst a <> n) L
  /\ (length (filter (fun a => fst a <> n) L) + 1 = length L)%nat.
Proof.
  intros Hx Hs Hlisted Hfree Hs2 Hlisted2 Hfree2.
  assert (forall (M : list (Z * dict)) (sl : gmap string (node text)) j x',
            (forall j, j ∉ map fst M -> sl !! Slot.slot_name j = None) ->
            sl !! Slot.slot_name j = Some x' ->
            exists b, b ∈ M /\ fst b = j) as Hfind.
  { intros M sl j x' HM Hj.
    destruct (decide (j ∈ map fst M)) as [Hin|Hout].
    - apply list_elem_of_In, in_map_iff in Hin as (b & Hb & Hin).
      exists b. split; [by apply list_elem_of_In|done].
    - by rewrite (HM j Hout) in Hj. }
  split.
  - apply strict_sorted_same; [done|by apply strict_sorted_filter|].
    intros a. rewrite list_elem_of_filter. split.
    + intros Ha.
      pose proof (proj1 (Forall_forall _ _) Hlisted2 _ Ha) as Hla.
      apply listed_delete in Hla as [Hla Hne]. split; [done|].
      destruct Hla as (da & (xa & Hxa & Hra) & Hea).
      destruct (Hfind L slots (fst a) xa Hfree Hxa) as (b & Hb & Hfst).
      pose proof (proj1 (Forall_forall _ _) Hlisted _ Hb) as Hlb.
      assert (b = a) as <-; [|done].
      apply (listed_inj slots); [done| |done].
      exists da. split; [by exists xa|done].
    + intros [Hne Ha].
      pose proof (proj1 (Forall_forall _ _) Hlisted _ Ha) as Hla.
      assert (listed yaml_safe_load (delete (Slot.slot_name n) slots) a) as Hla2.
      { by apply listed_delete. }
      destruct Hla2 as (da & (xa & Hxa & Hra) & Hea).
      destruct (Hfind L2 _ (fst a) xa Hfree2 Hxa) as (b & Hb & Hfst).
      pose proof (proj1 (Forall_forall _ _) Hlisted2 _ Hb) as Hlb.
      assert (b = a) as <-; [|done].
      apply (listed_inj (delete (Slot.slot_name n) slots)); [done| |done].
      exists da. split; [by exists xa|done].
  - apply filter_other_length; [apply (strict_fst L Hs)|].
    destruct (Hfind L slots n x Hfree Hx) as (b & Hb & <-).
    apply list_elem_of_In, in_map. by apply list_elem_of_In.
Qed.

Lemma delete_then_renumber root slots n x :
  yaml_roundtrip yaml_dump yaml_safe_load ->
  slots_parse yaml_safe_load slots ->
  slots !! Slot.slot_name n = Some x ->
  exists (l : list dict) (L : list (Z * dict)) slots',
    Slot.list_slots yaml_safe_load (with_slots root slots) = Ok l
    /\ Slot.sorted_slots l = Ok L
    /\ Slot.renumber_slots yaml_dump yaml_safe_load
         (with_slots root (delete (Slot.slot_name n) slots)) = Ok (with_slots root slots')
    /\ slots_parse yaml_safe_load slots'
    /\ (length (filter (fun a => fst a <> n) L) + 1 = length L)%nat
    /\ (forall j, is_Some (slots' !! Slot.slot_name j)
                  <-> (1 <= j <= Z.of_nat (length (filter (fun a => fst a <> n) L)))%Z)
    /\ (forall idx a, filter (fun a => fst a <> n) L !! idx = Some a ->
          exists d', slot_ok yaml_safe_load slots' (1 + Z.of_nat idx) d'
                     /\ forall k, k <> "slot" -> Py.get k d' = Py.get k (snd a)).
Proof.
  intros Hrt Hparse Hx.
  destruct (list_slots_parse yaml_safe_load root slots Hparse)
    as (l & L & Hl & HL & _ & Hsorted & _ & Hlisted & Hfree).
  pose proof (slots_parse_delete slots (Slot.slot_name n) Hparse) as Hparse2.
  destruct (list_slots_parse yaml_safe_load root _ Hparse2)
    as (l2 & L2 & Hl2 & HL2 & _ & Hsorted2 & _ & Hlisted2 & Hfree2).
  destruct (renumber_slots_parse yaml_dump yaml_safe_load Hrt root _ Hparse2)
    as (l3 & L3 & slots' & Hl3 & HL3 & Hren & Hparse' & Hdom & Hkeep).
  rewrite Hl2 in Hl3. injection Hl3 as <-. rewrite HL2 in HL3. injection HL3 as <-.
  destruct (listing_after_delete root slots n x L L2) as [-> Hlen]; try done.
  by exists l, L, slots'.
Qed.

Lemma remove_slot_resources_stopped (sd : dict) (c : string) (d : E) :
  Py.lookup "container_name" sd = Some (SStr c) ->
  cl_is_container_running cmgr c d = false ->
  exists st, Cleanup.remove_slot_resources cmgr (Some (YMap sd)) d = Ok (Some st).
Proof.
  intros Hc Hrun. unfold Cleanup.remove_slot_resources.
  rewrite (get_default_lookup "container_name" _ _ sd Hc).
  destruct (Py.truthy_scalar (SStr c)); cbn [bind];
    (destruct (negb _ && Py.truthy_scalar _); [|by eauto]);
    (destruct (negb (cl_available cmgr d)); [by eauto|]);
    cbn [Py.str andb]; rewrite ?Hrun; eauto.
Qed.

End CleanupSlot.

(** X19: [cleanup_slot] leaves the slot of a running container alone.  For
    a slot [n >= 1] whose record names a container
    [aibox-<project>-<number>] and a provider, with the daemon reachable
    and the container running, nothing is asked of the daemon and no file
    is changed: the slot is neither deleted nor are the others
    renumbered. *)
Theorem cleanup_slot_skips_running_container {text E : Type}
    (yaml_dump : yaml -> text) (yaml_safe_load : text -> option yaml)
    (cmgr : CleanupManager E) (n : Z) (fs : node text) (d : E) (sd : dict) (c : string) :
  (1 <= n)%Z ->
  Slot.load yaml_safe_load n fs = Some (YMap sd) ->
  Py.lookup "container_name" sd = Some (SStr c) ->
  Cleanup.project_of_container c <> "" ->
  Py.truthy_scalar (Cleanup.get_default "ai_provider" (SStr "") sd) = true ->
  cl_available cmgr d = true ->
  cl_is_container_running cmgr c d = true ->
  Cleanup.cleanup_slot yaml_dump yaml_safe_load cmgr n fs d = Ok (fs, (d, [])).
Proof.
  intros Hn Hload Hc Hproj Hprov Hav Hrun.
  unfold Cleanup.cleanup_slot, Slot.get_slot.
  destruct (Z.ltb_spec n 1) as [|_]; [lia|]. cbn [bind]. rewrite Hload.
  unfold Cleanup.remove_slot_resources.
  rewrite (get_default_lookup "container_name" _ _ sd Hc), Hprov.
  assert (Py.truthy_scalar (SStr c) = true) as ->.
  { simpl. destruct (String.eqb_spec c "") as [->|]; [|done]. by destruct Hproj. }
  cbn [bind].
  assert (String.eqb (Cleanup.project_of_container c) "" = false) as ->.
  { by apply String.eqb_neq. }
  cbn [negb andb Py.str]. by rewrite Hav, Hrun.
Qed.

Lemma cleanup_slot_skips_running_container_witness :
  Cleanup.cleanup_slot Sim.dump Sim.safe_load SimCleanup.manager 2 Sim.gapped_fs
    ["aibox-demo-2"]
  = Ok (Sim.gapped_fs, (["aibox-demo-2"], [])).
Proof.
  apply (cleanup_slot_skips_running_container Sim.dump Sim.safe_load SimCleanup.manager
           2 Sim.gapped_fs ["aibox-demo-2"] Sim.gemini_record "aibox-demo-2").
  - lia.
  - vm_compute. reflexivity.
  - reflexivity.
  - vm_compute. intros H. discriminate H.
  - reflexivity.
  - reflexivity.
  - vm_compute. reflexivity.
Defined.

(** X20: [cleanup_slot] of a slot whose container is not running removes
    that slot and closes the gap, whatever the daemon answers to the
    removals.  This is for a well-formed store: the [slots] directory
    holds nothing but directories [slot-<n>] ([n >= 1], written in plain
    decimal), each with a record that loads as a non-empty mapping without
    a key [slot] of its own, and what [yaml.dump] writes [yaml.safe_load]
    reads back.  With [L] the listing in the order of the numbers and
    [rest] its entries other than that of [n]: the call returns, exactly
    the slots [1..length rest] exist afterwards, one fewer than were
    listed, and the i-th of [rest] is slot [i] with every field of its
    record as before. *)
Theorem cleanup_slot_removes_and_compacts {text E : Type}
    (yaml_dump : yaml -> text) (yaml_safe_load : text -> option yaml)
    (cmgr : CleanupManager E) (n : Z) (fs : node text) (d : E) (sd : dict) (c : string) :
  yaml_roundtrip yaml_dump yaml_safe_load ->
  all_records_parse yaml_safe_load fs ->
  Slot.load yaml_safe_load n fs = Some (YMap sd) ->
  Py.lookup "container_name" sd = Some (SStr c) ->
  cl_is_container_running cmgr c d = false ->
  exists (l : list dict) (L : list (Z * dict)) (fs' : node text)
         (st : E * list (removal E)),
    Slot.list_slots yaml_safe_load fs = Ok l
    /\ Slot.sorted_slots l = Ok L
    /\ Cleanup.cleanup_slot yaml_dump yaml_safe_load cmgr n fs d = Ok (fs', st)
    /\ (length (filter (fun a => fst a <> n) L) + 1 = length L)%nat
    /\ (forall m, Slot.exists_ m fs' = true
                  <-> (1 <= m <= Z.of_nat (length (filter (fun a => fst a <> n) L)))%Z)
    /\ (forall idx a, filter (fun a => fst a <> n) L !! idx = Some a ->
          exists d', Slot.load yaml_safe_load (1 + Z.of_nat idx) fs' = Some (YMap d')
                     /\ forall k, k <> "slot" -> Py.get k d' = Py.get k (snd a)).
Proof.
  intros Hrt (root & -> & Hslots) Hload Hc Hrun.
  destruct (root !! "slots") as [[t|slots]|] eqn:Hr; [done| |].
  2: { apply load_exists in Hload.
       unfold Slot.exists_, Fs.exists_, Slot.config_path, Slot.slot_dir, Slot.slots_dir
         in Hload. simpl in Hload. by rewrite Hr in Hload. }
  rewrite (with_slots_id root slots Hr) in *.
  destruct (slots !! Slot.slot_name n) as [x|] eqn:Hx.
  2: { by rewrite (proj2 (exists_absent yaml_safe_load root slots n Hx)) in Hload. }
  destruct (Hslots _ _ Hx) as (n' & dn & Hn & Heq%slot_name_inj & Hrec). subst n'.
  destruct (delete_then_renumber yaml_dump yaml_safe_load root slots n x Hrt Hslots Hx)
    as (l & L & slots' & Hl & HL & Hren & Hparse' & Hlen & Hdom & Hkeep).
  destruct (remove_slot_resources_stopped cmgr sd c d Hc Hrun) as [st Hst].
  exists l, L, (with_slots root slots'), st.
  split; [done|]. split; [done|]. split; [|split; [done|split]].
  - unfold Cleanup.cleanup_slot, Slot.get_slot.
    destruct (Z.ltb_spec n 1) as [|_]; [lia|]. cbn [bind]. rewrite Hload, Hst. cbn [bind].
    unfold Cleanup.delete_slot, Fs.is_file. rewrite lookup_slot_dir, Hx.
    destruct Hrec as (es & t & -> & _). cbn [bind].
    rewrite (delete_with_slots root slots n (Dir es) Hx), Hren. done.
  - intros m. rewrite <- Hdom. split.
    + intros Hex. destruct (slots' !! Slot.slot_name m) as [y|] eqn:Hm; [done|].
      by rewrite (proj1 (exists_absent yaml_safe_load root slots' m Hm)) in Hex.
    + intros [y Hy].
      destruct (Hparse' _ _ Hy) as (m' & dm & _ & Heq%slot_name_inj & Hrm). subst m'.
      eapply load_exists. exact (load_holds yaml_safe_load root slots' m y dm Hy Hrm).
  - intros idx a Ha. destruct (Hkeep idx a Ha) as (d' & (y & Hy & Hry) & Hget).
    exists d'. split; [|done].
    exact (load_holds yaml_safe_load root slots' _ y d' Hy Hry).
Qed.

Lemma cleanup_slot_removes_and_compacts_witness :
  exists (fs' : node Sim.text) (st : SimCleanup.daemon * list (removal SimCleanup.daemon)),
    Cleanup.cleanup_slot Sim.dump Sim.safe_load SimCleanup.manager 2 Sim.gapped_fs []
    = Ok (fs', st)
    /\ (forall m, Slot.exists_ m fs' = true <-> (1 <= m <= 1)%Z)
    /\ (exists d, Slot.load Sim.safe_load 1 fs' = Some (YMap d)
                  /\ Py.get "ai_provider" d = SStr "openai"
                  /\ Py.get "container_name" d = SStr "aibox-demo-5"
                  /\ Py.get "created_at" d = SStr "2024-06-05T08:00:00+00:00"
                  /\ Py.get "last_used" d = SStr "2024-06-06T09:30:00+00:00").
Proof.
  destruct (cleanup_slot_removes_and_compacts Sim.dump Sim.safe_load SimCleanup.manager
              2 Sim.gapped_fs [] Sim.gemini_record "aibox-demo-2"
              (fun y => eq_refl) gapped_fs_parses eq_refl eq_refl eq_refl)
    as (l & L & fs' & st & Hl & HL & Hclean & _ & Hex & Hkeep).
  eassert (Slot.list_slots Sim.safe_load Sim.gapped_fs = Ok _) as Hl0
    by (vm_compute; reflexivity).
  rewrite Hl0 in Hl. injection Hl as <-.
  match type of HL with
  | ?t = _ => eassert (t = Ok _) as HL0 by (vm_compute; reflexivity)
  end.
  rewrite HL0 in HL. injection HL as <-.
  exists fs', st. split; [exact Hclean|]. split; [exact Hex|].
  destruct (Hkeep 0%nat _ eq_refl) as (d & Hd & Hget).
  exists d. split; [exact Hd|].
  rewrite !Hget by done. repeat split; vm_compute; reflexivity.
Defined.

(** ** Cleaning up all slots *)

Section CleanupAll.
Context {text E : Type}.
Variable yaml_safe_load : text -> option yaml.
Variable cmgr : CleanupManager E.
Variable iterdir : gmap string (node text) -> list string.
Variable set_iter : list scalar -> list scalar.
Hypothesis Hiter : lists_entries iterdir.
Implicit Types (root slots : gmap string (node text)).

Lemma glob_slots_parse root slots :
  slots_parse yaml_safe_load slots ->
  NoDup (Cleanup.glob_slots iterdir (with_slots root slots))
  /\ forall nm, nm ∈ Cleanup.glob_slots iterdir (with_slots root slots)
                <-> is_Some (slots !! nm).
Proof.
  intros Hparse. unfold Cleanup.glob_slots, Slot.slots_dir. rewrite with_slots_lookup.
  cbn [Fs.lookup_path]. destruct (Hiter slots) as [Hnd Hin]. split.
  - by apply NoDup_filter.
  - intros nm. rewrite list_elem_of_filter, Hin. split; [by intros [_ ?]|].
    intros [x Hx]. split; [|by exists x].
    destruct (Hparse nm x Hx) as (n & dn & _ & -> & _). apply slot_name_prefix.
Qed.

Lemma slot_number_name (n : Z) :
  (1 <= n)%Z -> Cleanup.slot_number (Slot.slot_name n) = Some n.
Proof.
  intros Hn. unfold Cleanup.slot_number. rewrite (split_slot_name n Hn).
  cbn [nth_error]. by apply int_pretty.
Qed.

Lemma slot_entry_is_dir root slots n es :
  slots !! Slot.slot_name n = Some (Dir es) ->
  Fs.is_dir (Slot.slots_dir ++ [Slot.slot_name n]) (with_slots root slots) = true.
Proof.
  intros Hx. unfold Fs.is_dir.
  change (Slot.slots_dir ++ [Slot.slot_name n]) with (Slot.slot_dir n).
  by rewrite lookup_slot_dir, Hx.
Qed.

Lemma scan_entry_valid root slots (d : E) acc n x dn :
  (1 <= n)%Z ->
  slots !! Slot.slot_name n = Some x ->
  holds_record yaml_safe_load x dn ->
  (exists c, Cleanup.get_default "container_name" (SStr "") dn = SStr c) ->
  exists acc',
    Cleanup.scan_entry yaml_safe_load cmgr (cl_available cmgr d) d
      (with_slots root slots) acc (Slot.slot_name n) = Ok acc'
    /\ Cleanup.running_slots acc'
       = (if slot_running yaml_safe_load cmgr (with_slots root slots) d n
          then Cleanup.running_slots acc ++ [n] else Cleanup.running_slots acc)
    /\ Cleanup.slot_details acc'
       = Cleanup.slot_details acc
         ++ [(n, Cleanup.get_default "container_name" (SStr "") dn,
              Cleanup.get_default "ai_provider" (SStr "") dn)].
Proof.
  intros Hn Hx Hrec [c Hc].
  unfold Cleanup.scan_entry, slot_running.
  pose proof (load_holds yaml_safe_load root slots n x dn Hx Hrec) as Hload.
  pose proof Hrec as (es & t & -> & _).
  rewrite (slot_entry_is_dir root slots n es Hx), (slot_number_name n Hn).
  cbn [negb]. rewrite !Hload, !Hc.
  cbn [Py.truthy_scalar Cleanup.is_running].
  destruct (String.eqb (Cleanup.project_name acc) "" && negb (String.eqb c ""));
    cbn [bind]; destruct (cl_available cmgr d); cbn [andb];
    destruct (negb (String.eqb c "")); cbn [andb];
    try destruct (cl_is_container_running cmgr c d);
    (eexists; split; [reflexivity|]; split; reflexivity).
Qed.

Lemma scan_entries_valid root slots (d : E) names :
  Forall (fun nm => exists n x dn,
            (1 <= n)%Z /\ nm = Slot.slot_name n /\ slots !! nm = Some x
            /\ holds_record yaml_safe_load x dn
            /\ exists c, Cleanup.get_default "container_name" (SStr "") dn = SStr c)
         names ->
  forall acc, exists s,
    Cleanup.scan_entries yaml_safe_load cmgr (cl_available cmgr d) d
      (with_slots root slots) names acc = Ok s
    /\ (forall m, m ∈ Cleanup.running_slots s
          <-> m ∈ Cleanup.running_slots acc
              \/ (Slot.slot_name m ∈ names
                  /\ slot_running yaml_safe_load cmgr (with_slots root slots) d m = true))
    /\ (forall det, det ∈ Cleanup.slot_details s ->
          det ∈ Cleanup.slot_details acc
          \/ exists dn,
               Slot.load yaml_safe_load (fst (fst det)) (with_slots root slots)
               = Some (YMap dn)
               /\ snd (fst det) = Cleanup.get_default "container_name" (SStr "") dn).
Proof.
  induction 1 as [|nm names (n & x & dn & Hn & -> & Hx & Hrec & Hc) _ IH]; intros acc.
  { exists acc. split; [done|]. split; [|by left].
    intros m. split; [by left|]. intros [?|[[]%elem_of_nil _]]. done. }
  destruct (scan_entry_valid root slots d acc n x dn Hn Hx Hrec Hc)
    as (acc1 & Hstep & Hrun1 & Hdet1).
  destruct (IH acc1) as (s & Hs & Hrun & Hdet).
  exists s. cbn [Cleanup.scan_entries]. rewrite Hstep. cbn [bind].
  split; [done|]. split.
  - intros m. rewrite Hrun, Hrun1, elem_of_cons.
    destruct (slot_running yaml_safe_load cmgr (with_slots root slots) d n) eqn:Hr.
    + rewrite elem_of_app, list_elem_of_singleton. split.
      * intros [[? | ->] | [? ?]]; [by left|right; split; [by left|done]|].
        right. split; [by right|done].
      * intros [?|[[Heq%slot_name_inj|?] ?]]; [by left; left| |by right].
        subst m. left. by right.
    + split.
      * intros [?|[? ?]]; [by left|]. right. split; [by right|done].
      * intros [?|[[Heq%slot_name_inj|?] Hm]]; [by left| |by right].
        subst m. congruence.
  - intros det Hin. destruct (Hdet det Hin) as [Hin1|?]; [|by right].
    rewrite Hdet1 in Hin1. apply elem_of_app in Hin1 as [?|Heq%list_elem_of_singleton];
      [by left|].
    right. subst det. exists dn. split; [|done].
    exact (load_holds yaml_safe_load root slots n x dn Hx Hrec).
Qed.

Lemma remove_stopped_log (d0 : E) (running : list Z)
    (details : list (Z * scalar * scalar)) :
  Forall (fun det => fst (fst det) ∉ running ->
            exists c, snd (fst det) = SStr c
                      /\ (Py.truthy_scalar (SStr c) = true ->
                          cl_is_container_running cmgr c d0 = false))
         details ->
  forall st : @Cleanup.docker_state E, exists new,
    snd (Cleanup.remove_stopped cmgr running details st) = snd st ++ new
    /\ Forall (stopped_container_removal cmgr d0) new.
Proof.
  unfold Cleanup.remove_stopped.
  induction 1 as [|[[n name] p] details Hdet _ IH]; intros st; cbn [fold_left].
  { exists []. by rewrite app_nil_r. }
  cbn [fst snd] in Hdet.
  destruct (bool_decide (n ∈ running)) eqn:Hin; [apply IH|].
  apply bool_decide_eq_false in Hin. destruct (Hdet Hin) as (c & -> & Hstop).
  destruct (Py.truthy_scalar (SStr c)) eqn:Htr; [|apply IH].
  cbn [Cleanup.remove_container_any]. destruct st as [d log].
  unfold Cleanup.remove_container_quietly.
  destruct (cl_remove_container cmgr c d) as [d'|e].
  - destruct (IH (d', log ++ [RemoveContainer c d])) as (new & Hl & Hok).
    exists (RemoveContainer c d :: new). split.
    + etrans; [exact Hl|]. cbn [snd]. by rewrite <- app_assoc.
    + constructor; [by apply Hstop|done].
  - destruct (IH (d, log ++ [RemoveContainer c d])) as (new & Hl & Hok).
    exists (RemoveContainer c d :: new). split.
    + etrans; [exact Hl|]. cbn [snd]. by rewrite <- app_assoc.
    + constructor; [by apply Hstop|done].
Qed.

Lemma remove_provider_images_log (image_repo : string) (st : @Cleanup.docker_state E) :
  exists new,
    snd (Cleanup._remove_provider_images cmgr image_repo st) = snd st ++ new
    /\ Forall (unused_image_of_repo cmgr image_repo) new.
Proof.
  unfold Cleanup._remove_provider_images.
  match goal with
  | |- context [fold_left ?f ?l ?a] =>
      destruct (remove_images_log cmgr image_repo l a) as (new1 & Hl1 & Hok1 & _);
      destruct (fold_left f l a) as [removed st1] eqn:Hfold
  end.
  cbn [snd] in Hl1.
  destruct removed; [by exists new1|].
  destruct (remove_if_unused_log cmgr image_repo (image_repo +:+ ":latest") st1)
    as (new2 & Hl2 & Hok2 & _); [apply (prefix_app_app image_repo ":" "latest")|].
  exists (new1 ++ new2). split; [|by apply Forall_app].
  etrans; [exact Hl2|]. rewrite app_assoc. f_equal. exact Hl1.
Qed.

Lemma remove_images_of_log (project : string) (provs : list scalar) :
  forall st : @Cleanup.docker_state E, exists new,
    snd (Cleanup.remove_images_of cmgr project provs st) = snd st ++ new
    /\ Forall (fun r => exists repo, unused_image_of_repo cmgr repo r) new.
Proof.
  unfold Cleanup.remove_images_of.
  induction provs as [|p provs IH]; intros st; cbn [fold_left].
  { exists []. by rewrite app_nil_r. }
  destruct (remove_provider_images_log ("aibox-" +:+ project +:+ "-" +:+ Py.str p) st)
    as (new1 & Hl1 & Hok1).
  destruct (IH (Cleanup._remove_provider_images cmgr
                  ("aibox-" +:+ project +:+ "-" +:+ Py.str p) st)) as (new2 & Hl2 & Hok2).
  exists (new1 ++ new2). split.
  - etrans; [exact Hl2|]. rewrite app_assoc. f_equal. exact Hl1.
  - apply Forall_app. split; [|done].
    eapply Forall_impl; [exact Hok1|]. intros r Hr. by eexists.
Qed.

Lemma delete_entries_spec root (running : list Z) (names : list string) :
  NoDup names ->
  forall slots,
    (forall nm, nm ∈ names ->
       exists n es, (1 <= n)%Z /\ nm = Slot.slot_name n /\ slots !! nm = Some (Dir es)) ->
    exists slots',
      Cleanup.delete_entries running names (with_slots root slots)
      = Ok (with_slots root slots')
      /\ forall j, slots' !! Slot.slot_name j
                   = if bool_decide (Slot.slot_name j ∈ names /\ j ∉ running)
                     then None else slots !! Slot.slot_name j.
Proof.
  induction 1 as [|nm names Hnotin Hnd IH]; intros slots Hnames.
  { exists slots. split; [done|]. intros j. rewrite bool_decide_eq_false_2; [done|].
    by intros [[]%elem_of_nil _]. }
  destruct (Hnames nm) as (n & es & Hn & -> & Hx); [by left|].
  cbn [Cleanup.delete_entries]. unfold Cleanup.delete_entry.
  rewrite (slot_entry_is_dir root slots n es Hx), (slot_number_name n Hn). cbn [negb].
  destruct (bool_decide (n ∈ running)) eqn:Hrun; cbn [bind].
  - apply bool_decide_eq_true in Hrun.
    destruct (IH slots) as (slots' & Hdel & Hlook).
    { intros nm Hnm. apply Hnames. by right. }
    exists slots'. split; [done|]. intros j. rewrite Hlook.
    destruct (decide (j = n)) as [->|Hne].
    + rewrite !bool_decide_eq_false_2; [done| |]; by intros [_ ?].
    + match goal with
      | |- (if bool_decide ?P then _ else _) = (if bool_decide ?Q then _ else _) =>
          rewrite (bool_decide_ext P Q); [done|]
      end. rewrite elem_of_cons. split; [by intros [? ?]; split; [right|]|].
      intros [[Heq%slot_name_inj|?] ?]; [done|by split].
  - apply bool_decide_eq_false in Hrun.
    unfold Cleanup.delete_slot, Fs.is_file. rewrite lookup_slot_dir, Hx. cbn [bind].
    rewrite (delete_with_slots root slots n (Dir es) Hx).
    destruct (IH (delete (Slot.slot_name n) slots)) as (slots' & Hdel & Hlook).
    { intros nm Hnm. destruct (Hnames nm) as (n' & es' & Hn' & -> & Hx'); [by right|].
      exists n', es'. split; [done|]. split; [done|].
      rewrite lookup_delete_ne; [done|]. intros Heq. by rewrite Heq in Hnotin. }
    exists slots'. split; [done|]. intros j. rewrite Hlook.
    destruct (decide (j = n)) as [->|Hne].
    + rewrite lookup_delete_eq.
      rewrite (bool_decide_eq_false_2 (Slot.slot_name n ∈ names /\ _)); [|by intros [? _]].
      rewrite bool_decide_eq_true_2; [done|]. split; [by left|done].
    + rewrite lookup_delete_ne by (by intros Heq%slot_name_inj).
      match goal with
      | |- (if bool_decide ?P then _ else _) = (if bool_decide ?Q then _ else _) =>
          rewrite (bool_decide_ext P Q); [done|]
      end. rewrite elem_of_cons. split; [by intros [? ?]; split; [right|]|].
      intros [[Heq%slot_name_inj|?] ?]; [done|by split].
Qed.

Lemma scan_all_parse root slots (d : E) :
  slots_parse yaml_safe_load slots ->
  names_are_str yaml_safe_load (with_slots root slots) ->
  exists s,
    Cleanup.scan_entries yaml_safe_load cmgr (cl_available cmgr d) d
      (with_slots root slots) (Cleanup.glob_slots iterdir (with_slots root slots))
      {| Cleanup.providers := []; Cleanup.project_name := "";
         Cleanup.running_slots := []; Cleanup.slot_details := [] |} = Ok s
    /\ (forall m, m ∈ Cleanup.running_slots s
                  <-> slot_running yaml_safe_load cmgr (with_slots root slots) d m = true)
    /\ Forall (fun det => fst (fst det) ∉ Cleanup.running_slots s ->
                 exists c, snd (fst det) = SStr c
                           /\ (Py.truthy_scalar (SStr c) = true ->
                               cl_available cmgr d = true ->
                               cl_is_container_running cmgr c d = false))
              (Cleanup.slot_details s).
Proof.
  intros Hparse Hstr.
  destruct (glob_slots_parse root slots Hparse) as [Hnd Hin].
  destruct (scan_entries_valid root slots d
              (Cleanup.glob_slots iterdir (with_slots root slots)))
    with (acc := {| Cleanup.providers := []; Cleanup.project_name := "";
                    Cleanup.running_slots := []; Cleanup.slot_details := [] |})
    as (s & Hs & Hrun & Hdet).
  { apply Forall_forall. intros nm [x Hx]%Hin.
    destruct (Hparse nm x Hx) as (n & dn & Hn & -> & Hrec).
    exists n, x, dn. repeat (split; [done|]).
    apply (Hstr n). exact (load_holds yaml_safe_load root slots n x dn Hx Hrec). }
  assert (forall m, m ∈ Cleanup.running_slots s
                    <-> slot_running yaml_safe_load cmgr (with_slots root slots) d m = true)
    as Hrun'.
  { intros m. rewrite Hrun. cbn [Cleanup.running_slots]. split.
    - intros [[]%elem_of_nil|[_ ?]]. done.
    - intros Hm. right. split; [|done]. apply Hin.
      destruct (slots !! Slot.slot_name m) as [x|] eqn:Hx; [done|].
      unfold slot_running in Hm.
      rewrite (proj2 (exists_absent yaml_safe_load root slots m Hx)) in Hm.
      by rewrite andb_false_r in Hm. }
  exists s. split; [done|]. split; [done|].
  apply Forall_forall. intros [[n name] p] Hd Hout. cbn [fst snd] in *.
  destruct (Hdet _ Hd) as [[]%elem_of_nil|(dn & Hload & Hname)]. cbn [fst snd] in *.
  destruct (Hstr n dn Hload) as [c Hc]. exists c. split; [congruence|].
  intros Htr Hav.
  assert (slot_running yaml_safe_load cmgr (with_slots root slots) d n = false) as Hno.
  { destruct (slot_running yaml_safe_load cmgr (with_slots root slots) d n) eqn:Hr; [|done].
    by apply Hrun' in Hr. }
  unfold slot_running in Hno. rewrite Hload, Hc, Hav in Hno.
  cbn [Py.truthy_scalar] in Htr. rewrite Htr in Hno. exact Hno.
Qed.

Lemma cleanup_all_slots_parse root slots (d : E) :
  slots_parse yaml_safe_load slots ->
  names_are_str yaml_safe_load (with_slots root slots) ->
  exists s slots',
    Cleanup.cleanup_all_slots yaml_safe_load cmgr iterdir set_iter (with_slots root slots) d
    = Ok (with_slots root slots',
          if cl_available cmgr d && negb (String.eqb (Cleanup.project_name s) "")
             && bool_decide (Cleanup.running_slots s = [])
          then Cleanup.remove_images_of cmgr (Cleanup.project_name s)
                 (set_iter (Cleanup.providers s))
                 (if cl_available cmgr d
                  then Cleanup.remove_stopped cmgr (Cleanup.running_slots s)
                         (Cleanup.slot_details s) (d, [])
                  else (d, []))
          else if cl_available cmgr d
               then Cleanup.remove_stopped cmgr (Cleanup.running_slots s)
                      (Cleanup.slot_details s) (d, [])
               else (d, []))
    /\ (forall m, m ∈ Cleanup.running_slots s
                  <-> slot_running yaml_safe_load cmgr (with_slots root slots) d m = true)
    /\ Forall (fun det => fst (fst det) ∉ Cleanup.running_slots s ->
                 exists c, snd (fst det) = SStr c
                           /\ (Py.truthy_scalar (SStr c) = true ->
                               cl_available cmgr d = true ->
                               cl_is_container_running cmgr c d = false))
              (Cleanup.slot_details s)
    /\ (forall j, slots' !! Slot.slot_name j
                  = if slot_running yaml_safe_load cmgr (with_slots root slots) d j
                    then slots !! Slot.slot_name j else None).
Proof.
  intros Hparse Hstr.
  destruct (glob_slots_parse root slots Hparse) as [Hnd Hin].
  destruct (scan_all_parse root slots d Hparse Hstr) as (s & Hs & Hrun & Hdet).
  destruct (delete_entries_spec root (Cleanup.running_slots s)
              (Cleanup.glob_slots iterdir (with_slots root slots)) Hnd slots)
    as (slots' & Hdel & Hlook).
  { intros nm [x Hx]%Hin.
    destruct (Hparse nm x Hx) as (n & dn & Hn & -> & (es & t & -> & _)). by exists n, es. }
  exists s, slots'. split; [|split; [done|split; [done|]]].
  - unfold Cleanup.cleanup_all_slots, Fs.exists_, Slot.slots_dir.
    rewrite with_slots_lookup. cbn [Fs.lookup_path negb].
    change ["slots"] with Slot.slots_dir.
    rewrite Hs. cbn [bind]. rewrite Hdel. cbn [bind]. done.
  - intros j. rewrite Hlook.
    destruct (slot_running yaml_safe_load cmgr (with_slots root slots) d j) eqn:Hr.
    + apply Hrun in Hr. rewrite bool_decide_eq_false_2; [done|]. by intros [_ ?].
    + assert (j ∉ Cleanup.running_slots s) as Hout.
      { intros Hj%Hrun. congruence. }
      destruct (slots !! Slot.slot_name j) as [x|] eqn:Hx.
      * rewrite bool_decide_eq_true_2; [done|]. split; [|done]. apply Hin. by exists x.
      * by destruct (bool_decide _).
Qed.

End CleanupAll.

(** X21: [cleanup_all_slots] deletes the slots whose container is not
    running and keeps the others as they are.  In a store whose records
    all parse and name their container by a [str], whatever the order in
    which the directory is listed and whatever the daemon answers to the
    removals, the call returns; afterwards a slot exists exactly if its
    container was running, and it still has its number and its record:
    the slots that stay are not renumbered. *)
Theorem cleanup_all_slots_keeps_running_slots {text E : Type}
    (yaml_safe_load : text -> option yaml) (cmgr : CleanupManager E)
    (iterdir : gmap string (node text) -> list string)
    (set_iter : list scalar -> list scalar) (fs : node text) (d : E) :
  lists_entries iterdir ->
  all_records_parse yaml_safe_load fs ->
  names_are_str yaml_safe_load fs ->
  exists (fs' : node text) (st : E * list (removal E)),
    Cleanup.cleanup_all_slots yaml_safe_load cmgr iterdir set_iter fs d = Ok (fs', st)
    /\ forall m,
         Slot.load yaml_safe_load m fs'
         = (if slot_running yaml_safe_load cmgr fs d m
            then Slot.load yaml_safe_load m fs else None)
         /\ Slot.exists_ m fs' = slot_running yaml_safe_load cmgr fs d m.
Proof.
  intros Hiter (root & -> & Hslots) Hstr.
  destruct (root !! "slots") as [[t|slots]|] eqn:Hr; [done| |].
  - rewrite (with_slots_id root slots Hr) in *.
    destruct (cleanup_all_slots_parse yaml_safe_load cmgr iterdir set_iter Hiter
                root slots d Hslots Hstr) as (s & slots' & Hclean & _ & _ & Hlook).
    eexists _, _. split; [exact Hclean|]. intros m.
    specialize (Hlook m).
    destruct (slots !! Slot.slot_name m) as [x|] eqn:Hx.
    + destruct (Hslots _ _ Hx) as (m' & dm & _ & Heq%slot_name_inj & Hrec). subst m'.
      pose proof (load_holds yaml_safe_load root slots m x dm Hx Hrec) as Hload.
      destruct (slot_running yaml_safe_load cmgr (with_slots root slots) d m).
      * pose proof (load_holds yaml_safe_load root slots' m x dm Hlook Hrec) as Hload'.
        split; [congruence|]. by eapply load_exists.
      * destruct (exists_absent yaml_safe_load root slots' m Hlook) as [? ?]. done.
    + assert (slots' !! Slot.slot_name m = None) as Hnone.
      { by destruct (slot_running yaml_safe_load cmgr (with_slots root slots) d m). }
      destruct (exists_absent yaml_safe_load root slots' m Hnone) as [-> ->].
      unfold slot_running.
      rewrite (proj2 (exists_absent yaml_safe_load root slots m Hx)).
      by rewrite andb_false_r.
  - assert (forall m, Slot.load yaml_safe_load m (Dir root) = None) as Hload.
    { intros m. unfold Slot.load, Fs.exists_, Slot.config_path, Slot.slot_dir,
        Slot.slots_dir. simpl. by rewrite Hr. }
    exists (Dir root), (d, []). split.
    + unfold Cleanup.cleanup_all_slots, Fs.exists_, Slot.slots_dir. simpl. by rewrite Hr.
    + intros m. unfold slot_running. rewrite Hload, andb_false_r. split; [done|].
      unfold Slot.exists_, Fs.exists_, Slot.config_path, Slot.slot_dir, Slot.slots_dir.
      simpl. by rewrite Hr.
Qed.

(** X22: [cleanup_all_slots] spares what is in use.  In a store whose
    records all parse and name their container by a [str], every removal
    it asks of the daemon is that of a container that was not running when
    the call began, or that of an image found not to be in use just
    before; and while the container of any slot is running it asks for the
    removal of no image at all. *)
Theorem cleanup_all_slots_spares_what_runs {text E : Type}
    (yaml_safe_load : text -> option yaml) (cmgr : CleanupManager E)
    (iterdir : gmap string (node text) -> list string)
    (set_iter : list scalar -> list scalar) (fs : node text) (d : E) :
  lists_entries iterdir ->
  all_records_parse yaml_safe_load fs ->
  names_are_str yaml_safe_load fs ->
  exists (fs' : node text) (st : E * list (removal E)),
    Cleanup.cleanup_all_slots yaml_safe_load cmgr iterdir set_iter fs d = Ok (fs', st)
    /\ Forall (fun r => stopped_container_removal cmgr d r
                        \/ exists repo, unused_image_of_repo cmgr repo r) (snd st)
    /\ ((exists m, slot_running yaml_safe_load cmgr fs d m = true) ->
        Forall (stopped_container_removal cmgr d) (snd st)).
Proof.
  intros Hiter (root & -> & Hslots) Hstr.
  destruct (root !! "slots") as [[t|slots]|] eqn:Hr; [done| |].
  2: { exists (Dir root), (d, []). split; [|by split].
       unfold Cleanup.cleanup_all_slots, Fs.exists_, Slot.slots_dir. simpl.
       by rewrite Hr. }
  rewrite (with_slots_id root slots Hr) in *.
  destruct (cleanup_all_slots_parse yaml_safe_load cmgr iterdir set_iter Hiter
              root slots d Hslots Hstr) as (s & slots' & Hclean & Hrun & Hdet & _).
  eexists _, _. split; [exact Hclean|].
  destruct (cl_available cmgr d) eqn:Hav; cbn [andb]; [|by split].
  destruct (remove_stopped_log cmgr d (Cleanup.running_slots s) (Cleanup.slot_details s))
    with (st := (d, @nil (removal E))) as (new1 & Hl1 & Hok1).
  { eapply Forall_impl; [exact Hdet|]. intros det Hd Hout.
    destruct (Hd Hout) as (c & Hc & Hstop). exists c. split; [done|]. auto. }
  cbn [snd app] in Hl1.
  destruct (negb (String.eqb (Cleanup.project_name s) "")); cbn [andb].
  2: { rewrite Hl1. split; [|done].
       eapply Forall_impl; [exact Hok1|]. by left. }
  destruct (bool_decide (Cleanup.running_slots s = [])) eqn:Hnone.
  - destruct (remove_images_of_log cmgr (Cleanup.project_name s)
                (set_iter (Cleanup.providers s))
                (Cleanup.remove_stopped cmgr (Cleanup.running_slots s)
                   (Cleanup.slot_details s) (d, []))) as (new2 & Hl2 & Hok2).
    rewrite Hl2, Hl1. split.
    + apply Forall_app. split.
      * eapply Forall_impl; [exact Hok1|]. by left.
      * eapply Forall_impl; [exact Hok2|]. by right.
    + intros [m Hm%Hrun]. apply bool_decide_eq_true in Hnone.
      rewrite Hnone in Hm. by apply elem_of_nil in Hm.
  - rewrite Hl1. split; [|done].
    eapply Forall_impl; [exact Hok1|]. by left.
Qed.

Lemma sim_iterdir_lists : lists_entries SimCleanup.iterdir.
Proof.
  intros es. unfold SimCleanup.iterdir.
  change (map fst (map_to_list es)) with ((map_to_list es).*1). split.
  - apply NoDup_fst_map_to_list.
  - intros nm. rewrite list_elem_of_fmap. split.
    + intros ([nm' x] & -> & Hx%elem_of_map_to_list). by exists x.
    + intros [x Hx]. exists (nm, x). split; [done|]. by apply elem_of_map_to_list.
Qed.

Lemma gapped_names_are_str : names_are_str Sim.safe_load Sim.gapped_fs.
Proof.
  intros m sd Hload.
  change Sim.gapped_fs
    with (with_slots (text := Sim.text) ∅
            (<["slot-2" := Sim.slot_node Sim.gemini_record]>
               {[ "slot-5" := Sim.slot_node Sim.openai_record ]})) in Hload.
  match type of Hload with
  | Slot.load _ _ (with_slots _ ?sl) = _ => destruct (sl !! Slot.slot_name m) as [x|] eqn:Hx
  end.
  2: { by rewrite (proj2 (exists_absent Sim.safe_load _ _ m Hx)) in Hload. }
  pose proof Hx as Hx'.
  apply lookup_insert_Some in Hx' as [[_ <-]|[_ [_ <-]%lookup_singleton_Some]].
  - rewrite (load_holds Sim.safe_load _ _ m _ Sim.gemini_record Hx (record_holds _ _ _ _))
      in Hload.
    injection Hload as <-. by eexists.
  - rewrite (load_holds Sim.safe_load _ _ m _ Sim.openai_record Hx (record_holds _ _ _ _))
      in Hload.
    injection Hload as <-. by eexists.
Qed.

Lemma cleanup_all_slots_keeps_running_slots_witness :
  exists (fs' : node Sim.text) (st : SimCleanup.daemon * list (removal SimCleanup.daemon)),
    Cleanup.cleanup_all_slots Sim.safe_load SimCleanup.manager SimCleanup.iterdir
      SimCleanup.set_iter Sim.gapped_fs ["aibox-demo-5"] = Ok (fs', st)
    /\ Slot.exists_ 2 fs' = false
    /\ Slot.exists_ 5 fs' = true
    /\ Slot.load Sim.safe_load 5 fs' = Some (YMap Sim.openai_record).
Proof.
  destruct (cleanup_all_slots_keeps_running_slots Sim.safe_load SimCleanup.manager
              SimCleanup.iterdir SimCleanup.set_iter Sim.gapped_fs ["aibox-demo-5"]
              sim_iterdir_lists gapped_fs_parses gapped_names_are_str)
    as (fs' & st & Hclean & Hm).
  exists fs', st. split; [exact Hclean|].
  destruct (Hm 2%Z) as [_ H2]. destruct (Hm 5%Z) as [H5 H5'].
  split; [|split].
  - etrans; [exact H2|]. vm_compute. reflexivity.
  - etrans; [exact H5'|]. vm_compute. reflexivity.
  - etrans; [exact H5|]. vm_compute. reflexivity.
Defined.

Lemma cleanup_all_slots_spares_what_runs_witness :
  exists (fs' : node Sim.text) (st : SimCleanup.daemon * list (removal SimCleanup.daemon)),
    Cleanup.cleanup_all_slots Sim.safe_load SimCleanup.manager SimCleanup.iterdir
      SimCleanup.set_iter Sim.gapped_fs ["aibox-demo-5"] = Ok (fs', st)
    /\ Forall (stopped_container_removal SimCleanup.manager ["aibox-demo-5"]) (snd st).
Proof.
  destruct (cleanup_all_slots_spares_what_runs Sim.safe_load SimCleanup.manager
              SimCleanup.iterdir SimCleanup.set_iter Sim.gapped_fs ["aibox-demo-5"]
              sim_iterdir_lists gapped_fs_parses gapped_names_are_str)
    as (fs' & st & Hclean & _ & Hrun).
  exists fs', st. split; [exact Hclean|].
  apply Hrun. exists 5%Z. vm_compute. reflexivity.
Defined.

(** ** Volumes: the mounts of the provider paths *)

Lemma append_cancel_l (a x y : string) : a +:+ x = a +:+ y -> x = y.
Proof. induction a as [|c a IH]; simpl; [done|]. intros [= H]. by apply IH. Qed.

Lemma append_empty_r (x : string) : x +:+ "" = x.
Proof.
  induction x as [|c x IH]; [done|].
  change (String c x +:+ "") with (String c (x +:+ "")). by rewrite IH.
Qed.

Lemma append_assoc_s (x y z : string) : (x +:+ y) +:+ z = x +:+ (y +:+ z).
Proof.
  induction x as [|c x IH]; [done|].
  change (String c (x +:+ y) +:+ z = String c (x +:+ (y +:+ z))). by rewrite <- IH.
Qed.

Lemma concat_empty_cons (x : string) (xs : list string) :
  String.concat "" (x :: xs) = x +:+ String.concat "" xs.
Proof. destruct xs as [|y xs]; simpl; [|done]. by rewrite append_empty_r. Qed.

Lemma concat_empty_app (l1 l2 : list string) :
  String.concat "" (l1 ++ l2) = String.concat "" l1 +:+ String.concat "" l2.
Proof.
  induction l1 as [|x l1 IH]; [done|].
  change ((x :: l1) ++ l2) with (x :: (l1 ++ l2)).
  by rewrite !concat_empty_cons, IH, append_assoc_s.
Qed.

(** Two texts that go on with a slash or end, after pieces without a
    slash, have the same first piece. *)
Lemma piece_cancel (c1 c2 r1 r2 : string) :
  Forall (fun ch => ch <> "/"%char) (list_ascii_of_string c1) ->
  Forall (fun ch => ch <> "/"%char) (list_ascii_of_string c2) ->
  (r1 = "" \/ exists r, r1 = String "/" r) ->
  (r2 = "" \/ exists r, r2 = String "/" r) ->
  c1 +:+ r1 = c2 +:+ r2 -> c1 = c2 /\ r1 = r2.
Proof.
  revert c2. induction c1 as [|a c1 IH]; intros [|b c2] H1 H2 Hr1 Hr2 Heq.
  - split; [done|exact Heq].
  - change (r1 = String b (c2 +:+ r2)) in Heq. apply Forall_cons in H2 as [Hb _].
    destruct Hr1 as [|[r ?]]; simplify_eq.
  - change (String a (c1 +:+ r1) = r2) in Heq. apply Forall_cons in H1 as [Ha _].
    destruct Hr2 as [|[r ?]]; simplify_eq.
  - change (String a (c1 +:+ r1) = String b (c2 +:+ r2)) in Heq.
    injection Heq as -> Heq.
    apply Forall_cons in H1 as [_ H1]. apply Forall_cons in H2 as [_ H2].
    destruct (IH c2 H1 H2 Hr1 Hr2 Heq) as [-> ->]. done.
Qed.

Lemma slashed_inj (p q : path) :
  Forall (fun c => Forall (fun ch => ch <> "/"%char) (list_ascii_of_string c)) p ->
  Forall (fun c => Forall (fun ch => ch <> "/"%char) (list_ascii_of_string c)) q ->
  String.concat "" (map (fun c => "/" +:+ c) p) = String.concat "" (map (fun c => "/" +:+ c) q) ->
  p = q.
Proof.
  assert (forall l : path,
            String.concat "" (map (fun c => "/" +:+ c) l) = ""
            \/ exists r, String.concat "" (map (fun c => "/" +:+ c) l) = String "/" r) as Hshape.
  { intros [|c l]; [by left|]. right.
    change (map (fun c => "/" +:+ c) (c :: l))
      with (("/" +:+ c) :: map (fun c => "/" +:+ c) l).
    rewrite concat_empty_cons. by eexists. }
  revert q. induction p as [|c p IH]; intros [|c' q] Hp Hq.
  - done.
  - change (map (fun c => "/" +:+ c) (c' :: q))
      with (("/" +:+ c') :: map (fun c => "/" +:+ c) q).
    rewrite concat_empty_cons. done.
  - change (map (fun c => "/" +:+ c) (c :: p))
      with (("/" +:+ c) :: map (fun c => "/" +:+ c) p).
    rewrite concat_empty_cons. done.
  - change (map (fun c => "/" +:+ c) (c :: p))
      with (("/" +:+ c) :: map (fun c => "/" +:+ c) p).
    change (map (fun c => "/" +:+ c) (c' :: q))
      with (("/" +:+ c') :: map (fun c => "/" +:+ c) q).
    rewrite !concat_empty_cons.
    apply Forall_cons in Hp as [Hc Hp]. apply Forall_cons in Hq as [Hc' Hq].
    intros [= Heq].
    destruct (piece_cancel c c' _ _ Hc Hc' (Hshape p) (Hshape q) Heq) as [-> Hrest].
    by rewrite (IH q Hp Hq Hrest).
Qed.

Lemma parts_pieces (s : string) :
  Forall (fun c => Forall (fun ch => ch <> "/"%char) (list_ascii_of_string c))
         (Volumes.parts s).
Proof.
  unfold Volumes.parts. apply Forall_forall. intros c [_ Hc]%list_elem_of_filter.
  by apply (proj1 (Forall_forall _ _) (split_pieces "/" s)).
Qed.

(** Below one directory, paths made of pieces without a slash are told
    apart by their text. *)
Lemma host_str_below_inj (aibox_dir : string) (d p q : path) :
  Forall (fun c => Forall (fun ch => ch <> "/"%char) (list_ascii_of_string c)) p ->
  Forall (fun c => Forall (fun ch => ch <> "/"%char) (list_ascii_of_string c)) q ->
  Volumes.host_str aibox_dir (d ++ p) = Volumes.host_str aibox_dir (d ++ q) ->
  p = q.
Proof.
  intros Hp Hq. unfold Volumes.host_str. intros Heq%append_cancel_l.
  rewrite !map_app, !concat_empty_app in Heq. apply append_cancel_l in Heq.
  by apply slashed_inj.
Qed.

Lemma rfind_dot_none (s : string) : forall i,
  Forall (fun c => Ascii.eqb c "." = false) (list_ascii_of_string s) ->
  Volumes.rfind_dot i s = None.
Proof.
  induction s as [|c s IH]; intros i; simpl; [done|].
  intros [Hc Hs]%Forall_cons. by rewrite (IH _ Hs), Hc.
Qed.

Lemma pretty_no_dot (z : Z) :
  Forall (fun c => Ascii.eqb c "." = false) (list_ascii_of_string (pretty z)).
Proof.
  assert (forall p, Forall (fun c => Ascii.eqb c "." = false)
                      (list_ascii_of_string (pretty (Z.pos p)))) as Hpos.
  { intros p. destruct (pretty_pos_spec (Z.pos p)) as (_ & Hdig & _); [lia|].
    eapply Forall_impl; [exact Hdig|]. intros c Hc. by apply digit_neq. }
  destruct z as [|p|p]; [by repeat constructor|apply Hpos|].
  change (pretty (Z.neg p)) with (String "-" (pretty (Z.pos p))).
  constructor; [done|apply Hpos].
Qed.

(** The directory of a slot has no suffix. *)
Lemma slot_dir_suffix (slot_number : Z) : Volumes.suffix (Volumes.slot_dir slot_number) = "".
Proof.
  unfold Volumes.suffix, Volumes.slot_dir. cbn [List.last].
  unfold Volumes.suffix_of_name. rewrite rfind_dot_none; [done|].
  rewrite list_ascii_app. apply Forall_app. split; [by repeat constructor|].
  apply pretty_no_dot.
Qed.

Section ProviderMounts.
Context {text : Type}.
Variable aibox_dir : string.
Variable os_access chmod_ok : path -> bool.
Implicit Types (fs : node text) (vols : list (string * Mount)).

Lemma keeps_exists fs fs' :
  (forall q t, Fs.lookup_path q fs' = Some (File t) <-> Fs.lookup_path q fs = Some (File t)) ->
  (forall q, Fs.is_dir q fs = true -> Fs.is_dir q fs' = true) ->
  forall q, Fs.exists_ q fs = true -> Fs.exists_ q fs' = true.
Proof.
  intros Hf Hd q. unfold Fs.exists_.
  destruct (Fs.lookup_path q fs) as [[t|es]|] eqn:Hq; [| |done]; intros _.
  - by rewrite (proj2 (Hf q t) Hq).
  - apply is_dir_exists, Hd. unfold Fs.is_dir. by rewrite Hq.
Qed.

Lemma mount_provider_paths_app slot_number ps1 ps2 : forall (st : list (string * Mount) * node text),
  Volumes.mount_provider_paths aibox_dir os_access chmod_ok slot_number (ps1 ++ ps2) st
  = (st1 <- Volumes.mount_provider_paths aibox_dir os_access chmod_ok slot_number ps1 st ;;
     Volumes.mount_provider_paths aibox_dir os_access chmod_ok slot_number ps2 st1).
Proof.
  induction ps1 as [|p ps1 IH]; intros st; [done|].
  cbn [app Volumes.mount_provider_paths].
  destruct (Volumes.mount_provider_path aibox_dir os_access chmod_ok slot_number p st)
    as [st1|e]; [|done].
  cbn [bind]. apply IH.
Qed.

Lemma mount_provider_paths_exists slot_number ps vols fs vols' fs' :
  Volumes.mount_provider_paths aibox_dir os_access chmod_ok slot_number ps (vols, fs)
  = Ok (vols', fs') ->
  forall q, Fs.exists_ q fs = true -> Fs.exists_ q fs' = true.
Proof.
  intros H. destruct (mount_provider_paths_spec _ _ _ _ _ _ _ _ _ H) as ((Hf & Hd) & _).
  by apply keeps_exists.
Qed.

(** A round for a path that is there, or that has no suffix, and that
    can be used, mounts it. *)
Lemma round_mounts slot_number path_name vols fs vols' fs' :
  Volumes.mount_provider_path aibox_dir os_access chmod_ok slot_number path_name (vols, fs)
  = Ok (vols', fs') ->
  Fs.exists_ (Volumes.slot_dir slot_number ++ Volumes.parts path_name) fs = true
  \/ Volumes.suffix (Volumes.slot_dir slot_number ++ Volumes.parts path_name) = "" ->
  os_access (Volumes.slot_dir slot_number ++ Volumes.parts path_name) = true
  \/ chmod_ok (Volumes.slot_dir slot_number ++ Volumes.parts path_name) = true ->
  vols' = Py.set (Volumes.host_str aibox_dir
                    (Volumes.slot_dir slot_number ++ Volumes.parts path_name))
            {| bind_to := "/home/aibox/" +:+ path_name; mode := "rw" |} vols.
Proof.
  unfold Volumes.mount_provider_path, Volumes.rw.
  set (host_path := Volumes.slot_dir slot_number ++ Volumes.parts path_name).
  clearbody host_path. intros H Hthere Huse.
  assert (negb (os_access host_path) && negb (chmod_ok host_path) = false) as Hacc.
  { destruct Huse as [-> | ->]; [done|]. by rewrite andb_false_r. }
  destruct (Fs.exists_ host_path fs) eqn:Hex; cbn [negb andb bind] in H.
  - rewrite Hex in H. cbn [negb] in H.
    rewrite <- !andb_assoc, Hacc, !andb_false_r in H. by injection H as <- _.
  - destruct Hthere as [|Hsuf]; [done|]. rewrite Hsuf in H. cbn [String.eqb negb] in H.
    destruct (Fs.mkdir_p host_path fs) as [fs1|e] eqn:Hmk; [|done]. cbn [bind] in H.
    rewrite (is_dir_exists _ _ (mkdir_p_is_dir _ _ _ Hmk)) in H. cbn [negb] in H.
    rewrite <- !andb_assoc, Hacc, !andb_false_r in H. by injection H as <- _.
Qed.

Lemma round_other_key slot_number path_name vols fs vols' fs' k :
  Volumes.mount_provider_path aibox_dir os_access chmod_ok slot_number path_name (vols, fs)
  = Ok (vols', fs') ->
  Volumes.host_str aibox_dir (Volumes.slot_dir slot_number ++ Volumes.parts path_name) <> k ->
  Py.lookup k vols' = Py.lookup k vols.
Proof.
  intros H Hk.
  pose proof (mount_provider_path_round aibox_dir os_access chmod_ok slot_number path_name
                vols fs) as Hr.
  cbv zeta in Hr. rewrite H in Hr. destruct Hr as ([->| ->] & _); [done|].
  by apply lookup_set_ne.
Qed.

Lemma round_missing slot_number path_name vols fs vols' fs' :
  Volumes.mount_provider_path aibox_dir os_access chmod_ok slot_number path_name (vols, fs)
  = Ok (vols', fs') ->
  Fs.exists_ (Volumes.slot_dir slot_number ++ Volumes.parts path_name) fs' = false ->
  vols' = vols.
Proof.
  intros H Hex.
  pose proof (mount_provider_path_round aibox_dir os_access chmod_ok slot_number path_name
                vols fs) as Hr.
  cbv zeta in Hr. rewrite H in Hr. destruct Hr as (_ & _ & _ & _ & _ & Hno). by apply Hno.
Qed.

(** What a round does to the tree. *)
Lemma round_tree slot_number path_name vols fs vols' fs' :
  Volumes.mount_provider_path aibox_dir os_access chmod_ok slot_number path_name (vols, fs)
  = Ok (vols', fs') ->
  (fs' = fs
   /\ (Fs.exists_ (Volumes.slot_dir slot_number ++ Volumes.parts path_name) fs = true
       \/ Volumes.suffix (Volumes.slot_dir slot_number ++ Volumes.parts path_name) <> ""))
  \/ (Volumes.suffix (Volumes.slot_dir slot_number ++ Volumes.parts path_name) = ""
      /\ Fs.mkdir_p (Volumes.slot_dir slot_number ++ Volumes.parts path_name) fs = Ok fs').
Proof.
  intros H.
  pose proof (mount_provider_path_round aibox_dir os_access chmod_ok slot_number path_name
                vols fs) as Hr.
  cbv zeta in Hr. rewrite H in Hr.
  destruct Hr as (_ & _ & Hmk & Hskip & Hsame & _).
  destruct (Fs.exists_ (Volumes.slot_dir slot_number ++ Volumes.parts path_name) fs) eqn:Hex.
  - left. split; [by apply Hsame|by left].
  - destruct (decide (Volumes.suffix (Volumes.slot_dir slot_number
                                        ++ Volumes.parts path_name) = "")) as [Hs|Hs].
    + right. split; [done|]. by apply Hmk.
    + left. split; [by apply Hskip|by right].
Qed.

Lemma loop_other_keys slot_number ps k : forall vols fs vols' fs',
  Volumes.mount_provider_paths aibox_dir os_access chmod_ok slot_number ps (vols, fs)
  = Ok (vols', fs') ->
  (forall p, p ∈ ps ->
     Volumes.host_str aibox_dir (Volumes.slot_dir slot_number ++ Volumes.parts p) <> k) ->
  Py.lookup k vols' = Py.lookup k vols.
Proof.
  induction ps as [|p ps IH]; intros vols fs vols' fs'; cbn [Volumes.mount_provider_paths].
  { by intros [= <- <-]. }
  destruct (Volumes.mount_provider_path aibox_dir os_access chmod_ok slot_number p (vols, fs))
    as [[vols1 fs1]|e] eqn:Hstep; [|done].
  cbn [bind]. intros Hrest Hk.
  rewrite (IH _ _ _ _ Hrest); [|intros p' Hp'; apply Hk; by right].
  apply (round_other_key _ _ _ _ _ _ _ Hstep). apply Hk. by left.
Qed.

(** A host path that is not there in the end was never mounted. *)
Lemma loop_missing_key slot_number ps k : forall vols fs vols' fs',
  Volumes.mount_provider_paths aibox_dir os_access chmod_ok slot_number ps (vols, fs)
  = Ok (vols', fs') ->
  (forall p, p ∈ ps ->
     Volumes.host_str aibox_dir (Volumes.slot_dir slot_number ++ Volumes.parts p) = k ->
     Fs.exists_ (Volumes.slot_dir slot_number ++ Volumes.parts p) fs' = false) ->
  Py.lookup k vols' = Py.lookup k vols.
Proof.
  induction ps as [|p ps IH]; intros vols fs vols' fs'; cbn [Volumes.mount_provider_paths].
  { by intros [= <- <-]. }
  destruct (Volumes.mount_provider_path aibox_dir os_access chmod_ok slot_number p (vols, fs))
    as [[vols1 fs1]|e] eqn:Hstep; [|done].
  cbn [bind]. intros Hrest Hk.
  rewrite (IH _ _ _ _ Hrest); [|intros p' Hp'; apply Hk; by right].
  destruct (decide (Volumes.host_str aibox_dir
                      (Volumes.slot_dir slot_number ++ Volumes.parts p) = k)) as [Heq|Hne].
  - assert (Fs.exists_ (Volumes.slot_dir slot_number ++ Volumes.parts p) fs1 = false) as Hno.
    { destruct (Fs.exists_ (Volumes.slot_dir slot_number ++ Volumes.parts p) fs1) eqn:Hex;
        [|done].
      assert (Fs.exists_ (Volumes.slot_dir slot_number ++ Volumes.parts p) fs' = false)
        as Hend by (apply Hk; [by left|done]).
      by rewrite (mount_provider_paths_exists _ _ _ _ _ _ Hrest _ Hex) in Hend. }
    by rewrite (round_missing _ _ _ _ _ _ Hstep Hno).
  - by apply (round_other_key _ _ _ _ _ _ _ Hstep).
Qed.

(** The last round for a host path decides its mount. *)
Lemma loop_mounts slot_number ps1 path_name ps2 vols fs vols' fs' :
  Volumes.mount_provider_paths aibox_dir os_access chmod_ok slot_number
    (ps1 ++ path_name :: ps2) (vols, fs) = Ok (vols', fs') ->
  Fs.exists_ (Volumes.slot_dir slot_number ++ Volumes.parts path_name) fs = true
  \/ Volumes.suffix (Volumes.slot_dir slot_number ++ Volumes.parts path_name) = "" ->
  os_access (Volumes.slot_dir slot_number ++ Volumes.parts path_name) = true
  \/ chmod_ok (Volumes.slot_dir slot_number ++ Volumes.parts path_name) = true ->
  (forall p, p ∈ ps2 ->
     Volumes.host_str aibox_dir (Volumes.slot_dir slot_number ++ Volumes.parts p)
     <> Volumes.host_str aibox_dir (Volumes.slot_dir slot_number ++ Volumes.parts path_name)) ->
  Py.lookup (Volumes.host_str aibox_dir
               (Volumes.slot_dir slot_number ++ Volumes.parts path_name)) vols'
  = Some {| bind_to := "/home/aibox/" +:+ path_name; mode := "rw" |}.
Proof.
  rewrite mount_provider_paths_app. intros H Hthere Huse Hlater.
  destruct (Volumes.mount_provider_paths aibox_dir os_access chmod_ok slot_number ps1
              (vols, fs)) as [[vols_a fs_a]|e] eqn:H1; [|done].
  cbn [bind Volumes.mount_provider_paths] in H.
  destruct (Volumes.mount_provider_path aibox_dir os_access chmod_ok slot_number path_name
              (vols_a, fs_a)) as [[vols_b fs_b]|e] eqn:Hstep; [|done].
  cbn [bind] in H.
  rewrite (loop_other_keys _ _ _ _ _ _ _ H Hlater).
  rewrite (round_mounts _ _ _ _ _ _ Hstep); [apply lookup_set_eq| |done].
  destruct Hthere as [Hex|Hsuf]; [|by right].
  left. by apply (mount_provider_paths_exists _ _ _ _ _ _ H1).
Qed.

(** A path without a suffix is there after its round. *)
Lemma loop_creates slot_number ps : forall vols fs vols' fs',
  Volumes.mount_provider_paths aibox_dir os_access chmod_ok slot_number ps (vols, fs)
  = Ok (vols', fs') ->
  forall p, p ∈ ps ->
    Volumes.suffix (Volumes.slot_dir slot_number ++ Volumes.parts p) = "" ->
    Fs.exists_ (Volumes.slot_dir slot_number ++ Volumes.parts p) fs' = true.
Proof.
  induction ps as [|p0 ps IH]; intros vols fs vols' fs'; cbn [Volumes.mount_provider_paths].
  { intros _ p Hp. by apply elem_of_nil in Hp. }
  destruct (Volumes.mount_provider_path aibox_dir os_access chmod_ok slot_number p0 (vols, fs))
    as [[vols1 fs1]|e] eqn:Hstep; [|done].
  cbn [bind]. intros Hrest p Hp Hsuf.
  apply elem_of_cons in Hp as [->|Hp]; [|by apply (IH _ _ _ _ Hrest)].
  apply (mount_provider_paths_exists _ _ _ _ _ _ Hrest).
  destruct (round_tree _ _ _ _ _ _ Hstep) as [[-> [Hex|Hs]]|[_ Hmk]]; [done|done|].
  by apply is_dir_exists, (mkdir_p_is_dir _ _ _ Hmk).
Qed.

(** A path with a suffix below which no other path lies is left as it
    is. *)
Lemma loop_leaves slot_number (h : path) ps : forall vols fs vols' fs',
  Volumes.mount_provider_paths aibox_dir os_access chmod_ok slot_number ps (vols, fs)
  = Ok (vols', fs') ->
  Volumes.suffix h <> "" ->
  (forall p, p ∈ ps -> h `prefix_of` Volumes.slot_dir slot_number ++ Volumes.parts p ->
     Volumes.slot_dir slot_number ++ Volumes.parts p = h) ->
  Fs.lookup_path h fs' = Fs.lookup_path h fs.
Proof.
  induction ps as [|p0 ps IH]; intros vols fs vols' fs'; cbn [Volumes.mount_provider_paths].
  { by intros [= <- <-]. }
  destruct (Volumes.mount_provider_path aibox_dir os_access chmod_ok slot_number p0 (vols, fs))
    as [[vols1 fs1]|e] eqn:Hstep; [|done].
  cbn [bind]. intros Hrest Hsuf Hbelow.
  rewrite (IH _ _ _ _ Hrest Hsuf); [|intros p' Hp'; apply Hbelow; by right].
  destruct (round_tree _ _ _ _ _ _ Hstep) as [[-> _]|[Hs Hmk]]; [done|].
  apply (mkdir_p_frame _ _ _ _ Hmk). intros Hpre.
  rewrite (Hbelow p0) in Hs; [done|by left|done].
Qed.

End ProviderMounts.

(** C8, as amended: when [prepare_volumes] returns, its mounts have
    distinct host paths and it has created no file.  For a configuration
    path [p] of the provider, with host path [h] below the directory of
    the slot: a missing [h] without a suffix is there as a directory; a
    missing [h] with a suffix, below which no other configuration path
    lies, is still missing; an [h] that was there or has no suffix, that
    can be used ([os.access], or [chmod] succeeds) and that no later
    configuration path, Claude's [.claude.json] mount or custom mount
    names again, is mounted on [/home/aibox/<p>] read-write; an [h] that
    is not there in the end has no mount, unless it is the project
    directory or the source of a custom mount; and a custom mount whose
    source is [h], the last one for that source and not skipped, takes the
    place of the mount of [h], with its own target and mode. *)
Theorem provider_paths_mounted {text : Type}
    (aibox_dir project_dir : string) (os_access chmod_ok : path -> bool)
    (resolve : string -> string) (host_exists : string -> bool)
    (slot_number : Z) (provider_name : string) (mount_paths : list string)
    (custom_mounts : list MountConfig) (fs fs' : node text) (vols : list (string * Mount)) :
  Volumes.prepare_volumes aibox_dir project_dir os_access chmod_ok resolve host_exists
    slot_number provider_name mount_paths custom_mounts fs = Ok (vols, fs') ->
  NoDup (map fst vols)
  /\ (forall q t, Fs.lookup_path q fs' = Some (File t) <-> Fs.lookup_path q fs = Some (File t))
  /\ forall ps1 path_name ps2,
       mount_paths = ps1 ++ path_name :: ps2 ->
       let host_path := Volumes.slot_dir slot_number ++ Volumes.parts path_name in
       let key := Volumes.host_str aibox_dir host_path in
       (Fs.exists_ host_path fs = false -> Volumes.suffix host_path = "" ->
        Fs.is_dir host_path fs' = true)
       /\ (Fs.exists_ host_path fs = false -> Volumes.suffix host_path <> "" ->
           (forall p, p ∈ mount_paths ->
              host_path `prefix_of` Volumes.slot_dir slot_number ++ Volumes.parts p ->
              Volumes.slot_dir slot_number ++ Volumes.parts p = host_path) ->
           Fs.exists_ host_path fs' = false)
       /\ (Fs.exists_ host_path fs = true \/ Volumes.suffix host_path = "" ->
           os_access host_path = true \/ chmod_ok host_path = true ->
           (forall p, p ∈ ps2 ->
              Volumes.host_str aibox_dir (Volumes.slot_dir slot_number ++ Volumes.parts p)
              <> key) ->
           (provider_name = "claude" ->
            Volumes.host_str aibox_dir
              (Volumes.slot_dir slot_number ++ [".claude"; ".claude.json"]) <> key) ->
           (forall m, m ∈ custom_mounts -> resolve (source m) <> key) ->
           Py.lookup key vols
           = Some {| bind_to := "/home/aibox/" +:+ path_name; mode := "rw" |})
       /\ (Fs.exists_ host_path fs' = false ->
           project_dir <> key ->
           (forall m, m ∈ custom_mounts -> resolve (source m) <> key) ->
           Py.lookup key vols = None)
       /\ (forall cs1 m cs2,
             custom_mounts = cs1 ++ m :: cs2 ->
             resolve (source m) = key ->
             (mount_mode m = "ro" -> host_exists key = true) ->
             (forall m', m' ∈ cs2 -> resolve (source m') <> key) ->
             Py.lookup key vols = Some {| bind_to := target m; mode := mount_mode m |}).
Proof.
  unfold Volumes.prepare_volumes. intros H.
  destruct (Fs.mkdir_p (Volumes.slot_dir slot_number) fs) as [fs1|e] eqn:Hmk; [|done].
  cbn [bind] in H.
  destruct (Volumes.mount_provider_paths _ _ _ _ _ _) as [[vols1 fs2]|e] eqn:Hp; [|done].
  cbn [bind] in H. injection H as <- <-.
  destruct (mkdir_p_keeps _ _ _ Hmk) as [Hf1 Hd1].
  destruct (mount_provider_paths_spec _ _ _ _ _ _ _ _ _ Hp) as ((Hf2 & Hd2) & Hnd1 & _ & _).
  set (claude_json := Volumes.slot_dir slot_number ++ [".claude"; ".claude.json"]) in *.
  match goal with
  | |- context [fold_left _ custom_mounts ?v] => set (vols2 := v)
  end.
  assert (forall q t, Fs.lookup_path q fs2 = Some (File t)
                      <-> Fs.lookup_path q fs = Some (File t)) as Hfiles.
  { intros q t. by rewrite Hf2, Hf1. }
  split; [|split; [done|]].
  { apply mount_custom_fold. unfold vols2.
    case_match; [apply set_NoDup|]; apply Hnd1; simpl; apply NoDup_singleton. }
  intros ps1 path_name ps2 Hsplit.
  set (host_path := Volumes.slot_dir slot_number ++ Volumes.parts path_name).
  set (key := Volumes.host_str aibox_dir host_path).
  assert (path_name ∈ mount_paths) as Hin.
  { rewrite Hsplit. apply elem_of_app. right. by left. }
  destruct (mount_custom_fold resolve host_exists custom_mounts vols2) as (_ & _ & Hcustom).
  split; [|split; [|split; [|split]]].
  - intros Hex Hsuf.
    pose proof (loop_creates _ _ _ _ _ _ _ _ _ Hp path_name Hin Hsuf) as Hthere.
    fold host_path in Hthere. unfold Fs.exists_, Fs.is_dir in *.
    destruct (Fs.lookup_path host_path fs2) as [[t|es]|] eqn:Hq; [|done|done].
    apply Hfiles in Hq. by rewrite Hq in Hex.
  - intros Hex Hsuf Hbelow. unfold Fs.exists_ in *.
    rewrite (loop_leaves _ _ _ _ host_path _ _ _ _ _ Hp Hsuf Hbelow).
    rewrite (mkdir_p_frame _ _ _ _ Hmk); [done|].
    intros Hpre. apply prefix_length in Hpre. unfold host_path in Hpre, Hsuf.
    rewrite length_app in Hpre. destruct (Volumes.parts path_name); [|simpl in Hpre; lia].
    rewrite app_nil_r in Hsuf. by rewrite slot_dir_suffix in Hsuf.
  - intros Hthere Huse Hlater Hclaude Hnone.
    rewrite (Hcustom key Hnone).
    assert (Py.lookup key vols1
            = Some {| bind_to := "/home/aibox/" +:+ path_name; mode := "rw" |}) as Hv1.
    { rewrite Hsplit in Hp.
      apply (loop_mounts _ _ _ _ _ _ _ _ _ _ _ Hp); [|done|done].
      destruct Hthere as [Hex|Hsuf]; [|by right]. left.
      by apply (keeps_exists fs fs1 Hf1 Hd1). }
    unfold vols2. case_match eqn:Hcond; [|done].
    apply andb_true_iff in Hcond as [Hc%String.eqb_eq _].
    rewrite lookup_set_ne; [done|]. by apply Hclaude.
  - intros Hex Hproj Hnone.
    rewrite (Hcustom key Hnone).
    assert (forall q, Forall (fun c => Forall (fun ch => ch <> "/"%char)
                                        (list_ascii_of_string c)) q ->
              Volumes.host_str aibox_dir (Volumes.slot_dir slot_number ++ q) = key ->
              Fs.exists_ (Volumes.slot_dir slot_number ++ q) fs2 = false) as Hsame.
    { intros q Hq Heq.
      apply host_str_below_inj in Heq; [by subst q|done|apply parts_pieces]. }
    assert (Py.lookup key vols1 = None) as Hv1.
    { rewrite (loop_missing_key _ _ _ _ _ key _ _ _ _ Hp).
      - simpl. destruct (String.eqb_spec key project_dir) as [Heq|]; [|done].
        by destruct Hproj.
      - intros p _ Heq. apply Hsame; [apply parts_pieces|done]. }
    unfold vols2. case_match eqn:Hcond; [|done].
    apply andb_true_iff in Hcond as [_ Hcj].
    rewrite lookup_set_ne; [done|]. intros Heq.
    assert (Fs.exists_ (Volumes.slot_dir slot_number ++ [".claude"; ".claude.json"]) fs2
            = false) as Hno.
    { apply Hsame; [|exact Heq]. repeat constructor; by vm_compute. }
    exact (eq_true_false_abs _ Hcj Hno).
  - intros cs1 m cs2 -> Hsrc Hkept Hlater. rewrite fold_left_app. simpl.
    destruct (mount_custom_fold resolve host_exists cs2
                (Volumes.mount_custom resolve host_exists
                   (fold_left (Volumes.mount_custom resolve host_exists) cs1 vols2) m))
      as (_ & _ & H3).
    rewrite (H3 _ Hlater). unfold Volumes.mount_custom. rewrite Hsrc.
    assert (String.eqb (mount_mode m) "ro" && negb (host_exists key) = false) as ->.
    { destruct (String.eqb_spec (mount_mode m) "ro") as [Hro|]; [|done].
      by rewrite (Hkept Hro). }
    apply lookup_set_eq.
Qed.

Lemma provider_paths_mounted_witness :
  exists vols (fs' : node Sim.text),
    Volumes.prepare_volumes "/home/u/.aibox/projects/demo-0a1b2c3d" "/home/u/demo"
      (fun _ => true) (fun _ => true) (fun s => s) (fun _ => true)
      2 "claude" [".claude"; ".claude.json"]
      [ {| source := "/data"; target := "/data"; mount_mode := "rw" |} ]
      Sim.gapped_fs = Ok (vols, fs')
    /\ Fs.is_dir ["slots"; "slot-2"; ".claude"] fs' = true
    /\ Py.lookup "/home/u/.aibox/projects/demo-0a1b2c3d/slots/slot-2/.claude" vols
       = Some {| bind_to := "/home/aibox/.claude"; mode := "rw" |}
    /\ Fs.exists_ ["slots"; "slot-2"; ".claude.json"] fs' = false
    /\ Py.lookup "/home/u/.aibox/projects/demo-0a1b2c3d/slots/slot-2/.claude.json" vols
       = None.
Proof.
  assert (exists vols (fs' : node Sim.text),
            Volumes.prepare_volumes "/home/u/.aibox/projects/demo-0a1b2c3d" "/home/u/demo"
              (fun _ => true) (fun _ => true) (fun s => s) (fun _ => true)
              2 "claude" [".claude"; ".claude.json"]
              [ {| source := "/data"; target := "/data"; mount_mode := "rw" |} ]
              Sim.gapped_fs = Ok (vols, fs'))
    as (vols & fs' & H) by (vm_compute; eauto).
  exists vols, fs'. split; [exact H|].
  destruct (provider_paths_mounted _ _ _ _ _ _ _ _ _ _ _ _ _ H) as (_ & _ & Hpaths).
  destruct (Hpaths [] ".claude" [".claude.json"] eq_refl) as (Hmade & _ & Hmount & _).
  destruct (Hpaths [".claude"] ".claude.json" [] eq_refl) as (_ & Hleft & _ & Homit & _).
  assert (forall m, m ∈ [ {| source := "/data"; target := "/data"; mount_mode := "rw" |} ] ->
            forall k, k <> "/data" -> source m <> k) as Hcustom.
  { intros m ->%list_elem_of_singleton k Hk. simpl. congruence. }
  assert (Fs.exists_ ["slots"; "slot-2"; ".claude.json"] fs' = false) as Hgone.
  { apply Hleft.
    - vm_compute. reflexivity.
    - vm_compute. intros Hs. discriminate Hs.
    - intros p [->|[->|[]%elem_of_nil]%elem_of_cons]%elem_of_cons.
      + intros [k Hk]. vm_compute in Hk. discriminate Hk.
      + reflexivity. }
  split; [|split; [|split; [exact Hgone|]]].
  - apply Hmade; vm_compute; reflexivity.
  - apply Hmount.
    + right. vm_compute. reflexivity.
    + left. reflexivity.
    + intros p ->%list_elem_of_singleton. vm_compute. intros Hs. discriminate Hs.
    + intros _. vm_compute. intros Hs. discriminate Hs.
    + intros m Hm. apply (Hcustom m Hm). vm_compute. intros Hs. discriminate Hs.
  - apply Homit.
    + exact Hgone.
    + vm_compute. intros Hs. discriminate Hs.
    + intros m Hm. apply (Hcustom m Hm). vm_compute. intros Hs. discriminate Hs.
Defined.

(** C8 as stated fails: a custom mount whose source is the host path of a
    configuration path of the provider takes the place of the mount of
    that path.  Here [.claude] of slot 1 is created, and the mounts that
    are returned bind it to [/x], read-only. *)
Lemma custom_mount_replaces_provider_mount :
  exists fs' : node Sim.text,
    Volumes.prepare_volumes "/home/u/.aibox/projects/demo-0a1b2c3d" "/home/u/demo"
      (fun _ => true) (fun _ => true) (fun s => s) (fun _ => true)
      1 "claude" [".claude"]
      [ {| source := "/home/u/.aibox/projects/demo-0a1b2c3d/slots/slot-1/.claude";
           target := "/x"; mount_mode := "ro" |} ]
      Sim.empty_fs
    = Ok ([ ("/home/u/demo", {| bind_to := "/workspace"; mode := "rw" |});
            ("/home/u/.aibox/projects/demo-0a1b2c3d/slots/slot-1/.claude",
             {| bind_to := "/x"; mode := "ro" |}) ], fs')
    /\ Fs.is_dir ["slots"; "slot-1"; ".claude"] fs' = true.
Proof. eexists. split; vm_compute; reflexivity. Qed.
